(** * Flight-confirmation import: classifier, extractor, deduplicator, state ledger

    A shallow embedding of the Python package [flight_processor]
    (parsers/classifier.py, parsers/flight_parser.py, dedup/deduplicator.py,
    state/state_manager.py and the Phase 1 sweep of main.py), followed by the
    properties of the specification stated over it. The rest of main.py
    (Phase 2, the content of a message), utils/dry_run.py, utils/retry.py,
    search/email_searcher.py, forward/label_manager.py and
    forward/email_forwarder.py come after, with further properties of the
    code at the end.

    Conventions.
    - A Python [str] is a [string]; [len], [upper], [lower] and [strip] act
      on its characters as ASCII.
    - A value that may be [None] is an [option]; a dictionary with a fixed
      set of optional keys is a record of options.
    - Functions of third-party libraries ([json.loads], [re.search],
      [re.findall], [fuzz.ratio]) are variables of the section that uses
      them; modules [Regex], [JsonText] and [Fuzz] supply executable
      instances.
    - An HTML body is the tree BeautifulSoup builds from it. *)

From Stdlib Require Import ZArith String Ascii List Bool Lia.
From stdpp Require Import base option list strings gmap.

Set Warnings "-register-all".
Local Open Scope string_scope.
Local Open Scope list_scope.
Local Open Scope Z_scope.

(** ** Python strings *)

Module Py.

Definition is_upper (c : ascii) : bool :=
  ((65 <=? nat_of_ascii c) && (nat_of_ascii c <=? 90))%nat.

Definition is_lower (c : ascii) : bool :=
  ((97 <=? nat_of_ascii c) && (nat_of_ascii c <=? 122))%nat.

Definition upper_char (c : ascii) : ascii :=
  if is_lower c then ascii_of_nat (nat_of_ascii c - 32) else c.

Definition lower_char (c : ascii) : ascii :=
  if is_upper c then ascii_of_nat (nat_of_ascii c + 32) else c.

(** [s.upper()] and [s.lower()], on the letters of ASCII. *)
Fixpoint upper (s : string) : string :=
  match s with
  | EmptyString => EmptyString
  | String c s' => String (upper_char c) (upper s')
  end.

Fixpoint lower (s : string) : string :=
  match s with
  | EmptyString => EmptyString
  | String c s' => String (lower_char c) (lower s')
  end.

(** Truthiness of a string: [bool(s)]. *)
Definition truthy (s : string) : bool :=
  match s with EmptyString => false | String _ _ => true end.

(** Truthiness of a value that is a string or [None]. *)
Definition truthy_opt (o : option string) : bool :=
  match o with Some s => truthy s | None => false end.

(** [sub in s] for strings. *)
Fixpoint contains (sub s : string) : bool :=
  String.prefix sub s ||
  match s with
  | EmptyString => false
  | String _ s' => contains sub s'
  end.

(** [any(k in s for k in ks)]. *)
Definition contains_any (ks : list string) (s : string) : bool :=
  existsb (fun k => contains k s) ks.

(** The characters [str.strip()] removes. *)
Definition is_space (c : ascii) : bool :=
  let n := nat_of_ascii c in
  (((9 <=? n) && (n <=? 13)) || ((28 <=? n) && (n <=? 32)))%nat.

Fixpoint lstrip (s : string) : string :=
  match s with
  | EmptyString => EmptyString
  | String c s' => if is_space c then lstrip s' else s
  end.

Definition strip (s : string) : string :=
  String.rev (lstrip (String.rev (lstrip s))).

(** [len(s)]. *)
Definition len (s : string) : Z := Z.of_nat (String.length s).

(** Exceptions the modelled code can meet. *)
Inductive exn : Type :=
| TypeError
| AttributeError
| KeyError
| JSONDecodeError
| OtherError (msg : string).

(** A computation that returns or raises. *)
Inductive result (A : Type) : Type :=
| Ok (a : A)
| Raise (e : exn).
Global Arguments Ok {A} a.
Global Arguments Raise {A} e.

End Py.

(** ** JSON values, as [json.loads] returns them *)

Inductive json : Type :=
| JNull
| JBool (b : bool)
| JNum (repr : string)
| JStr (s : string)
| JArr (items : list json)
| JObj (members : list (string * json)).

Module Json.

(** [d.get(k)] on the members of a dictionary. *)
Fixpoint get (k : string) (members : list (string * json)) : option json :=
  match members with
  | [] => None
  | (k', v) :: rest => if String.eqb k k' then Some v else get k rest
  end.

(** [k in d]. *)
Definition has_key (k : string) (members : list (string * json)) : bool :=
  match get k members with Some _ => true | None => false end.

(** [v == s] for a string literal [s]. *)
Definition is_str (s : string) (v : json) : bool :=
  match v with JStr s' => String.eqb s s' | _ => false end.

(** [d.get(k) == s]; a missing key gives [None], which equals no string. *)
Definition field_is (k s : string) (members : list (string * json)) : bool :=
  match get k members with Some v => is_str s v | None => false end.

(** [s in v] for a string literal [s] and a JSON value [v]: substring of a
    string, element of a list, key of a dictionary; the other values are
    not containers and the test raises [TypeError]. *)
Definition str_in (s : string) (v : json) : Py.result bool :=
  match v with
  | JStr t => Py.Ok (Py.contains s t)
  | JArr items => Py.Ok (existsb (is_str s) items)
  | JObj members => Py.Ok (has_key s members)
  | JNull | JBool _ | JNum _ => Py.Raise Py.TypeError
  end.

End Json.

(** ** The document tree (BeautifulSoup with the lxml builder) *)

Inductive node : Type :=
| Text (s : string)
| Elem (name : string) (attrs : list (string * string)) (children : list node).

Module Soup.

(** [tag.get(k)]: the value of an attribute, [None] when it is missing. *)
Fixpoint attr (k : string) (attrs : list (string * string)) : option string :=
  match attrs with
  | [] => None
  | (k', v) :: rest => if String.eqb k k' then Some v else attr k rest
  end.

Definition get (k : string) (n : node) : option string :=
  match n with Text _ => None | Elem _ a _ => attr k a end.

(** All nodes below [n], in document order. *)
Fixpoint descendants (n : node) : list node :=
  match n with
  | Text _ => []
  | Elem _ _ cs => flat_map (fun c => c :: descendants c) cs
  end.

(** A tag named [nm] whose attribute [k] is exactly [v]. *)
Definition is_tag (nm : string) (n : node) : bool :=
  match n with Text _ => false | Elem nm' _ _ => String.eqb nm nm' end.

Definition is_tag_with (nm k v : string) (n : node) : bool :=
  match n with
  | Text _ => false
  | Elem nm' a _ =>
      String.eqb nm nm' &&
      match attr k a with Some v' => String.eqb v v' | None => false end
  end.

(** [n.find_all(nm)], [n.find_all([nm1, nm2])], [n.find_all(nm, k=v)]. *)
Definition find_all (nm : string) (n : node) : list node :=
  List.filter (is_tag nm) (descendants n).

Definition find_all_names (nms : list string) (n : node) : list node :=
  List.filter (fun d => existsb (fun nm => is_tag nm d) nms) (descendants n).

Definition find_all_with (nm k v : string) (n : node) : list node :=
  List.filter (is_tag_with nm k v) (descendants n).

(** [n.find(nm, k=v)]: the first match or [None]. *)
Definition find_with (nm k v : string) (n : node) : option node :=
  head (find_all_with nm k v n).

(** [tag.string]: the single string below a tag, [None] when the tag has
    no child, several children, or no single string further down. *)
Fixpoint string_of (n : node) : option string :=
  match n with
  | Text s => Some s
  | Elem _ _ [c] => string_of c
  | Elem _ _ _ => None
  end.

(** Tags whose content is not text for [get_text]. *)
Definition hidden (nm : string) : bool :=
  String.eqb nm "script" || String.eqb nm "style" || String.eqb nm "template".

(** [n.get_text()]: the strings below [n], concatenated. *)
Fixpoint get_text (n : node) : string :=
  match n with
  | Text s => s
  | Elem nm _ cs =>
      if hidden nm then ""
      else fold_right String.append "" (map get_text cs)
  end.

End Soup.

(** ** The e-mail as [extract_email_content] hands it on *)

(** [html_content] is [None] for the empty string (false in the source's
    [if html_content] tests) and otherwise the tree lxml builds from it. *)
Record email_data : Type := {
  message_id : string;
  thread_id : option string;
  subject : string;
  from_email : string;
  msg_date : string;
  html_content : option node;
  text_content : string
}.

(** Flags of [re.search]. *)
Inductive re_flag : Type := IGNORECASE.

(** ** parsers/classifier.py *)

Definition CONFIRMATION_PATTERNS : list string :=
  [ "(?i)(flight|booking|reservation).*confirm(ed|ation)";
    "(?i)confirm.*flight";
    "(?i)itinerary.*confirm";
    "(?i)booking.*confirm" ].

Definition EXCLUSION_PATTERNS : list string :=
  [ "(?i)cancel";
    "(?i)check[\s-]*in";
    "(?i)(change|update|modif)";
    "(?i)reminder";
    "(?i)expired" ].

Definition AIRLINE_DOMAINS : list string :=
  [ "united.com"; "delta.com"; "aa.com"; "americanairlines.com";
    "southwest.com"; "luv.southwest.com"; "jetblue.com";
    "alaskaair.com"; "spirit.com"; "frontier.com";
    "expedia.com"; "welcomemail.expedia.com"; "kayak.com"; "priceline.com" ].

Definition SCHEMA_FLIGHT_RESERVATION : string := "http://schema.org/FlightReservation".
Definition SCHEMA_FLIGHT : string := "http://schema.org/Flight".
Definition SCHEMA_AIRPORT : string := "http://schema.org/Airport".

Section Classifier.

(** [json.loads]: the decoded value, or the exception it raises. *)
Variable json_loads : string -> Py.result json.

(** [re.search(pattern, text, flags)]: [None], or the groups of the first
    match, group 0 first. *)
Variable re_search : string -> string -> list re_flag -> option (list string).

(** [re.findall(pattern, text)] for a pattern with at most one group. *)
Variable re_findall : string -> string -> list string.

(** [bool(pattern.search(text))]. *)
Definition matches (pattern text : string) : bool :=
  match re_search pattern text [] with Some _ => true | None => false end.

(** The test on one reservation object:
    [d.get('@type') == 'FlightReservation'] and then
    ['Confirmed' in d.get('reservationStatus', '')]. *)
Definition confirmed_reservation (members : list (string * json)) : Py.result bool :=
  if Json.field_is "@type" "FlightReservation" members then
    Json.str_in "Confirmed" (default (JStr "") (Json.get "reservationStatus" members))
  else Py.Ok false.

(** The loop over the items of a decoded list. [Ok true] is the source's
    [return True]; [Ok false] is the end of the loop. *)
Fixpoint confirmed_in_items (items : list json) : Py.result bool :=
  match items with
  | [] => Py.Ok false
  | JObj members :: rest =>
      match confirmed_reservation members with
      | Py.Ok true => Py.Ok true
      | Py.Ok false => confirmed_in_items rest
      | Py.Raise e => Py.Raise e
      end
  | _ :: rest => confirmed_in_items rest
  end.

(** The body of the inner [try] for one script. *)
Definition script_body (script : node) : Py.result bool :=
  match Soup.string_of script with
  | Some s =>
      if Py.truthy s then
        match json_loads s with
        | Py.Raise e => Py.Raise e
        | Py.Ok (JObj members) => confirmed_reservation members
        | Py.Ok (JArr items) => confirmed_in_items items
        | Py.Ok _ => Py.Ok false
        end
      else Py.Ok false
  | None => Py.Ok false
  end.

(** [except (json.JSONDecodeError, AttributeError): continue]. *)
Definition script_handled (script : node) : Py.result bool :=
  match script_body script with
  | Py.Raise Py.JSONDecodeError | Py.Raise Py.AttributeError => Py.Ok false
  | r => r
  end.

(** [for script in scripts]. *)
Fixpoint scan_scripts (scripts : list node) : Py.result bool :=
  match scripts with
  | [] => Py.Ok false
  | script :: rest =>
      match script_handled script with
      | Py.Ok true => Py.Ok true
      | Py.Ok false => scan_scripts rest
      | Py.Raise e => Py.Raise e
      end
  end.

(** [FlightClassifier.has_flight_reservation_schema]. The outer handler
    turns every exception into [False]. *)
Definition has_flight_reservation_schema (soup : node) : bool :=
  match scan_scripts (Soup.find_all_with "script" "type" "application/ld+json" soup) with
  | Py.Ok true => true
  | Py.Ok false =>
      match Soup.find_with "div" "itemtype" SCHEMA_FLIGHT_RESERVATION soup with
      | Some _ => true
      | None => false
      end
  | Py.Raise _ => false
  end.

(** [FlightClassifier.is_confirmation_subject]. *)
Definition is_confirmation_subject (subject : string) : bool :=
  let has_confirm := existsb (fun p => matches p subject) CONFIRMATION_PATTERNS in
  let has_exclusion := existsb (fun p => matches p subject) EXCLUSION_PATTERNS in
  has_confirm && negb has_exclusion.

(** [FlightClassifier.is_airline_domain]. *)
Definition is_airline_domain (from_email : string) : bool :=
  let from_lower := Py.lower from_email in
  existsb (fun domain => Py.contains domain from_lower) AIRLINE_DOMAINS.

(** [FlightClassifier.has_flight_markers]. *)
Definition has_flight_markers (text_content : string) : bool :=
  let confirmation_number := matches "\b[A-Z0-9]{6}\b" text_content in
  let flight_number := matches "\b[A-Z]{2}\d{1,4}\b" text_content in
  let airport_code :=
    2 <=? Z.of_nat (length (re_findall "\b[A-Z]{3}\b" text_content)) in
  let booking_ref :=
    matches "(?i)(confirmation|booking|reservation|pnr).{0,20}([A-Z0-9]{5,6})"
            text_content in
  3 <=? Z.b2z confirmation_number + Z.b2z flight_number
        + Z.b2z airport_code + Z.b2z booking_ref.

(** The first test of [classify]:
    [html_content and self.has_flight_reservation_schema(html_content)]. *)
Definition schema_signal (e : email_data) : bool :=
  match html_content e with
  | Some soup => has_flight_reservation_schema soup
  | None => false
  end.

(** [FlightClassifier.classify]: the pair [(is_flight, score)]. *)
Definition classify (e : email_data) : bool * Z :=
  let score := 0 in
  let score := if schema_signal e then score + 50 else score in
  let score := if is_airline_domain (from_email e) then score + 20 else score in
  let score := if is_confirmation_subject (subject e) then score + 20 else score in
  let combined_content := subject e +:+ " " +:+ text_content e in
  let score := if has_flight_markers combined_content then score + 10 else score in
  let is_flight := 50 <=? score in
  (is_flight, score).

End Classifier.

(** ** parsers/flight_parser.py *)

(** The dictionary [data] the strategies fill. A value copied from JSON-LD
    is whatever JSON value the markup holds; the other sources store
    strings. *)
Record flight_details : Type := {
  booking_reference : option json;
  flight_number : option json;
  departure_airport : option json;
  arrival_airport : option json;
  departure_time : option json;
  arrival_time : option json
}.

Module Details.

(** [{}]. *)
Definition empty : flight_details :=
  {| booking_reference := None; flight_number := None;
     departure_airport := None; arrival_airport := None;
     departure_time := None; arrival_time := None |}.

Definition set_booking_reference (v : json) (d : flight_details) : flight_details :=
  {| booking_reference := Some v; flight_number := flight_number d;
     departure_airport := departure_airport d; arrival_airport := arrival_airport d;
     departure_time := departure_time d; arrival_time := arrival_time d |}.

Definition set_flight_number (v : json) (d : flight_details) : flight_details :=
  {| booking_reference := booking_reference d; flight_number := Some v;
     departure_airport := departure_airport d; arrival_airport := arrival_airport d;
     departure_time := departure_time d; arrival_time := arrival_time d |}.

Definition set_departure_airport (v : json) (d : flight_details) : flight_details :=
  {| booking_reference := booking_reference d; flight_number := flight_number d;
     departure_airport := Some v; arrival_airport := arrival_airport d;
     departure_time := departure_time d; arrival_time := arrival_time d |}.

Definition set_arrival_airport (v : json) (d : flight_details) : flight_details :=
  {| booking_reference := booking_reference d; flight_number := flight_number d;
     departure_airport := departure_airport d; arrival_airport := Some v;
     departure_time := departure_time d; arrival_time := arrival_time d |}.

Definition set_departure_time (v : json) (d : flight_details) : flight_details :=
  {| booking_reference := booking_reference d; flight_number := flight_number d;
     departure_airport := departure_airport d; arrival_airport := arrival_airport d;
     departure_time := Some v; arrival_time := arrival_time d |}.

Definition set_arrival_time (v : json) (d : flight_details) : flight_details :=
  {| booking_reference := booking_reference d; flight_number := flight_number d;
     departure_airport := departure_airport d; arrival_airport := arrival_airport d;
     departure_time := departure_time d; arrival_time := Some v |}.

(** The fields of the dictionary, in a fixed order. *)
Definition fields (d : flight_details) : list (option json) :=
  [ booking_reference d; flight_number d; departure_airport d;
    arrival_airport d; departure_time d; arrival_time d ].

(** [bool(data)]: the dictionary has a key. *)
Definition truthy (d : flight_details) : bool :=
  existsb (fun f => match f with Some _ => true | None => false end) (fields d).

(** [data[k] = src[k]] when [k in src], for a dictionary [src]. *)
Definition copy_key (k : string) (src : list (string * json))
    (set : json -> flight_details -> flight_details) (d : flight_details) : flight_details :=
  match Json.get k src with Some v => set v d | None => d end.

End Details.

(** How the body of a loop ends: go on with the next element, or leave the
    function with [return data]. *)
Inductive flow : Type := Next | Return.

Section Parser.

Variable json_loads : string -> Py.result json.
Variable re_search : string -> string -> list re_flag -> option (list string).
Variable re_findall : string -> string -> list string.

(** [m.group(i)]. *)
Definition group (i : nat) (groups : list string) : string := nth i groups "".

(** The airport block: [a = flight.get(k, {})] and then
    [isinstance(a, dict) and 'iataCode' in a]. *)
Definition copy_iata (k : string) (flight : list (string * json))
    (set : json -> flight_details -> flight_details) (d : flight_details) : flight_details :=
  match Json.get k flight with
  | Some (JObj airport) => Details.copy_key "iataCode" airport set d
  | _ => d
  end.

(** The fields taken from a [reservationFor] object of type [Flight]. *)
Definition flight_fields (flight : list (string * json)) (d : flight_details) : flight_details :=
  let d := Details.copy_key "flightNumber" flight Details.set_flight_number d in
  let d := copy_iata "departureAirport" flight Details.set_departure_airport d in
  let d := copy_iata "arrivalAirport" flight Details.set_arrival_airport d in
  let d := Details.copy_key "departureTime" flight Details.set_departure_time d in
  Details.copy_key "arrivalTime" flight Details.set_arrival_time d.

(** One turn of [for item in items]. The dictionary [data] is updated in
    place, so what was written before an exception stays written. *)
Definition reservation_item (d : flight_details) (item : json)
    : flight_details * Py.result flow :=
  match item with
  | JObj members =>
      if Json.field_is "@type" "FlightReservation" members then
        let d := Details.copy_key "reservationNumber" members
                   Details.set_booking_reference d in
        match default (JObj []) (Json.get "reservationFor" members) with
        | JObj flight =>
            let d := if Json.field_is "@type" "Flight" flight
                     then flight_fields flight d else d in
            (d, Py.Ok (if Details.truthy d then Return else Next))
        | _ => (d, Py.Raise Py.AttributeError)
        end
      else (d, Py.Ok Next)
  | _ => (d, Py.Ok Next)
  end.

Fixpoint reservation_items (d : flight_details) (items : list json)
    : flight_details * Py.result flow :=
  match items with
  | [] => (d, Py.Ok Next)
  | item :: rest =>
      match reservation_item d item with
      | (d', Py.Ok Next) => reservation_items d' rest
      | r => r
      end
  end.

(** The characters of a string, as [for item in s] yields them. *)
Fixpoint chars (s : string) : list json :=
  match s with
  | EmptyString => []
  | String c s' => JStr (String c EmptyString) :: chars s'
  end.

(** [items = [json_data] if isinstance(json_data, dict) else json_data],
    as the [for] statement then iterates over it. *)
Definition items_of (json_data : json) : Py.result (list json) :=
  match json_data with
  | JObj _ => Py.Ok [json_data]
  | JArr items => Py.Ok items
  | JStr s => Py.Ok (chars s)
  | JNull | JBool _ | JNum _ => Py.Raise Py.TypeError
  end.

(** The body of the [try] for one script. *)
Definition ld_script_body (d : flight_details) (script : node)
    : flight_details * Py.result flow :=
  match Soup.string_of script with
  | Some s =>
      if Py.truthy s then
        match json_loads s with
        | Py.Raise e => (d, Py.Raise e)
        | Py.Ok json_data =>
            match items_of json_data with
            | Py.Raise e => (d, Py.Raise e)
            | Py.Ok items => reservation_items d items
            end
        end
      else (d, Py.Ok Next)
  | None => (d, Py.Ok Next)
  end.

(** [except (json.JSONDecodeError, AttributeError, KeyError): continue]. *)
Definition ld_script (d : flight_details) (script : node)
    : flight_details * Py.result flow :=
  match ld_script_body d script with
  | (d', Py.Raise Py.JSONDecodeError)
  | (d', Py.Raise Py.AttributeError)
  | (d', Py.Raise Py.KeyError) => (d', Py.Ok Next)
  | r => r
  end.

Fixpoint ld_scripts (d : flight_details) (scripts : list node)
    : flight_details * Py.result flow :=
  match scripts with
  | [] => (d, Py.Ok Next)
  | script :: rest =>
      match ld_script d script with
      | (d', Py.Ok Next) => ld_scripts d' rest
      | r => r
      end
  end.

(** [m = tag.find('meta', itemprop=prop)] and then
    [if m and m.get('content')]: the content, when it is there and not
    empty. *)
Definition meta_content (prop : string) (tag : node) : option string :=
  match Soup.find_with "meta" "itemprop" prop tag with
  | Some m =>
      match Soup.get "content" m with
      | Some c => if Py.truthy c then Some c else None
      | None => None
      end
  | None => None
  end.

Definition set_meta (prop : string) (tag : node)
    (set : json -> flight_details -> flight_details) (d : flight_details) : flight_details :=
  match meta_content prop tag with Some c => set (JStr c) d | None => d end.

(** The Microdata part of [parse_schema_org]. *)
Definition microdata (soup : node) (d : flight_details) : flight_details :=
  match Soup.find_with "div" "itemtype" SCHEMA_FLIGHT_RESERVATION soup with
  | Some reservation =>
      let d := set_meta "reservationNumber" reservation Details.set_booking_reference d in
      match Soup.find_with "div" "itemtype" SCHEMA_FLIGHT reservation with
      | Some flight =>
          let d := set_meta "flightNumber" flight Details.set_flight_number d in
          match Soup.find_all_with "div" "itemtype" SCHEMA_AIRPORT flight with
          | a0 :: a1 :: _ =>
              let d := set_meta "iataCode" a0 Details.set_departure_airport d in
              set_meta "iataCode" a1 Details.set_arrival_airport d
          | _ => d
          end
      | None => d
      end
  | None => d
  end.

(** [FlightParser.parse_schema_org]. *)
Definition parse_schema_org (soup : node) : Py.result (option flight_details) :=
  let scripts := Soup.find_all_with "script" "type" "application/ld+json" soup in
  match ld_scripts Details.empty scripts with
  | (d, Py.Ok Return) => Py.Ok (Some d)
  | (d, Py.Ok Next) =>
      let d := microdata soup d in
      Py.Ok (if Details.truthy d then Some d else None)
  | (_, Py.Raise e) => Py.Raise e
  end.

(** The keywords that make a table a candidate. *)
Definition TABLE_KEYWORDS : list string :=
  [ "flight"; "booking"; "departure"; "arrival" ].

(** [any(keyword in table.get_text().lower() for keyword in ...)]. *)
Definition table_has_keyword (table : node) : bool :=
  let table_text := Py.lower (Soup.get_text table) in
  Py.contains_any TABLE_KEYWORDS table_text.

(** [match = re.search(r'\b([A-Z]{3})\b', value)] and then
    [if match: data[k] = match.group(1)]. *)
Definition set_airport_code (value : string)
    (set : json -> flight_details -> flight_details) (d : flight_details) : flight_details :=
  match re_search "\b([A-Z]{3})\b" value [] with
  | Some groups => set (JStr (group 1 groups)) d
  | None => d
  end.

(** One turn of [for row in rows]. *)
Definition table_row (d : flight_details) (row : node) : flight_details :=
  match Soup.find_all_names ["td"; "th"] row with
  | c0 :: c1 :: _ =>
      let key := Py.lower (Py.strip (Soup.get_text c0)) in
      let value := Py.strip (Soup.get_text c1) in
      if (Py.contains "booking" key || Py.contains "confirmation" key
          || Py.contains "pnr" key) && (5 <=? Py.len value)
      then Details.set_booking_reference (JStr value) d
      else if Py.contains "flight" key && Py.contains "number" key
      then Details.set_flight_number (JStr value) d
      else if Py.contains "departure" key
      then
        if Py.contains "airport" key || Py.contains "from" key
        then set_airport_code value Details.set_departure_airport d
        else d
      else if Py.contains "arrival" key || Py.contains "destination" key
      then
        if Py.contains "airport" key || Py.contains "to" key
        then set_airport_code value Details.set_arrival_airport d
        else d
      else d
  | _ => d
  end.

(** The dictionary one table gives: [data = {}] and the loop over its rows. *)
Definition table_fields (table : node) : flight_details :=
  fold_left table_row (Soup.find_all "tr" table) Details.empty.

(** [for table in tables]. *)
Fixpoint scan_tables (tables : list node) : option flight_details :=
  match tables with
  | [] => None
  | table :: rest =>
      if table_has_keyword table then
        let d := table_fields table in
        if Details.truthy d then Some d else scan_tables rest
      else scan_tables rest
  end.

(** [FlightParser.parse_html_table]. *)
Definition parse_html_table (soup : node) : option flight_details :=
  scan_tables (Soup.find_all "table" soup).

(** [s.replace(' ', '')]. *)
Fixpoint remove_spaces (s : string) : string :=
  match s with
  | EmptyString => EmptyString
  | String c s' =>
      if Ascii.eqb c " "%char then remove_spaces s' else String c (remove_spaces s')
  end.

Definition FALSE_POSITIVES : list string :=
  [ "THE"; "AND"; "FOR"; "YOU"; "NOT"; "ARE"; "WAS"; "BUT" ].

(** [FlightParser.extract_flight_info_regex]. *)
Definition extract_flight_info_regex (text : string) : option flight_details :=
  let d := Details.empty in
  let d :=
    match re_search "(?:booking|confirmation|reference|pnr)[:\s]+([A-Z0-9]{5,7})"
                    text [IGNORECASE] with
    | Some booking => Details.set_booking_reference (JStr (Py.upper (group 1 booking))) d
    | None => d
    end in
  let d :=
    match re_search "\b([A-Z]{2}\s?\d{3,4})\b" text [] with
    | Some flight => Details.set_flight_number (JStr (remove_spaces (group 1 flight))) d
    | None => d
    end in
  let d :=
    match re_search "\b([A-Z]{3})\s*(?:to|→|-|–)\s*([A-Z]{3})\b" text [] with
    | Some airports =>
        Details.set_arrival_airport (JStr (group 2 airports))
          (Details.set_departure_airport (JStr (group 1 airports)) d)
    | None => d
    end in
  let d :=
    match departure_airport d with
    | Some _ => d
    | None =>
        let codes := re_findall "\b([A-Z]{3})\b" text in
        let codes :=
          List.filter (fun c => negb (existsb (String.eqb c) FALSE_POSITIVES)) codes in
        match codes with
        | c0 :: c1 :: _ =>
            Details.set_arrival_airport (JStr c1)
              (Details.set_departure_airport (JStr c0) d)
        | _ => d
        end
    end in
  if Details.truthy d then Some d else None.

(** [if data:] for what a strategy returned: a dictionary or [None]. *)
Definition found (data : option flight_details) : bool :=
  match data with Some d => Details.truthy d | None => false end.

(** [FlightParser.parse]. Each strategy runs inside its own [try]: an
    exception is logged and the cascade goes on as if the strategy had
    found nothing. [parse_html_table] and [extract_flight_info_regex]
    have no raising path of their own. *)
Definition parse (e : email_data) : option flight_details :=
  let html_content := html_content e in
  let text_content := text_content e in
  (* Strategy 1: Schema.org markup *)
  let data :=
    match html_content with
    | Some soup =>
        match parse_schema_org soup with
        | Py.Ok data => if found data then data else None
        | Py.Raise _ => None
        end
    | None => None
    end in
  match data with
  | Some _ => data
  | None =>
      (* Strategy 2: HTML table parsing *)
      let data :=
        match html_content with
        | Some soup =>
            let data := parse_html_table soup in
            if found data then data else None
        | None => None
        end in
      match data with
      | Some _ => data
      | None =>
          (* Strategy 3: regex on text content *)
          let combined_text :=
            match html_content with
            | Some soup => Soup.get_text soup +:+ " " +:+ text_content
            | None => text_content
            end in
          let data := extract_flight_info_regex combined_text in
          if found data then data else None
      end
  end.

End Parser.

(** ** dedup/deduplicator.py *)

(** A row of the [emails] table, as [get_unprocessed_emails] returns it. *)
Record email_record : Type := {
  rec_message_id : string;
  rec_thread_id : option string;
  rec_subject : option string;
  rec_from_email : option string;
  rec_msg_date : option string;
  pnr : option string;
  rec_flight_number : option string;
  rec_departure_airport : option string;
  rec_arrival_airport : option string
}.

Record Deduplicator : Type := { fuzzy_threshold : Z }.

Section Dedup.

(** [fuzz.ratio]: a similarity score between 0 and 100. *)
Variable fuzz_ratio : string -> string -> Z.

Variable self : Deduplicator.

(** [Deduplicator.are_pnrs_duplicate]. *)
Definition are_pnrs_duplicate (pnr1 pnr2 : option string) : bool :=
  match pnr1, pnr2 with
  | Some p1, Some p2 =>
      if negb (Py.truthy p1) || negb (Py.truthy p2) then false
      else if String.eqb (Py.upper p1) (Py.upper p2) then true
      else
        let score := fuzz_ratio (Py.upper p1) (Py.upper p2) in
        fuzzy_threshold self <=? score
  | _, _ => false
  end.

(** The lists of message ids live in a store: [processed_pnrs] and
    [duplicates] hold references to them, and a list entered in
    [duplicates] is the very list [processed_pnrs] keeps appending to. *)
Record groups : Type := {
  store : list (list string);
  processed_pnrs : list (string * nat);
  duplicates : list (string * nat)
}.

(** [msg_ids.append(message_id)] on the list at [loc]. *)
Definition append_at (loc : nat) (message_id : string)
    (st : list (list string)) : list (list string) :=
  match st !! loc with
  | Some ids => <[loc := ids ++ [message_id]]> st
  | None => st
  end.

(** [d[k] = v]: a new key goes last, a known key keeps its place. *)
Fixpoint dict_set (k : string) (v : nat) (d : list (string * nat)) : list (string * nat) :=
  match d with
  | [] => [(k, v)]
  | (k', v') :: rest =>
      if String.eqb k k' then (k, v) :: rest else (k', v') :: dict_set k v rest
  end.

(** [k in d]. *)
Definition dict_has (k : string) (d : list (string * nat)) : bool :=
  existsb (fun kv => String.eqb k (fst kv)) d.

(** [for known_pnr, msg_ids in list(processed_pnrs.items())]: the first
    known reference the new one matches. *)
Definition first_match (pnr_upper : string) (known : list (string * nat))
    : option (string * nat) :=
  List.find (fun kv => are_pnrs_duplicate (Some pnr_upper) (Some (fst kv))) known.

(** One turn of [for email in emails] in [find_duplicates]. *)
Definition group_email (g : groups) (email : email_record) : groups :=
  let message_id := rec_message_id email in
  match pnr email with
  | Some p =>
      if Py.truthy p then
        let pnr_upper := Py.upper p in
        match first_match pnr_upper (processed_pnrs g) with
        | Some (known_pnr, loc) =>
            {| store := append_at loc message_id (store g);
               processed_pnrs := processed_pnrs g;
               duplicates :=
                 if dict_has known_pnr (duplicates g) then duplicates g
                 else dict_set known_pnr loc (duplicates g) |}
        | None =>
            {| store := store g ++ [[message_id]];
               processed_pnrs := dict_set pnr_upper (length (store g)) (processed_pnrs g);
               duplicates := duplicates g |}
        end
      else g
  | None => g
  end.

(** [{pnr: ids for pnr, ids in duplicates.items() if len(ids) > 1}]. *)
Definition keep_groups (st : list (list string)) (d : list (string * nat))
    : list (string * list string) :=
  List.filter (fun kv => 1 <? Z.of_nat (length (snd kv)))
    (map (fun kv => (fst kv, default [] (st !! snd kv))) d).

(** [Deduplicator.find_duplicates]: the groups in the order their keys
    entered [duplicates]. *)
Definition find_duplicates (emails : list email_record) : list (string * list string) :=
  let g := fold_left group_email emails
             {| store := []; processed_pnrs := []; duplicates := [] |} in
  keep_groups (store g) (duplicates g).

(** [for seen_pnr in seen_pnrs: if self.are_pnrs_duplicate(pnr, seen_pnr)]. *)
Definition is_duplicate (p : string) (seen_pnrs : gset string) : bool :=
  existsb (fun seen_pnr => are_pnrs_duplicate (Some p) (Some seen_pnr))
          (elements seen_pnrs).

(** The loop of [get_unique_emails], from a given [seen_pnrs]. *)
Fixpoint unique_from (seen_pnrs : gset string) (emails : list email_record)
    : list email_record :=
  match emails with
  | [] => []
  | email :: rest =>
      let p :=
        match pnr email with
        | Some p => if Py.truthy p then Some (Py.upper p) else None
        | None => None
        end in
      match p with
      | Some p =>
          if Py.truthy p then
            if is_duplicate p seen_pnrs then unique_from seen_pnrs rest
            else email :: unique_from ({[ p ]} ∪ seen_pnrs) rest
          else email :: unique_from seen_pnrs rest
      | None => email :: unique_from seen_pnrs rest
      end
  end.

(** [Deduplicator.get_unique_emails]. *)
Definition get_unique_emails (emails : list email_record) : list email_record :=
  unique_from ∅ emails.

End Dedup.

(** ** state/state_manager.py *)

(** A row of [processing_state]. Rows are only ever inserted. *)
Record processing_event : Type := {
  ev_message_id : string;
  ev_phase : string;
  ev_status : string;
  ev_error_message : option string
}.

(** The SQLite file: [emails] keyed by its primary key, [processing_state]
    in insertion order. *)
Record database : Type := {
  emails : gmap string email_record;
  processing_state : list processing_event
}.

Module StateManager.

(** The [WHERE] clause of [is_email_processed]. *)
Definition is_success_for (message_id phase : string) (ev : processing_event) : bool :=
  String.eqb (ev_message_id ev) message_id
  && String.eqb (ev_phase ev) phase
  && String.eqb (ev_status ev) "SUCCESS".

(** [StateManager.is_email_processed]: [SELECT 1 ... LIMIT 1] returned a
    row. *)
Definition is_email_processed (db : database) (message_id phase : string) : bool :=
  existsb (is_success_for message_id phase) (processing_state db).

(** [StateManager.mark_email_processed]. *)
Definition mark_email_processed (db : database) (message_id phase status : string)
    (error_msg : option string) : database :=
  {| emails := emails db;
     processing_state :=
       processing_state db ++
       [ {| ev_message_id := message_id; ev_phase := phase;
            ev_status := status; ev_error_message := error_msg |} ] |}.

(** What SQLite stores in a [TEXT] column for a bound value; a list or a
    dictionary cannot be bound and the [execute] call raises. A number
    stands here by the text read; the text SQLite gives a number is not
    modelled, and what is proved of the stored fields is proved for texts
    and absent values. *)
Definition bind_text (v : option json) : Py.result (option string) :=
  match v with
  | None | Some JNull => Py.Ok None
  | Some (JStr s) => Py.Ok (Some s)
  | Some (JNum repr) => Py.Ok (Some repr)
  | Some (JBool b) => Py.Ok (Some (if b then "1" else "0"))
  | Some (JArr _) | Some (JObj _) =>
      Py.Raise (Py.OtherError "Error binding parameter: type is not supported")
  end.

(** [StateManager.save_email]: [INSERT OR REPLACE] on the primary key. *)
Definition save_email (db : database) (message_id : string)
    (thread_id subject from_email msg_date : option string)
    (pnr flight_number departure_airport arrival_airport : option json)
    : Py.result database :=
  match bind_text pnr, bind_text flight_number,
        bind_text departure_airport, bind_text arrival_airport with
  | Py.Ok p, Py.Ok f, Py.Ok d, Py.Ok a =>
      Py.Ok
        {| emails :=
             <[ message_id :=
                {| rec_message_id := message_id; rec_thread_id := thread_id;
                   rec_subject := subject; rec_from_email := from_email;
                   rec_msg_date := msg_date; pnr := p; rec_flight_number := f;
                   rec_departure_airport := d; rec_arrival_airport := a |} ]>
             (emails db);
           processing_state := processing_state db |}
  | Py.Raise e, _, _, _ | _, Py.Raise e, _, _
  | _, _, Py.Raise e, _ | _, _, _, Py.Raise e => Py.Raise e
  end.

(** [StateManager.get_email]. *)
Definition get_email (db : database) (message_id : string) : option email_record :=
  emails db !! message_id.

End StateManager.

(** ** main.py: Phase 1 *)

Definition PHASE1_LABEL : string := "PHASE1_LABEL".

(** [str(e)]. *)
Definition exn_message (e : Py.exn) : string :=
  match e with
  | Py.TypeError => "TypeError"
  | Py.AttributeError => "AttributeError"
  | Py.KeyError => "KeyError"
  | Py.JSONDecodeError => "JSONDecodeError"
  | Py.OtherError msg => msg
  end.

(** What the sweep has done so far: the database, the batch to label, and
    the messages it asked the mail service for, oldest first. *)
Record sweep : Type := {
  db : database;
  flight_messages : list string;
  fetched : list string
}.

Section Phase1.

Variable json_loads : string -> Py.result json.
Variable re_search : string -> string -> list re_flag -> option (list string).
Variable re_findall : string -> string -> list string.

(** [searcher.get_message(msg_id, format='full')] followed by
    [extract_email_content]: the content, or the exception raised on the
    way. *)
Variable get_message : string -> Py.result email_data.

(** What happens to a message inside the [try]: the database after
    [save_email] and whether the message joins the batch, or the
    exception that ends the attempt. *)
Definition attempt (d : database) (msg_id : string) : Py.result (database * bool) :=
  match get_message msg_id with
  | Py.Raise e => Py.Raise e
  | Py.Ok email_data =>
      let '(is_flight, score) := classify json_loads re_search re_findall email_data in
      if is_flight then
        let flight_details := parse json_loads re_search re_findall email_data in
        match
          StateManager.save_email d msg_id
            (thread_id email_data) (Some (subject email_data))
            (Some (from_email email_data)) (Some (msg_date email_data))
            (flight_details ≫= booking_reference)
            (flight_details ≫= flight_number)
            (flight_details ≫= departure_airport)
            (flight_details ≫= arrival_airport)
        with
        | Py.Raise e => Py.Raise e
        | Py.Ok d' =>
            Py.Ok (StateManager.mark_email_processed d' msg_id PHASE1_LABEL "SUCCESS" None,
                   true)
        end
      else
        Py.Ok (StateManager.mark_email_processed d msg_id PHASE1_LABEL "SKIPPED" None,
               false)
  end.

(** One turn of [for i, msg_ref in enumerate(message_list, 1)]. *)
Definition sweep_message (s : sweep) (msg_id : string) : sweep :=
  if StateManager.is_email_processed (db s) msg_id PHASE1_LABEL then s
  else
    match attempt (db s) msg_id with
    | Py.Ok (d', is_flight) =>
        {| db := d';
           flight_messages :=
             if is_flight then flight_messages s ++ [msg_id] else flight_messages s;
           fetched := fetched s ++ [msg_id] |}
    | Py.Raise e =>
        {| db := StateManager.mark_email_processed (db s) msg_id PHASE1_LABEL
                   "FAILED" (Some (exn_message e));
           flight_messages := flight_messages s;
           fetched := fetched s ++ [msg_id] |}
    end.

(** [phase1_label_emails], from the message list the search returned to
    the end of the loop. The label is then applied to [flight_messages]. *)
Definition phase1_label_emails (d : database) (message_list : list string) : sweep :=
  fold_left sweep_message message_list
    {| db := d; flight_messages := []; fetched := [] |}.

End Phase1.

(** * Reference instances of the library functions

    Executable stand-ins for [re], [json] and [fuzz], used to run the model
    on concrete e-mails. The results stated further down for every instance
    of the library functions do not depend on them. *)

Module Regex.

(** A character class. *)
Inductive cls : Type :=
| Any                          (* . *)
| Space                        (* \s *)
| Digit                        (* \d *)
| Range (lo hi : ascii)        (* a-z *)
| One (c : ascii)
| Union (a b : cls).

(** The patterns the program uses: literals, classes, greedy repetition of
    a class, alternation, groups and the word boundary. *)
Inductive re : Type :=
| Lit (s : string)
| Cls (c : cls)
| Rep (c : cls) (lo : nat) (hi : option nat)
| Seq (r1 r2 : re)
| Alt (r1 r2 : re)
| Grp (i : nat) (r : re)
| WordB.

Definition between (lo hi c : ascii) : bool :=
  ((nat_of_ascii lo <=? nat_of_ascii c) && (nat_of_ascii c <=? nat_of_ascii hi))%nat.

Fixpoint in_cls (ci : bool) (k : cls) (c : ascii) : bool :=
  match k with
  | Any => negb (Ascii.eqb c "010"%char)
  | Space => Py.is_space c
  | Digit => between "0" "9" c
  | Range lo hi =>
      between lo hi c
      || (ci && (between lo hi (Py.upper_char c) || between lo hi (Py.lower_char c)))
  | One x =>
      if ci then Ascii.eqb (Py.lower_char x) (Py.lower_char c) else Ascii.eqb x c
  | Union a b => in_cls ci a c || in_cls ci b c
  end.

(** [\w] on ASCII. *)
Definition is_word (c : option ascii) : bool :=
  match c with
  | Some c =>
      between "a" "z" c || between "A" "Z" c || between "0" "9" c
      || Ascii.eqb c "_"
  | None => false
  end.

Definition first (s : string) : option ascii :=
  match s with EmptyString => None | String c _ => Some c end.

(** The text between two positions given by what is left to read. *)
Definition consumed (before after : string) : string :=
  String.substring 0 (String.length before - String.length after) before.

(** A literal at the head of the text: the last character read and what
    is left. *)
Fixpoint eat (ci : bool) (lit : string) (prev : option ascii) (s : string)
    : option (option ascii * string) :=
  match lit with
  | EmptyString => Some (prev, s)
  | String x lit' =>
      match s with
      | String c s' => if in_cls ci (One x) c then eat ci lit' (Some c) s' else None
      | EmptyString => None
      end
  end.

Definition caps : Type := list (nat * string).

Section Match.
Context {R : Type}.
Variable ci : bool.

(** Greedy repetition with backtracking: take one more character while
    the bounds allow it, fall back to stopping here. *)
Fixpoint rep (k : cls) (lo : nat) (hi : option nat) (prev : option ascii)
    (s : string) (cont : option ascii -> string -> option R) : option R :=
  let stop := match lo with O => cont prev s | S _ => None end in
  let more := match hi with Some O => false | _ => true end in
  match s with
  | String c s' =>
      if more && in_cls ci k c then
        match rep k (Nat.pred lo) (Nat.pred <$> hi) (Some c) s' cont with
        | Some r => Some r
        | None => stop
        end
      else stop
  | EmptyString => stop
  end.

(** Backtracking matcher in continuation style: alternatives are tried
    left to right, as [re] does. *)
Fixpoint run (r : re) (prev : option ascii) (s : string) (cs : caps)
    (cont : option ascii -> string -> caps -> option R) : option R :=
  match r with
  | Lit lit =>
      match eat ci lit prev s with
      | Some (prev', s') => cont prev' s' cs
      | None => None
      end
  | Cls k =>
      match s with
      | String c s' => if in_cls ci k c then cont (Some c) s' cs else None
      | EmptyString => None
      end
  | Rep k lo hi => rep k lo hi prev s (fun prev' s' => cont prev' s' cs)
  | Seq r1 r2 => run r1 prev s cs (fun prev' s' cs' => run r2 prev' s' cs' cont)
  | Alt r1 r2 =>
      match run r1 prev s cs cont with
      | Some x => Some x
      | None => run r2 prev s cs cont
      end
  | Grp i r1 =>
      run r1 prev s cs (fun prev' s' cs' => cont prev' s' ((i, consumed s s') :: cs'))
  | WordB =>
      if xorb (is_word prev) (is_word (first s)) then cont prev s cs else None
  end.
End Match.

Definition cap (cs : caps) (i : nat) : string :=
  match List.find (fun c => Nat.eqb (fst c) i) cs with
  | Some (_, s) => s
  | None => ""
  end.

(** A match at the head of [s]: what is left, and groups 0 to [n]. *)
Definition match_here (ci : bool) (r : re) (n : nat) (prev : option ascii) (s : string)
    : option (string * list string) :=
  run ci r prev s [] (fun _ s' cs =>
    Some (s', consumed s s' :: map (cap cs) (seq 1 n))).

(** The leftmost match. *)
Fixpoint search_from (ci : bool) (r : re) (n : nat) (prev : option ascii) (s : string)
    : option (list string) :=
  match match_here ci r n prev s with
  | Some (_, groups) => Some groups
  | None =>
      match s with
      | String c s' => search_from ci r n (Some c) s'
      | EmptyString => None
      end
  end.

Definition last_char (s : string) (prev : option ascii) : option ascii :=
  match String.rev s with String c _ => Some c | EmptyString => prev end.

(** All matches, left to right, without overlap; each is given by its
    group 1 when the pattern has one and by the whole match otherwise. *)
Fixpoint findall_from (fuel : nat) (ci : bool) (r : re) (n : nat)
    (prev : option ascii) (s : string) : list string :=
  match fuel with
  | O => []
  | S fuel' =>
      match match_here ci r n prev s with
      | Some (s', groups) =>
          let hit := match n with O => nth 0 groups "" | S _ => nth 1 groups "" end in
          if (String.length s' <? String.length s)%nat
          then hit :: findall_from fuel' ci r n (last_char (consumed s s') prev) s'
          else
            hit :: match s with
                   | String c s1 => findall_from fuel' ci r n (Some c) s1
                   | EmptyString => []
                   end
      | None =>
          match s with
          | String c s1 => findall_from fuel' ci r n (Some c) s1
          | EmptyString => []
          end
      end
  end.

(** Shorthands. *)
Definition upper_or_digit : cls := Union (Range "A" "Z") (Range "0" "9").
Definition upper_letter : cls := Range "A" "Z".
Definition alts (ss : list string) : re :=
  match ss with
  | [] => Lit ""
  | s :: rest => fold_left (fun r t => Alt r (Lit t)) rest (Lit s)
  end.
Definition exactly (k : cls) (n : nat) : re := Rep k n (Some n).

(** A compiled pattern: case folding, the expression, the number of
    groups. *)
Definition compiled : Type := (bool * re * nat)%type.

(** The patterns of classifier.py and flight_parser.py. *)
Definition PATTERNS : list (string * compiled) :=
  [ ("(?i)(flight|booking|reservation).*confirm(ed|ation)",
     (true,
      Seq (Grp 1 (alts ["flight"; "booking"; "reservation"]))
        (Seq (Rep Any 0 None) (Seq (Lit "confirm") (Grp 2 (alts ["ed"; "ation"])))),
      2%nat));
    ("(?i)confirm.*flight",
     (true, Seq (Lit "confirm") (Seq (Rep Any 0 None) (Lit "flight")), 0%nat));
    ("(?i)itinerary.*confirm",
     (true, Seq (Lit "itinerary") (Seq (Rep Any 0 None) (Lit "confirm")), 0%nat));
    ("(?i)booking.*confirm",
     (true, Seq (Lit "booking") (Seq (Rep Any 0 None) (Lit "confirm")), 0%nat));
    ("(?i)cancel", (true, Lit "cancel", 0%nat));
    ("(?i)check[\s-]*in",
     (true, Seq (Lit "check") (Seq (Rep (Union Space (One "-")) 0 None) (Lit "in")), 0%nat));
    ("(?i)(change|update|modif)",
     (true, Grp 1 (alts ["change"; "update"; "modif"]), 1%nat));
    ("(?i)reminder", (true, Lit "reminder", 0%nat));
    ("(?i)expired", (true, Lit "expired", 0%nat));
    ("\b[A-Z0-9]{6}\b",
     (false, Seq WordB (Seq (exactly upper_or_digit 6) WordB), 0%nat));
    ("\b[A-Z]{2}\d{1,4}\b",
     (false, Seq WordB (Seq (exactly upper_letter 2) (Seq (Rep Digit 1 (Some 4%nat)) WordB)),
      0%nat));
    ("\b[A-Z]{3}\b",
     (false, Seq WordB (Seq (exactly upper_letter 3) WordB), 0%nat));
    ("(?i)(confirmation|booking|reservation|pnr).{0,20}([A-Z0-9]{5,6})",
     (true,
      Seq (Grp 1 (alts ["confirmation"; "booking"; "reservation"; "pnr"]))
        (Seq (Rep Any 0 (Some 20%nat)) (Grp 2 (Rep upper_or_digit 5 (Some 6%nat)))),
      2%nat));
    ("\b([A-Z]{3})\b",
     (false, Seq WordB (Seq (Grp 1 (exactly upper_letter 3)) WordB), 1%nat));
    ("(?:booking|confirmation|reference|pnr)[:\s]+([A-Z0-9]{5,7})",
     (false,
      Seq (alts ["booking"; "confirmation"; "reference"; "pnr"])
        (Seq (Rep (Union (One ":") Space) 1 None) (Grp 1 (Rep upper_or_digit 5 (Some 7%nat)))),
      1%nat));
    ("\b([A-Z]{2}\s?\d{3,4})\b",
     (false,
      Seq WordB
        (Seq (Grp 1 (Seq (exactly upper_letter 2)
                       (Seq (Rep Space 0 (Some 1%nat)) (Rep Digit 3 (Some 4%nat)))))
             WordB),
      1%nat));
    ("\b([A-Z]{3})\s*(?:to|→|-|–)\s*([A-Z]{3})\b",
     (false,
      Seq WordB
        (Seq (Grp 1 (exactly upper_letter 3))
           (Seq (Rep Space 0 None)
              (Seq (alts ["to"; "→"; "-"; "–"])
                 (Seq (Rep Space 0 None)
                    (Seq (Grp 2 (exactly upper_letter 3)) WordB))))),
      2%nat)) ].

Definition compile (pattern : string) : option compiled :=
  snd <$> List.find (fun e => String.eqb pattern (fst e)) PATTERNS.

(** [re.search] on the program's patterns; a pattern outside the table
    matches nothing. *)
Definition re_search (pattern text : string) (flags : list re_flag)
    : option (list string) :=
  match compile pattern with
  | Some (ci, r, n) =>
      let ci := ci || match flags with [] => false | _ => true end in
      search_from ci r n None text
  | None => None
  end.

(** [re.findall] on the program's patterns. *)
Definition re_findall (pattern text : string) : list string :=
  match compile pattern with
  | Some (ci, r, n) => findall_from (S (String.length text)) ci r n None text
  | None => []
  end.

End Regex.

Module JsonText.

Definition code (c : ascii) : nat := nat_of_ascii c.

(** The double quote. *)
Definition quote : ascii := "034"%char.

(** The whitespace of JSON. *)
Definition is_ws (c : ascii) : bool :=
  (Nat.eqb (code c) 32 || Nat.eqb (code c) 9 || Nat.eqb (code c) 10
   || Nat.eqb (code c) 13)%nat.

Fixpoint skip_ws (s : string) : string :=
  match s with
  | String c s' => if is_ws c then skip_ws s' else s
  | EmptyString => s
  end.

Definition is_digit (c : ascii) : bool := ((48 <=? code c) && (code c <=? 57))%nat.

Definition hex (c : ascii) : option N :=
  let n := N_of_ascii c in
  if ((48 <=? n) && (n <=? 57))%N then Some (n - 48)%N
  else if ((97 <=? n) && (n <=? 102))%N then Some (n - 87)%N
  else if ((65 <=? n) && (n <=? 70))%N then Some (n - 55)%N
  else None.

(** Four hexadecimal digits. *)
Definition hex4 (s : string) : option (N * string) :=
  match s with
  | String a (String b (String c (String d rest))) =>
      match hex a, hex b, hex c, hex d with
      | Some a, Some b, Some c, Some d =>
          Some ((a * 4096 + b * 256 + c * 16 + d)%N, rest)
      | _, _, _, _ => None
      end
  | _ => None
  end.

Definition byte (n : N) : string := String (ascii_of_N n) EmptyString.

(** UTF-8 for a code point. *)
Definition utf8 (cp : N) : string :=
  if (cp <? 128)%N then byte cp
  else if (cp <? 2048)%N then
    byte (192 + cp / 64) +:+ byte (128 + cp mod 64)
  else if (cp <? 65536)%N then
    byte (224 + cp / 4096) +:+ byte (128 + (cp / 64) mod 64) +:+ byte (128 + cp mod 64)
  else
    byte (240 + cp / 262144) +:+ byte (128 + (cp / 4096) mod 64)
    +:+ byte (128 + (cp / 64) mod 64) +:+ byte (128 + cp mod 64).

Definition is_high (cp : N) : bool := ((55296 <=? cp) && (cp <=? 56319))%N.
Definition is_low (cp : N) : bool := ((56320 <=? cp) && (cp <=? 57343))%N.

(** A [\uXXXX] escape, the backslash and the u already read; a high
    surrogate joins a low one that follows. *)
Definition unicode_escape (s : string) : option (string * string) :=
  match hex4 s with
  | Some (cp, rest) =>
      if is_high cp then
        match rest with
        | String "\" (String "u" rest') =>
            match hex4 rest' with
            | Some (lo, rest'') =>
                if is_low lo
                then Some (utf8 (65536 + (cp - 55296) * 1024 + (lo - 56320))%N, rest'')
                else Some (utf8 cp, rest)
            | None => Some (utf8 cp, rest)
            end
        | _ => Some (utf8 cp, rest)
        end
      else Some (utf8 cp, rest)
  | None => None
  end.

(** The rest of a string literal after its opening quote. *)
Fixpoint string_body (fuel : nat) (s : string) : option (string * string) :=
  match fuel with
  | O => None
  | S fuel' =>
      match s with
      | EmptyString => None
      | String c s' =>
          if Ascii.eqb c quote then Some ("", s')
          else if Ascii.eqb c "\" then
            match s' with
            | String e s'' =>
                let plain (x : N) :=
                  match string_body fuel' s'' with
                  | Some (t, rest) => Some (byte x +:+ t, rest)
                  | None => None
                  end in
                if Ascii.eqb e quote then plain 34%N
                else if Ascii.eqb e "\" then plain 92%N
                else if Ascii.eqb e "/" then plain 47%N
                else if Ascii.eqb e "b" then plain 8%N
                else if Ascii.eqb e "f" then plain 12%N
                else if Ascii.eqb e "n" then plain 10%N
                else if Ascii.eqb e "r" then plain 13%N
                else if Ascii.eqb e "t" then plain 9%N
                else if Ascii.eqb e "u" then
                  match unicode_escape s'' with
                  | Some (u, rest) =>
                      match string_body fuel' rest with
                      | Some (t, rest') => Some (u +:+ t, rest')
                      | None => None
                      end
                  | None => None
                  end
                else None
            | EmptyString => None
            end
          else if (code c <? 32)%nat then None
          else
            match string_body fuel' s' with
            | Some (t, rest) => Some (String c t, rest)
            | None => None
            end
      end
  end.

Fixpoint digits (s : string) : string * string :=
  match s with
  | String c s' =>
      if is_digit c then let '(d, rest) := digits s' in (String c d, rest)
      else ("", s)
  | EmptyString => ("", s)
  end.

(** The integer part: [0] or a digit from 1 to 9 and more digits. *)
Definition int_part (s : string) : option (string * string) :=
  match s with
  | String c s' =>
      if Ascii.eqb c "0" then Some ("0", s')
      else if is_digit c then let '(d, rest) := digits s' in Some (String c d, rest)
      else None
  | EmptyString => None
  end.

Definition frac_part (s : string) : string * string :=
  match s with
  | String "." s' =>
      match digits s' with
      | (EmptyString, _) => ("", s)
      | (d, rest) => ("." +:+ d, rest)
      end
  | _ => ("", s)
  end.

Definition exp_part (s : string) : string * string :=
  match s with
  | String e s' =>
      if Ascii.eqb e "e" || Ascii.eqb e "E" then
        let '(sign, s'') :=
          match s' with
          | String g t => if Ascii.eqb g "+" || Ascii.eqb g "-"
                          then (String g "", t) else ("", s')
          | EmptyString => ("", s')
          end in
        match digits s'' with
        | (EmptyString, _) => ("", s)
        | (d, rest) => (String e "" +:+ sign +:+ d, rest)
        end
      else ("", s)
  | EmptyString => ("", s)
  end.

(** A number, kept as the text read. *)
Definition number (s : string) : option (string * string) :=
  let '(sign, s1) :=
    match s with
    | String "-" t => ("-", t)
    | _ => ("", s)
    end in
  match int_part s1 with
  | Some (i, s2) =>
      let '(f, s3) := frac_part s2 in
      let '(e, s4) := exp_part s3 in
      Some (sign +:+ i +:+ f +:+ e, s4)
  | None => None
  end.

(** [s] without the prefix [p]. *)
Fixpoint after (p s : string) : option string :=
  match p with
  | EmptyString => Some s
  | String x p' =>
      match s with
      | String c s' => if Ascii.eqb x c then after p' s' else None
      | EmptyString => None
      end
  end.

(** A dictionary keeps one value per key: the last one read, at the place
    of the first. *)
Fixpoint put (k : string) (v : json) (members : list (string * json))
    : list (string * json) :=
  match members with
  | [] => [(k, v)]
  | (k', v') :: rest =>
      if String.eqb k k' then (k, v) :: rest else (k', v') :: put k v rest
  end.

(** A string literal at the head of the text. *)
Definition key (s : string) : option (string * string) :=
  match s with
  | String c s' =>
      if Ascii.eqb c quote then string_body (String.length s') s' else None
  | EmptyString => None
  end.

Definition starts_with_quote (s : string) : bool :=
  match s with String c _ => Ascii.eqb c quote | EmptyString => false end.

(** A value at the head of the text, and what follows it. *)
Fixpoint value (fuel : nat) (s : string) : option (json * string) :=
  match fuel with
  | O => None
  | S fuel' =>
      let elements :=
        fix elements (n : nat) (acc : list json) (s : string) : option (json * string) :=
          match n with
          | O => None
          | S n' =>
              match value fuel' (skip_ws s) with
              | Some (v, rest) =>
                  match skip_ws rest with
                  | String "," rest' => elements n' (acc ++ [v]) rest'
                  | String "]" rest' => Some (JArr (acc ++ [v]), rest')
                  | _ => None
                  end
              | None => None
              end
          end in
      let members :=
        fix members (n : nat) (acc : list (string * json)) (s : string)
            : option (json * string) :=
          match n with
          | O => None
          | S n' =>
              match key (skip_ws s) with
              | Some (k, s2) =>
                  match skip_ws s2 with
                  | String ":" s3 =>
                      match value fuel' (skip_ws s3) with
                      | Some (v, rest) =>
                          match skip_ws rest with
                          | String "," rest' => members n' (put k v acc) rest'
                          | String "}" rest' => Some (JObj (put k v acc), rest')
                          | _ => None
                          end
                      | None => None
                      end
                  | _ => None
                  end
              | None => None
              end
          end in
      match s with
      | String "{" s' =>
          match skip_ws s' with
          | String "}" rest => Some (JObj [], rest)
          | _ => members (String.length s') [] s'
          end
      | String "[" s' =>
          match skip_ws s' with
          | String "]" rest => Some (JArr [], rest)
          | _ => elements (String.length s') [] s'
          end
      | _ =>
          if starts_with_quote s then
            match key s with
            | Some (t, rest) => Some (JStr t, rest)
            | None => None
            end
          else
          match after "null" s, after "true" s, after "false" s with
          | Some rest, _, _ => Some (JNull, rest)
          | _, Some rest, _ => Some (JBool true, rest)
          | _, _, Some rest => Some (JBool false, rest)
          | _, _, _ =>
              match after "NaN" s, after "Infinity" s, after "-Infinity" s with
              | Some rest, _, _ => Some (JNum "NaN", rest)
              | _, Some rest, _ => Some (JNum "Infinity", rest)
              | _, _, Some rest => Some (JNum "-Infinity", rest)
              | _, _, _ =>
                  match number s with
                  | Some (t, rest) => Some (JNum t, rest)
                  | None => None
                  end
              end
          end
      end
  end.

(** [json.loads]: one value, with whitespace around it and nothing else. *)
Definition loads (s : string) : Py.result json :=
  match value (S (String.length s)) (skip_ws s) with
  | Some (v, rest) =>
      match skip_ws rest with
      | EmptyString => Py.Ok v
      | _ => Py.Raise Py.JSONDecodeError
      end
  | None => Py.Raise Py.JSONDecodeError
  end.

(** JSON text is written below with apostrophes where it has double
    quotes. *)
Fixpoint dq (s : string) : string :=
  match s with
  | EmptyString => EmptyString
  | String c s' => String (if Ascii.eqb c "'" then quote else c) (dq s')
  end.

End JsonText.

Module Fuzz.

(** The length of a longest common subsequence. *)
Fixpoint lcs (a b : list ascii) : nat :=
  match a with
  | [] => O
  | x :: a' =>
      (fix row (b : list ascii) : nat :=
         match b with
         | [] => O
         | y :: b' =>
             if Ascii.eqb x y then S (lcs a' b')
             else Nat.max (lcs a' b) (row b')
         end) b
  end.

(** [int(round(x))] for [x = num / den], halves going to the even side. *)
Definition round_half_even (num den : Z) : Z :=
  let q := num / den in
  let r := num mod den in
  if 2 * r <? den then q
  else if den <? 2 * r then q + 1
  else if Z.even q then q else q + 1.

(** [fuzz.ratio] with the Levenshtein matcher: equal strings give 100,
    an empty string gives 0, and otherwise twice the common subsequence
    over the two lengths, as a rounded percentage. *)
Definition ratio (s1 s2 : string) : Z :=
  if String.eqb s1 s2 then 100
  else if Nat.eqb (String.length s1) 0 || Nat.eqb (String.length s2) 0 then 0
  else
    let m := Z.of_nat (lcs (list_ascii_of_string s1) (list_ascii_of_string s2)) in
    let t := Z.of_nat (String.length s1 + String.length s2) in
    round_half_even (200 * m) t.

End Fuzz.

(** * The specification's wording, as definitions to compare the code with *)

Module Spec.

Section Cascade.

Variable json_loads : string -> Py.result json.
Variable re_search : string -> string -> list re_flag -> option (list string).
Variable re_findall : string -> string -> list string.

(** The three strategies: what each yields for an e-mail, a failure
    inside a strategy counting as nothing found. *)
Definition structured_markup (e : email_data) : option flight_details :=
  match html_content e with
  | Some soup =>
      match parse_schema_org json_loads soup with
      | Py.Ok data => data
      | Py.Raise _ => None
      end
  | None => None
  end.

Definition html_tables (e : email_data) : option flight_details :=
  match html_content e with
  | Some soup => parse_html_table re_search soup
  | None => None
  end.

Definition free_text (e : email_data) : option flight_details :=
  extract_flight_info_regex re_search re_findall
    match html_content e with
    | Some soup => Soup.get_text soup +:+ " " +:+ text_content e
    | None => text_content e
    end.

(** Strict priority order, first success wins, no merging: the result
    of the first strategy in the list that yields a field. *)
Fixpoint first_success (strategies : list (email_data -> option flight_details))
    (e : email_data) : option flight_details :=
  match strategies with
  | [] => None
  | strategy :: rest =>
      match strategy e with
      | Some d => if Details.truthy d then Some d else first_success rest e
      | None => first_success rest e
      end
  end.

Definition cascade : email_data -> option flight_details :=
  first_success [structured_markup; html_tables; free_text].

(** The points a signal adds to the score. *)
Definition points (fires : bool) (weight : Z) : Z := if fires then weight else 0.

(** The score without the subject-pattern signal. *)
Definition other_signals (e : email_data) : Z :=
  points (schema_signal json_loads e) 50
  + points (is_airline_domain (from_email e)) 20
  + points (has_flight_markers re_search re_findall
              (subject e +:+ " " +:+ text_content e)) 10.

(** A reservation object of type FlightReservation whose status
    contains "Confirmed", [in] being Python's. *)
Definition confirmed_object (j : json) : bool :=
  match j with
  | JObj members =>
      Json.field_is "@type" "FlightReservation" members
      && match Json.get "reservationStatus" members with
         | Some status =>
             match Json.str_in "Confirmed" status with
             | Py.Ok b => b
             | Py.Raise _ => false
             end
         | None => false
         end
  | _ => false
  end.

(** JSON-structured form: a script of type [application/ld+json] whose
    text decodes to such an object, or to a list that has one. *)
Definition script_declares (script : node) : bool :=
  match Soup.string_of script with
  | Some s =>
      Py.truthy s &&
      match json_loads s with
      | Py.Ok (JArr items) => existsb confirmed_object items
      | Py.Ok j => confirmed_object j
      | Py.Raise _ => false
      end
  | None => false
  end.

(** Inline-attribute form: a [div] of item type FlightReservation with,
    below it, a [reservationStatus] property whose [content] or [href]
    contains "Confirmed". *)
Definition status_confirmed (n : node) : bool :=
  match Soup.get "itemprop" n with
  | Some prop =>
      String.eqb prop "reservationStatus"
      && (Py.contains "Confirmed" (default "" (Soup.get "content" n))
          || Py.contains "Confirmed" (default "" (Soup.get "href" n)))
  | None => false
  end.

Definition microdata_declares (soup : node) : bool :=
  existsb (fun reservation => existsb status_confirmed (Soup.descendants reservation))
    (Soup.find_all_with "div" "itemtype" SCHEMA_FLIGHT_RESERVATION soup).

(** The body contains reservation markup of type FlightReservation with
    a status containing "Confirmed", in either form. *)
Definition declares_confirmed (soup : node) : bool :=
  existsb script_declares
    (Soup.find_all_with "script" "type" "application/ld+json" soup)
  || microdata_declares soup.

(** The first table whose text has a keyword. *)
Definition first_keyword_table (soup : node) : option node :=
  List.find table_has_keyword (Soup.find_all "table" soup).

(** Tabular extraction as the specification states it: the first
    keyword table decides, whether it yields fields or not. *)
Definition first_table_decides (soup : node) : Prop :=
  parse_html_table re_search soup
  = match first_keyword_table soup with
    | Some table =>
        let d := table_fields re_search table in
        if Details.truthy d then Some d else None
    | None => None
    end.

(** The first keyword table that yields a field. *)
Definition first_yielding_table (soup : node) : option node :=
  List.find
    (fun table => table_has_keyword table
                  && Details.truthy (table_fields re_search table))
    (Soup.find_all "table" soup).

End Cascade.

(** The events of the ledger that concern one message. *)
Definition events_of (m : string) (d : database) : list processing_event :=
  List.filter (fun ev => String.eqb (ev_message_id ev) m) (processing_state d).

(** A field that is a text must not be the empty text. *)
Definition not_empty_text (field : option json) : bool :=
  match field with
  | Some (JStr EmptyString) => false
  | _ => true
  end.

End Spec.

(** * Concrete e-mails *)

Module Sample.

(** A page as lxml builds it. *)
Definition page (head body : list node) : node :=
  Elem "[document]" [] [ Elem "html" [] [ Elem "head" [] head; Elem "body" [] body ] ].

(** [<script type="application/ld+json">text</script>]. *)
Definition ld_json (text : string) : node :=
  Elem "script" [("type", "application/ld+json")] [ Text (JsonText.dq text) ].

Definition td (text : string) : node := Elem "td" [] [ Text text ].
Definition tr (cells : list node) : node := Elem "tr" [] cells.
Definition table (rows : list node) : node := Elem "table" [] rows.

(** An e-mail with nothing but an HTML body. *)
Definition html_only (id : string) (soup : node) : email_data :=
  {| message_id := id; thread_id := None; subject := ""; from_email := "";
     msg_date := ""; html_content := Some soup; text_content := "" |}.

(** Two reservation objects: the first with a null status, the second
    confirmed. *)
Definition null_then_confirmed : node :=
  page
    [ ld_json "{'@type': 'FlightReservation', 'reservationStatus': null}";
      ld_json "{'@type': 'FlightReservation', 'reservationStatus': 'Confirmed'}" ]
    [].

(** One confirmed reservation object. *)
Definition confirmed : node :=
  page
    [ ld_json "{'@type': 'FlightReservation', 'reservationStatus': 'Confirmed', 'reservationNumber': 'ABC123'}" ]
    [].

(** A Microdata reservation whose status is a cancellation. *)
Definition cancelled_microdata : node :=
  page []
    [ Elem "div" [("itemscope", ""); ("itemtype", "http://schema.org/FlightReservation")]
        [ Elem "link" [("itemprop", "reservationStatus");
                       ("href", "http://schema.org/ReservationCancelled")] [] ] ].

(** A confirmed reservation whose number is the empty text. *)
Definition empty_number : node :=
  page
    [ ld_json "{'@type': 'FlightReservation', 'reservationStatus': 'Confirmed', 'reservationNumber': ''}" ]
    [].

(** A table whose flight-number cell is empty. *)
Definition empty_flight_cell : node :=
  page [] [ table [ tr [ td "Flight Number"; Elem "td" [] [] ] ] ].

(** A heading table about the flight, then the table with the booking
    reference. *)
Definition heading_then_booking : node :=
  page []
    [ table [ tr [ td "Flight details" ] ];
      table [ tr [ td "Booking Reference"; td "ABC123" ] ] ].

(** Structured markup and a table that disagree on the reference. *)
Definition markup_and_table : node :=
  page
    [ ld_json "{'@type': 'FlightReservation', 'reservationNumber': 'ABC123'}" ]
    [ table [ tr [ td "Booking Reference"; td "ZZZ999" ];
              tr [ td "Flight Number"; td "UA456" ] ] ].

(** An airline's message whose subject has a confirmation phrase and an
    exclusion phrase. *)
Definition cancelled_subject : email_data :=
  {| message_id := "m"; thread_id := None;
     subject := "Flight Confirmation — Cancelled";
     from_email := "noreply@united.com"; msg_date := "";
     html_content := None; text_content := "" |}.

(** The record the structured markup of [markup_and_table] gives. *)
Definition abc123_only : flight_details :=
  Details.set_booking_reference (JStr "ABC123") Details.empty.

(** The only table of [markup_and_table]. *)
Definition conflicting_table : node :=
  table [ tr [ td "Booking Reference"; td "ZZZ999" ];
          tr [ td "Flight Number"; td "UA456" ] ].

Definition event (m status : string) : processing_event :=
  {| ev_message_id := m; ev_phase := PHASE1_LABEL; ev_status := status;
     ev_error_message := None |}.

(** A ledger after an earlier run: [m1] failed and was then skipped,
    [m2] succeeded. *)
Definition ledger : database :=
  {| emails := ∅;
     processing_state := [ event "m1" "FAILED"; event "m2" "SUCCESS"; event "m1" "SKIPPED" ] |}.

(** A mail service that has one message. *)
Definition get_message (msg_id : string) : Py.result email_data :=
  if String.eqb msg_id "m1" then Py.Ok (html_only "m1" empty_number)
  else Py.Raise (Py.OtherError "HttpError 404").

Definition record (m p : string) : email_record :=
  {| rec_message_id := m; rec_thread_id := None; rec_subject := None;
     rec_from_email := None; rec_msg_date := None; pnr := Some p;
     rec_flight_number := None; rec_departure_airport := None;
     rec_arrival_airport := None |}.

Definition five : list email_record :=
  [ record "m1" "ABC123"; record "m2" "ABC123"; record "m3" "XYZ789";
    record "m4" "XYZ789"; record "m5" "DEF456" ].

Definition default_dedup : Deduplicator := {| fuzzy_threshold := 95 |}.

(** The bodies and texts of tests/test_parser.py and
    tests/test_classifier.py. *)
Definition test_json_ld : node :=
page
  [ ld_json "{'@type': 'FlightReservation', 'reservationNumber': 'ABC123', 'reservationFor': {'@type': 'Flight', 'flightNumber': 'UA456', 'departureAirport': {'@type': 'Airport', 'iataCode': 'SFO'}, 'arrivalAirport': {'@type': 'Airport', 'iataCode': 'JFK'}, 'departureTime': '2024-10-15T10:00:00', 'arrivalTime': '2024-10-15T18:00:00'}}" ]
  [].

Definition test_table : node :=
page []
  [ table [ tr [ td "Booking Reference"; td "ABC123" ];
            tr [ td "Flight Number"; td "UA456" ];
            tr [ td "Departure Airport"; td "San Francisco (SFO)" ];
            tr [ td "Arrival Airport"; td "New York (JFK)" ] ] ].

Definition test_combined : email_data :=
{| message_id := "m"; thread_id := None;
   subject := "Your Flight Confirmation"; from_email := "noreply@united.com";
   msg_date := "";
   html_content :=
     Some (page [] [ Elem "p" [] [ Text "Confirmation: ABC123, Flight UA456, SFO to JFK" ] ]);
   text_content := "Confirmation: ABC123, Flight UA456, SFO to JFK" |}.

Definition test_newsletter : email_data :=
{| message_id := "m"; thread_id := None;
   subject := "Newsletter: Travel Deals"; from_email := "marketing@example.com";
   msg_date := "";
   html_content := Some (page [] [ Elem "p" [] [ Text "Great deals on flights!" ] ]);
   text_content := "Great deals on flights!" |}.

Definition test_no_data : email_data :=
{| message_id := "m"; thread_id := None; subject := ""; from_email := "";
   msg_date := "";
   html_content := Some (page [] [ Elem "p" [] [ Text "No flight information here" ] ]);
   text_content := "Just some random text" |}.

Definition test_unique : list email_record :=
[ record "1" "ABC123"; record "2" "ABC123"; record "3" "XYZ789";
  {| rec_message_id := "4"; rec_thread_id := None; rec_subject := None;
     rec_from_email := None; rec_msg_date := None; pnr := None;
     rec_flight_number := None; rec_departure_airport := None;
     rec_arrival_airport := None |} ].

End Sample.

(** * Further definitions for the properties of the code *)

Module Inv.

(** A field that is absent, or a text with a given property. *)
Definition text_such (P : string -> Prop) (field : option json) : Prop :=
  match field with
  | None => True
  | Some (JStr s) => P s
  | Some _ => False
  end.

(** A field that is absent or a text. *)
Definition text (field : option json) : Prop := text_such (fun _ => True) field.

(** The text of a field that is a text, [None] for an absent one. *)
Definition text_of (field : option json) : option string :=
  match field with
  | Some (JStr s) => Some s
  | _ => None
  end.

(** A field SQLite cannot bind: a list or a dictionary. *)
Definition unbindable (field : option json) : Prop :=
  (exists items, field = Some (JArr items))
  \/ (exists members, field = Some (JObj members)).

(** A record without departure and arrival times. *)
Definition no_times (d : flight_details) : Prop :=
  departure_time d = None /\ arrival_time d = None.


(** What a table can give: a booking reference of five characters or
    more, texts elsewhere, and no times. *)
Definition table_shape (d : flight_details) : Prop :=
  text_such (fun s => 5 <= Py.len s) (booking_reference d)
  /\ text (flight_number d)
  /\ text (departure_airport d)
  /\ text (arrival_airport d)
  /\ no_times d.

(** What the free-text patterns can give: an upper-case booking reference,
    a flight number without spaces, airports that come together, and no
    times. *)
Definition free_text_shape (d : flight_details) : Prop :=
  text_such (fun s => Py.upper s = s) (booking_reference d)
  /\ text_such (fun s => Py.contains " " s = false) (flight_number d)
  /\ text (departure_airport d)
  /\ text (arrival_airport d)
  /\ (departure_airport d = None <-> arrival_airport d = None)
  /\ no_times d.

(** [later] does not duplicate [earlier]: when both carry a reference, the
    check the filter makes for [later] against the kept reference of
    [earlier] fails. *)
Definition distinct_from (fuzz_ratio : string -> string -> Z) (self : Deduplicator)
    (earlier later : email_record) : Prop :=
  forall p q : string,
    pnr earlier = Some p -> p <> "" -> pnr later = Some q -> q <> "" ->
    are_pnrs_duplicate fuzz_ratio self (Some (Py.upper q)) (Some (Py.upper p)) = false.

(** The state of [find_duplicates] and the set of [get_unique_emails]
    after the same records: the same references are known, every known
    reference has its list of ids in the store, and a list entered in
    [duplicates] has two ids or more. *)
Definition in_step (g : groups) (seen : gset string) : Prop :=
  (forall s, s ∈ seen <-> In s (map fst (processed_pnrs g)))
  /\ (forall k loc, In (k, loc) (processed_pnrs g) ->
        exists ids, store g !! loc = Some ids /\ (1 <= length ids)%nat)
  /\ (forall k loc, In (k, loc) (duplicates g) ->
        exists ids, store g !! loc = Some ids /\ (2 <= length ids)%nat).

End Inv.


(** ** state/state_manager.py: the rows not yet processed *)

(** [StateManager.get_unprocessed_emails]: the rows of [emails] for which
    [processing_state] has no SUCCESS event of the phase. SQLite returns
    them in an order of its own; here they come in the order of their
    keys, and nothing proved about them depends on the order. *)
Definition get_unprocessed_emails (d : database) (phase : string) : list email_record :=
  List.filter
    (fun e => negb (StateManager.is_email_processed d (rec_message_id e) phase))
    (map snd (map_to_list (emails d))).

(** Every row sits under its own message id, as [save_email] writes it. *)
Definition keyed_by_id (d : database) : Prop :=
  forall k e, emails d !! k = Some e -> rec_message_id e = k.

(** ** utils/dry_run.py *)

(** [DryRunManager]: the class attribute [_enabled] is the whole state. *)
Module DryRunManager.

Definition enable (_enabled : bool) : bool := true.
Definition disable (_enabled : bool) : bool := false.
Definition is_enabled (_enabled : bool) : bool := _enabled.

End DryRunManager.

(** [dry_run_safe(return_value)(func)]: in dry-run mode the wrapper gives
    [return_value] and [func] is not called; otherwise it is [func]. The
    result type [B] holds whatever a call does: its value, its exception,
    its effects. *)
Definition dry_run_safe {A B : Type} (_enabled : bool) (return_value : B)
    (func : A -> B) (a : A) : B :=
  if DryRunManager.is_enabled _enabled then return_value else func a.

(** ** main.py: Phase 2 *)

Definition PHASE2_FORWARD : string := "PHASE2_FORWARD".

(** What Phase 2 has done so far: the database, and the messages for which
    the forwarding code itself was run, oldest first. *)
Record outbox : Type := {
  out_db : database;
  forwarded : list string
}.

Section Phase2.

Variable fuzz_ratio : string -> string -> Z.

(** The body of [EmailForwarder.forward_message]: the sent message's id, or
    the exception raised on the way. *)
Variable forward : string -> Py.result string.

(** [EmailForwarder.forward_message], with its decorator
    [@dry_run_safe(return_value={'id': 'dry-run-message-id'})]. *)
Definition forward_message (_enabled : bool) : string -> Py.result string :=
  dry_run_safe _enabled (Py.Ok "dry-run-message-id") forward.

(** One turn of [for msg_id in message_ids]. *)
Definition forward_one (_enabled : bool) (s : outbox) (msg_id : string) : outbox :=
  let calls :=
    if DryRunManager.is_enabled _enabled then forwarded s else forwarded s ++ [msg_id] in
  match forward_message _enabled msg_id with
  | Py.Ok _ =>
      {| out_db := StateManager.mark_email_processed (out_db s) msg_id PHASE2_FORWARD
                     "SUCCESS" None;
         forwarded := calls |}
  | Py.Raise e =>
      {| out_db := StateManager.mark_email_processed (out_db s) msg_id PHASE2_FORWARD
                     "FAILED" (Some (exn_message e));
         forwarded := calls |}
  end.

(** The ids Phase 2 goes through: those of the unprocessed rows, after
    [get_unique_emails] when [args.deduplicate] is set. *)
Definition message_ids (deduplicate : bool) (d : database) : list string :=
  let emails := get_unprocessed_emails d PHASE2_FORWARD in
  if deduplicate then
    let deduplicator := {| fuzzy_threshold := 95 |} in
    map rec_message_id (get_unique_emails fuzz_ratio deduplicator emails)
  else map rec_message_id emails.

(** [phase2_forward_emails]. *)
Definition phase2_forward_emails (_enabled deduplicate : bool) (d : database) : outbox :=
  match get_unprocessed_emails d PHASE2_FORWARD with
  | [] => {| out_db := d; forwarded := [] |}
  | _ :: _ =>
      fold_left (forward_one _enabled) (message_ids deduplicate d)
        {| out_db := d; forwarded := [] |}
  end.

End Phase2.

(** ** forward/label_manager.py and forward/email_forwarder.py: batches *)

(** The values of [range(0, stop, step)] for [stop >= 0]: a zero step is a
    [ValueError], a negative step gives no value. *)
Definition range_from_zero (stop step : Z) : Py.result (list nat) :=
  if step =? 0 then Py.Raise (Py.OtherError "range() arg 3 must not be zero")
  else if step <? 0 then Py.Ok []
  else
    Py.Ok (map (fun j => (j * Z.to_nat step)%nat)
             (seq 0 (Z.to_nat ((stop + step - 1) / step)))).

(** [message_ids[i:i + batch_size]]. *)
Definition batch_at (message_ids : list string) (i batch_size : nat) : list string :=
  take batch_size (drop i message_ids).

(** What [apply_label_to_messages] has done: the count it returns ([None]
    in dry-run mode) or the exception, and the batches the mail service has
    modified. *)
Record labelling : Type := {
  labeled : Py.result (option Z);
  modified : list (list string)
}.

(** What [forward_messages_batch] returns. *)
Record batch_results : Type := {
  success : Z;
  failed : Z;
  failed_ids : list string
}.

Section Batches.

(** The [batchModify] request for a batch and a label, sent through
    [make_request_with_backoff]. *)
Variable batch_modify : list string -> string -> Py.result unit.

(** [for i in range(0, len(message_ids), batch_size)] in
    [apply_label_to_messages]. *)
Fixpoint label_batches (starts : list nat) (message_ids : list string)
    (label_id : string) (batch_size : nat) (labeled_count : Z)
    (sent : list (list string)) : labelling :=
  match starts with
  | [] => {| labeled := Py.Ok (Some labeled_count); modified := sent |}
  | i :: rest =>
      let batch := batch_at message_ids i batch_size in
      match batch_modify batch label_id with
      | Py.Raise e => {| labeled := Py.Raise e; modified := sent |}
      | Py.Ok _ =>
          label_batches rest message_ids label_id batch_size
            (labeled_count + Z.of_nat (length batch)) (sent ++ [batch])
      end
  end.

(** The body of [LabelManager.apply_label_to_messages]. *)
Definition apply_label_body (label_id : string) (batch_size : Z)
    (message_ids : list string) : labelling :=
  match range_from_zero (Z.of_nat (length message_ids)) batch_size with
  | Py.Raise e => {| labeled := Py.Raise e; modified := [] |}
  | Py.Ok starts =>
      label_batches starts message_ids label_id (Z.to_nat batch_size) 0 []
  end.

(** [LabelManager.apply_label_to_messages], with its decorator
    [@dry_run_safe(return_value=None)]. *)
Definition apply_label_to_messages (_enabled : bool) (message_ids : list string)
    (label_id : string) (batch_size : Z) : labelling :=
  dry_run_safe _enabled {| labeled := Py.Ok None; modified := [] |}
    (apply_label_body label_id batch_size) message_ids.

(** The forwarding call, decorator included, as [forward_messages_batch]
    sees it. *)
Variable forward_message_call : string -> Py.result string.

(** [for msg_id in batch] in [forward_messages_batch]. *)
Definition forward_in_batch (results : batch_results) (msg_id : string) : batch_results :=
  match forward_message_call msg_id with
  | Py.Ok _ =>
      {| success := success results + 1; failed := failed results;
         failed_ids := failed_ids results |}
  | Py.Raise _ =>
      {| success := success results; failed := failed results + 1;
         failed_ids := failed_ids results ++ [msg_id] |}
  end.

(** [EmailForwarder.forward_messages_batch]. *)
Definition forward_messages_batch (message_ids : list string) (batch_size : Z)
    : Py.result batch_results :=
  match range_from_zero (Z.of_nat (length message_ids)) batch_size with
  | Py.Raise e => Py.Raise e
  | Py.Ok starts =>
      Py.Ok
        (fold_left
           (fun results i =>
              fold_left forward_in_batch
                (batch_at message_ids i (Z.to_nat batch_size)) results)
           starts
           {| success := 0; failed := 0; failed_ids := [] |})
  end.

End Batches.

(** ** main.py: Phase 1 with its labels *)

Section Phase1Labels.

Variable json_loads : string -> Py.result json.
Variable re_search : string -> string -> list re_flag -> option (list string).
Variable re_findall : string -> string -> list string.
Variable get_message : string -> Py.result email_data.
Variable batch_modify : list string -> string -> Py.result unit.

(** [phase1_label_emails] from the message list to its end: the sweep, and
    then [if flight_messages and not DryRunManager.is_enabled()] the label
    applied to the batch. *)
Definition phase1_with_labels (_enabled : bool) (label_id : string) (d : database)
    (message_list : list string) : sweep * option labelling :=
  let s := phase1_label_emails json_loads re_search re_findall get_message d message_list in
  match flight_messages s with
  | [] => (s, None)
  | _ :: _ =>
      if negb (DryRunManager.is_enabled _enabled) then
        (s, Some (apply_label_to_messages batch_modify _enabled (flight_messages s)
                    label_id 1000))
      else (s, None)
  end.

(** The messages the mail service has labelled in such a run. *)
Definition labelled_messages (run : sweep * option labelling) : list string :=
  match snd run with
  | Some l => concat (modified l)
  | None => []
  end.

End Phase1Labels.

(** ** utils/retry.py *)

Module Retry.

(** What one call of [request_func] does: it returns, it raises an
    [HttpError] with a status, or it raises something else. *)
Inductive response (A : Type) : Type :=
| Returned (a : A)
| HttpError (status : Z)
| Raised (e : Py.exn).
Global Arguments Returned {A} a.
Global Arguments HttpError {A} status.
Global Arguments Raised {A} e.

(** What [make_request_with_backoff] has done when it ends: what it
    returns ([None] when the loop ends without returning) or raises, the
    number of calls of [request_func], and the waits between them, each
    without its random fraction of a second. *)
Record backoff (A : Type) : Type := {
  outcome : response (option A);
  calls : nat;
  waits : list Z
}.
Global Arguments outcome {A} b.
Global Arguments calls {A} b.
Global Arguments waits {A} b.

Section Backoff.

Context {A : Type}.

(** [request_func], by the number of calls made before. *)
Variable request_func : nat -> response A.

(** [for n in range(max_retries)], from the values of [n] still to come. *)
Fixpoint backoff_loop (max_retries : Z) (ns : list nat) (made : nat) (slept : list Z)
    : backoff A :=
  match ns with
  | [] => {| outcome := Returned None; calls := made; waits := slept |}
  | n :: rest =>
      match request_func made with
      | Returned a => {| outcome := Returned (Some a); calls := S made; waits := slept |}
      | HttpError status =>
          if existsb (Z.eqb status) [403; 429; 500; 503] then
            if Z.of_nat n =? max_retries - 1 then
              {| outcome := HttpError status; calls := S made; waits := slept |}
            else
              backoff_loop max_retries rest (S made) (slept ++ [2 ^ Z.of_nat n])
          else {| outcome := HttpError status; calls := S made; waits := slept |}
      | Raised e => {| outcome := Raised e; calls := S made; waits := slept |}
      end
  end.

(** [make_request_with_backoff(request_func, max_retries=5)]. *)
Definition make_request_with_backoff (max_retries : Z) : backoff A :=
  backoff_loop max_retries (seq 0 (Z.to_nat max_retries)) 0 [].

End Backoff.

End Retry.

(** ** search/email_searcher.py *)

(** A page of search results: the keys [messages] and [nextPageToken] of
    the response, when present. *)
Record page (A : Type) : Type := {
  page_messages : option (list A);
  nextPageToken : option string
}.
Global Arguments page_messages {A} p.
Global Arguments nextPageToken {A} p.

Section Searcher.

Context {A : Type}.

(** The request for a page, sent through [make_request_with_backoff]: what
    request number [page_num] with [pageToken=page_token] gives. *)
Variable fetch_page : nat -> option string -> Py.result (page A).

(** [while True] in [list_messages_with_pagination], for at most [fuel]
    pages: [None] when the loop has not ended by then. *)
Fixpoint pages_loop (fuel : nat) (page_num : nat) (page_token : option string)
    (messages : list A) : option (Py.result (list A)) :=
  match fuel with
  | O => None
  | S fuel =>
      let page_num := S page_num in
      match fetch_page page_num page_token with
      | Py.Raise e => Some (Py.Raise e)
      | Py.Ok results =>
          let messages :=
            match page_messages results with
            | Some page_messages => messages ++ page_messages
            | None => messages
            end in
          let page_token := nextPageToken results in
          if negb (Py.truthy_opt page_token) then Some (Py.Ok messages)
          else pages_loop fuel page_num page_token messages
      end
  end.

(** [EmailSearcher.list_messages_with_pagination]. *)
Definition list_messages_with_pagination (fuel : nat) : option (Py.result (list A)) :=
  pages_loop fuel 0 None [].

(** The service answers request [page_num], made with [page_token], and
    the requests after it with [pages]: every page but the last carries a
    token, with which the next page is asked for. *)
Fixpoint served (page_num : nat) (page_token : option string) (pages : list (page A))
    : Prop :=
  match pages with
  | [] => False
  | p :: rest =>
      fetch_page page_num page_token = Py.Ok p
      /\ match rest with
         | [] => Py.truthy_opt (nextPageToken p) = false
         | _ :: _ =>
             Py.truthy_opt (nextPageToken p) = true
             /\ served (S page_num) (nextPageToken p) rest
         end
  end.

End Searcher.

(** ** main.py and forward/email_forwarder.py: the content of a message *)

Module Gmail.

(** One entry of [payload['headers']]. *)
Record header : Type := { name : string; value : string }.

(** A payload or one of its parts: [headers], [mimeType] and [parts] when
    the key is present, and [body.data] when [body] is present and has the
    key [data]. *)
Inductive payload : Type :=
| Payload (headers : option (list header)) (mimeType : option string)
    (body_data : option string) (parts : option (list payload)).

(** A message as the mail service returns it with [format='full']: its
    [id], and [threadId] and [payload] when the key is present. *)
Record message : Type := {
  id : string;
  threadId : option string;
  message_payload : option payload
}.

Definition payload_headers (p : payload) : option (list header) :=
  match p with Payload headers _ _ _ => headers end.

(** The dictionary [extract_email_content] returns, its HTML still a
    text. *)
Record content : Type := {
  message_id : string;
  thread_id : option string;
  subject : string;
  from_email : string;
  msg_date : string;
  html_content : string;
  text_content : string
}.

(** The dictionary [get_message_headers] returns. *)
Record headers_dict : Type := {
  h_subject : option string;
  h_from : option string;
  h_date : option string
}.

(** The headers [if 'payload' in message and 'headers' in
    message['payload']] lets the loop go through. *)
Definition headers_of (m : message) : list header :=
  match message_payload m with
  | Some p => default [] (payload_headers p)
  | None => []
  end.

(** One turn of [for header in message['payload']['headers']] in
    [extract_email_content]. *)
Definition set_header (email_data : content) (h : header) : content :=
  let name := Py.lower (name h) in
  if String.eqb name "subject" then
    {| message_id := message_id email_data; thread_id := thread_id email_data;
       subject := value h; from_email := from_email email_data;
       msg_date := msg_date email_data; html_content := html_content email_data;
       text_content := text_content email_data |}
  else if String.eqb name "from" then
    {| message_id := message_id email_data; thread_id := thread_id email_data;
       subject := subject email_data; from_email := value h;
       msg_date := msg_date email_data; html_content := html_content email_data;
       text_content := text_content email_data |}
  else if String.eqb name "date" then
    {| message_id := message_id email_data; thread_id := thread_id email_data;
       subject := subject email_data; from_email := from_email email_data;
       msg_date := value h; html_content := html_content email_data;
       text_content := text_content email_data |}
  else email_data.

(** The same turn in [EmailForwarder.get_message_headers]. *)
Definition set_header_key (headers : headers_dict) (h : header) : headers_dict :=
  let name := Py.lower (name h) in
  if String.eqb name "subject" then
    {| h_subject := Some (value h); h_from := h_from headers; h_date := h_date headers |}
  else if String.eqb name "from" then
    {| h_subject := h_subject headers; h_from := Some (value h); h_date := h_date headers |}
  else if String.eqb name "date" then
    {| h_subject := h_subject headers; h_from := h_from headers; h_date := Some (value h) |}
  else headers.

(** [EmailForwarder.get_message_headers]. *)
Definition get_message_headers (m : message) : headers_dict :=
  fold_left set_header_key (headers_of m)
    {| h_subject := None; h_from := None; h_date := None |}.

(** The subject [forward_message] gives the message it sends. *)
Definition forward_subject (m : message) : string :=
  let headers := get_message_headers m in
  let original_subject := default "Flight Confirmation" (h_subject headers) in
  "Fwd: " +:+ original_subject.

Section Bodies.

(** [base64.urlsafe_b64decode(data).decode('utf-8', errors='ignore')]: the
    text, or the exception for data that is not base64. *)
Variable decode : string -> Py.result string.

(** [extract_parts], on the pair of [html_content] and [text_content]. *)
Fixpoint extract_parts (p : payload) (acc : string * string)
    : Py.result (string * string) :=
  match p with
  | Payload _ mimeType body_data parts =>
      match parts with
      | Some parts =>
          (fix each (parts : list payload) (acc : string * string)
             : Py.result (string * string) :=
             match parts with
             | [] => Py.Ok acc
             | part :: rest =>
                 match extract_parts part acc with
                 | Py.Raise e => Py.Raise e
                 | Py.Ok acc => each rest acc
                 end
             end) parts acc
      | None =>
          match body_data with
          | Some raw =>
              let mime_type := default "" mimeType in
              match decode raw with
              | Py.Raise e => Py.Raise e
              | Py.Ok data =>
                  if String.eqb mime_type "text/html" then
                    Py.Ok (fst acc +:+ data, snd acc)
                  else if String.eqb mime_type "text/plain" then
                    Py.Ok (fst acc, snd acc +:+ data)
                  else Py.Ok acc
              end
          | None => Py.Ok acc
          end
      end
  end.

(** [extract_email_content]. *)
Definition extract_email_content (m : message) : Py.result content :=
  let email_data :=
    fold_left set_header (headers_of m)
      {| message_id := id m; thread_id := threadId m; subject := "";
         from_email := ""; msg_date := ""; html_content := ""; text_content := "" |} in
  match message_payload m with
  | Some p =>
      match extract_parts p (html_content email_data, text_content email_data) with
      | Py.Raise e => Py.Raise e
      | Py.Ok (html, text) =>
          Py.Ok
            {| message_id := message_id email_data; thread_id := thread_id email_data;
               subject := subject email_data; from_email := from_email email_data;
               msg_date := msg_date email_data; html_content := html;
               text_content := text |}
      end
  | None => Py.Ok email_data
  end.

End Bodies.

(** The bodies of a payload in document order, each with its type: those
    of its parts when it has the key [parts], its own otherwise. *)
Fixpoint bodies (p : payload) : list (string * string) :=
  match p with
  | Payload _ mimeType body_data parts =>
      match parts with
      | Some parts =>
          (fix each (parts : list payload) : list (string * string) :=
             match parts with
             | [] => []
             | part :: rest => bodies part ++ each rest
             end) parts
      | None =>
          match body_data with
          | Some raw => [(default "" mimeType, raw)]
          | None => []
          end
      end
  end.

(** The bodies of a message. *)
Definition bodies_of (m : message) : list (string * string) :=
  match message_payload m with
  | Some p => bodies p
  | None => []
  end.

(** The value of the last header named [key], whatever the case of its
    name. *)
Definition last_header (key : string) (hs : list header) : option string :=
  last (map value (List.filter (fun h => String.eqb (Py.lower (name h)) key) hs)).

(** The texts of the bodies of type [mime_type], one after the other. *)
Definition texts_of (mime_type : string) (decoded : list (string * string)) : string :=
  fold_right String.append ""
    (map snd (List.filter (fun b => String.eqb (fst b) mime_type) decoded)).

(** The bodies decoded one after the other, up to the first that fails. *)
Fixpoint decode_all (decode : string -> Py.result string) (bs : list (string * string))
    : Py.result (list (string * string)) :=
  match bs with
  | [] => Py.Ok []
  | (mime_type, raw) :: rest =>
      match decode raw with
      | Py.Raise e => Py.Raise e
      | Py.Ok data =>
          match decode_all decode rest with
          | Py.Raise e => Py.Raise e
          | Py.Ok decoded => Py.Ok ((mime_type, data) :: decoded)
          end
      end
  end.

End Gmail.

(** ** More sample inputs *)

Module Fixture.

(** A script cut short, and a Microdata reservation. *)
Definition broken_script : node :=
  Sample.page
    [ Sample.ld_json "{'@type': 'FlightReservation', " ]
    [ Elem "div" [("itemscope", ""); ("itemtype", "http://schema.org/FlightReservation")] [] ].


(** A reservation whose [reservationFor] is a text. *)
Definition flight_as_text_json : string :=
  "{'@type': 'FlightReservation', 'reservationNumber': 'ABC123', 'reservationFor': 'UA456'}".

Definition flight_as_text : node := Sample.page [ Sample.ld_json flight_as_text_json ] [].

Definition flight_as_text_members : list (string * json) :=
  [ ("@type", JStr "FlightReservation"); ("reservationNumber", JStr "ABC123");
    ("reservationFor", JStr "UA456") ].

(** The text of tests/test_parser.py and what the patterns find in it. *)
Definition itinerary_text : string := "Confirmation: ABC123, Flight UA456, SFO to JFK".

Definition itinerary : flight_details :=
  Details.set_arrival_airport (JStr "JFK")
    (Details.set_departure_airport (JStr "SFO")
       (Details.set_flight_number (JStr "UA456")
          (Details.set_booking_reference (JStr "ABC123") Details.empty))).

(** A text without the "XXX to YYY" pattern, and what the fallback finds. *)
Definition prose_text : string := "THE flight leaves SFO and lands at JFK".

Definition prose : flight_details :=
  Details.set_arrival_airport (JStr "JFK")
    (Details.set_departure_airport (JStr "SFO") Details.empty).

(** A confirmed reservation whose number is a list, what the structured
    strategy takes from it, and a mail service whose every message has
    that body. *)
Definition listed_number : node :=
  Sample.page
    [ Sample.ld_json "{'@type': 'FlightReservation', 'reservationStatus': 'Confirmed', 'reservationNumber': ['ABC123', 'DEF456']}" ]
    [].

Definition listed : flight_details :=
  Details.set_booking_reference (JArr [JStr "ABC123"; JStr "DEF456"]) Details.empty.

Definition get_listed (msg_id : string) : Py.result email_data :=
  Py.Ok (Sample.html_only msg_id listed_number).

(** A sweep that starts on the ledger of the earlier run. *)
Definition fresh : sweep :=
  {| db := Sample.ledger; flight_messages := []; fetched := [] |}.

(** The row [save_email] writes for a message with its reference alone. *)
Definition saved : database :=
  {| emails := <[ "m9" := Sample.record "m9" "ABC123" ]> (emails Sample.ledger);
     processing_state := processing_state Sample.ledger |}.

(** Two rows with the same reference in different case, neither
    forwarded. *)
Definition two_rows : database :=
  {| emails := <[ "m1" := Sample.record "m1" "ABC123" ]>
                 (<[ "m2" := Sample.record "m2" "abc123" ]> ∅);
     processing_state := [] |}.

(** A search answered in two pages, the second without messages and with
    an empty token. *)
Definition first_page : page string :=
  {| page_messages := Some ["m1"; "m2"]; nextPageToken := Some "t2" |}.

Definition last_page : page string :=
  {| page_messages := None; nextPageToken := Some "" |}.

Definition fetch_page (page_num : nat) (page_token : option string)
    : Py.result (page string) :=
  match page_token with
  | None => Py.Ok first_page
  | Some _ => Py.Ok last_page
  end.

(** A request that meets two 503 responses and then returns, and one
    that is always refused with 429. *)
Definition flaky (made : nat) : Retry.response string :=
  if (made <? 2)%nat then Retry.HttpError 503 else Retry.Returned "ok".

Definition always_limited (made : nat) : Retry.response string := Retry.HttpError 429.

(** Five ids, a mail service that modifies every batch, and one that
    refuses the batch starting with [c]. *)
Definition five_ids : list string := ["a"; "b"; "c"; "d"; "e"].

Definition modify_ok (batch : list string) (label_id : string) : Py.result unit :=
  Py.Ok tt.

Definition modify_refuses_c (batch : list string) (label_id : string) : Py.result unit :=
  match batch with
  | "c" :: _ => Py.Raise (Py.OtherError "HttpError 400")
  | _ => Py.Ok tt
  end.

(** A multipart message: its own body is passed over for those of its
    parts, and its two Subject headers differ in case. *)
Definition multipart : Gmail.message :=
  {| Gmail.id := "m1"; Gmail.threadId := Some "t1";
     Gmail.message_payload :=
       Some (Gmail.Payload
               (Some [ {| Gmail.name := "Subject"; Gmail.value := "first" |};
                       {| Gmail.name := "From"; Gmail.value := "noreply@united.com" |};
                       {| Gmail.name := "SUBJECT"; Gmail.value := "second" |} ])
               (Some "multipart/alternative") (Some "own body")
               (Some [ Gmail.Payload None (Some "text/plain") (Some "plain text") None;
                       Gmail.Payload None (Some "text/html") (Some "<p>one</p>") None;
                       Gmail.Payload None None None
                         (Some [ Gmail.Payload None (Some "text/html") (Some "<p>two</p>")
                                   None ]) ])) |}.

(** A decoder for the samples: the data stands for its own text, and "!"
    is not base64. *)
Definition decode (data : string) : Py.result string :=
  if String.eqb data "!" then Py.Raise (Py.OtherError "binascii.Error") else Py.Ok data.

(** A message with an attachment that does not decode. *)
Definition bad_attachment : Gmail.message :=
  {| Gmail.id := "m2"; Gmail.threadId := None;
     Gmail.message_payload :=
       Some (Gmail.Payload None None None
               (Some [ Gmail.Payload None (Some "text/html") (Some "<p>one</p>") None;
                       Gmail.Payload None (Some "application/pdf") (Some "!") None ])) |}.

End Fixture.

(** * Properties *)

(** ** Python strings *)

Lemma truthy_nonempty (s : string) : Py.truthy s = true <-> s <> "".
Proof. destruct s; cbn; split; congruence. Qed.

(** ** Deduplicator *)

Section DedupFacts.

Variable fuzz_ratio : string -> string -> Z.
Variable self : Deduplicator.

Lemma duplicate_exact (p1 p2 : string) :
  Py.truthy p1 = true -> Py.truthy p2 = true -> Py.upper p1 = Py.upper p2 ->
  are_pnrs_duplicate fuzz_ratio self (Some p1) (Some p2) = true.
Proof.
  intros H1 H2 Hu. unfold are_pnrs_duplicate.
  rewrite H1, H2, Hu, String.eqb_refl. reflexivity.
Qed.

Lemma duplicate_below (p1 p2 : string) :
  Py.upper p1 <> Py.upper p2 ->
  fuzz_ratio (Py.upper p1) (Py.upper p2) < fuzzy_threshold self ->
  are_pnrs_duplicate fuzz_ratio self (Some p1) (Some p2) = false.
Proof.
  intros Hne Hlt. unfold are_pnrs_duplicate.
  destruct (negb (Py.truthy p1) || negb (Py.truthy p2)); [reflexivity|].
  apply String.eqb_neq in Hne. rewrite Hne. apply Z.leb_gt. exact Hlt.
Qed.

Lemma duplicate_absent (o1 o2 : option string) :
  Py.truthy_opt o1 = false \/ Py.truthy_opt o2 = false ->
  are_pnrs_duplicate fuzz_ratio self o1 o2 = false.
Proof.
  unfold are_pnrs_duplicate.
  destruct o1 as [p1|], o2 as [p2|]; cbn; intros [H|H];
    try reflexivity; try discriminate; rewrite H; cbn;
    [reflexivity | rewrite orb_true_r; reflexivity].
Qed.

(** C5. Two non-empty references that are equal after case normalization,
    which is upper-casing as the code does it, are duplicates; a pair with
    an empty or absent side is not. *)
Theorem are_pnrs_duplicate_spec :
  (forall p1 p2 : string,
      p1 <> "" -> p2 <> "" ->
      Py.upper p1 = Py.upper p2 ->
      are_pnrs_duplicate fuzz_ratio self (Some p1) (Some p2) = true)
  /\ (forall o1 o2 : option string,
         o1 = None \/ o1 = Some "" \/ o2 = None \/ o2 = Some "" ->
         are_pnrs_duplicate fuzz_ratio self o1 o2 = false).
Proof.
  split.
  - intros p1 p2 H1 H2 Heq. apply duplicate_exact.
    + apply truthy_nonempty, H1.
    + apply truthy_nonempty, H2.
    + exact Heq.
  - intros o1 o2 H. apply duplicate_absent.
    destruct H as [-> | [-> | [-> | ->]]]; cbn; auto.
Qed.

Lemma unique_from_idem (seen : gset string) (emails : list email_record) :
  unique_from fuzz_ratio self seen (unique_from fuzz_ratio self seen emails)
  = unique_from fuzz_ratio self seen emails.
Proof.
  revert seen. induction emails as [|email rest IH]; intros seen; [reflexivity|].
  cbn [unique_from].
  destruct (pnr email) as [p|] eqn:Hp.
  - destruct (Py.truthy p) eqn:Ht.
    + destruct (Py.truthy (Py.upper p)) eqn:Hu.
      * destruct (is_duplicate fuzz_ratio self (Py.upper p) seen) eqn:Hd.
        -- apply IH.
        -- cbn [unique_from]. rewrite Hp, Ht, Hu, Hd. f_equal. apply IH.
      * cbn [unique_from]. rewrite Hp, Ht, Hu. f_equal. apply IH.
    + cbn [unique_from]. rewrite Hp, Ht. f_equal. apply IH.
  - cbn [unique_from]. rewrite Hp. f_equal. apply IH.
Qed.

(** C6. Unique-filtering is idempotent: filtering the output of
    [get_unique_emails] again returns it unchanged. *)
Theorem get_unique_emails_idempotent (emails : list email_record) :
  get_unique_emails fuzz_ratio self (get_unique_emails fuzz_ratio self emails)
  = get_unique_emails fuzz_ratio self emails.
Proof. unfold get_unique_emails. apply unique_from_idem. Qed.

Lemma keep_groups_sizes (st : list (list string)) (d : list (string * nat)) :
  Forall (fun g => (2 <= length (snd g))%nat) (keep_groups st d).
Proof.
  apply Forall_forall. intros g Hg. unfold keep_groups in Hg.
  apply list_elem_of_In, filter_In in Hg. destruct Hg as [_ Hg].
  apply Z.ltb_lt in Hg. lia.
Qed.

Lemma group_email_new (g : groups) (email : email_record) (p : string) :
  pnr email = Some p -> Py.truthy p = true ->
  first_match fuzz_ratio self (Py.upper p) (processed_pnrs g) = None ->
  group_email fuzz_ratio self g email
  = {| store := store g ++ [[rec_message_id email]];
       processed_pnrs := dict_set (Py.upper p) (length (store g)) (processed_pnrs g);
       duplicates := duplicates g |}.
Proof. intros Hp Ht Hm. unfold group_email. rewrite Hp, Ht, Hm. reflexivity. Qed.

Lemma group_email_known (g : groups) (email : email_record) (p known_pnr : string)
    (loc : nat) :
  pnr email = Some p -> Py.truthy p = true ->
  first_match fuzz_ratio self (Py.upper p) (processed_pnrs g) = Some (known_pnr, loc) ->
  group_email fuzz_ratio self g email
  = {| store := append_at loc (rec_message_id email) (store g);
       processed_pnrs := processed_pnrs g;
       duplicates :=
         if dict_has known_pnr (duplicates g) then duplicates g
         else dict_set known_pnr loc (duplicates g) |}.
Proof. intros Hp Ht Hm. unfold group_email. rewrite Hp, Ht, Hm. reflexivity. Qed.

Ltac known_refs :=
  unfold first_match;
  change (Py.upper "ABC123") with "ABC123";
  change (Py.upper "XYZ789") with "XYZ789";
  change (Py.upper "DEF456") with "DEF456";
  cbn [List.find fst snd processed_pnrs store duplicates dict_set dict_has
       existsb length app String.eqb Ascii.eqb Bool.eqb].

Lemma five_references (r1 r2 r3 r4 r5 : email_record) :
  pnr r1 = Some "ABC123" -> pnr r2 = Some "ABC123" ->
  pnr r3 = Some "XYZ789" -> pnr r4 = Some "XYZ789" ->
  pnr r5 = Some "DEF456" ->
  fuzz_ratio "XYZ789" "ABC123" < fuzzy_threshold self ->
  fuzz_ratio "DEF456" "ABC123" < fuzzy_threshold self ->
  fuzz_ratio "DEF456" "XYZ789" < fuzzy_threshold self ->
  find_duplicates fuzz_ratio self [r1; r2; r3; r4; r5]
  = [ ("ABC123", [rec_message_id r1; rec_message_id r2]);
      ("XYZ789", [rec_message_id r3; rec_message_id r4]) ].
Proof.
  intros H1 H2 H3 H4 H5 Hxa Hda Hdx.
  assert (Ea : are_pnrs_duplicate fuzz_ratio self (Some "ABC123") (Some "ABC123") = true)
    by (apply duplicate_exact; reflexivity).
  assert (Ex : are_pnrs_duplicate fuzz_ratio self (Some "XYZ789") (Some "XYZ789") = true)
    by (apply duplicate_exact; reflexivity).
  assert (Exa : are_pnrs_duplicate fuzz_ratio self (Some "XYZ789") (Some "ABC123") = false)
    by (apply duplicate_below; [discriminate | exact Hxa]).
  assert (Eda : are_pnrs_duplicate fuzz_ratio self (Some "DEF456") (Some "ABC123") = false)
    by (apply duplicate_below; [discriminate | exact Hda]).
  assert (Edx : are_pnrs_duplicate fuzz_ratio self (Some "DEF456") (Some "XYZ789") = false)
    by (apply duplicate_below; [discriminate | exact Hdx]).
  unfold find_duplicates. cbn [fold_left].
  rewrite (group_email_new _ r1 "ABC123" H1 eq_refl) by reflexivity.
  rewrite (group_email_known _ r2 "ABC123" "ABC123" 0%nat H2 eq_refl)
    by (known_refs; rewrite Ea; reflexivity).
  rewrite (group_email_new _ r3 "XYZ789" H3 eq_refl)
    by (known_refs; rewrite Exa; reflexivity).
  rewrite (group_email_known _ r4 "XYZ789" "XYZ789" 1%nat H4 eq_refl)
    by (known_refs; rewrite Exa, Ex; reflexivity).
  rewrite (group_email_new _ r5 "DEF456" H5 eq_refl)
    by (known_refs; rewrite Eda, Edx; reflexivity).
  reflexivity.
Qed.

(** C9. Five records with references ABC123, ABC123, XYZ789, XYZ789,
    DEF456 give exactly two groups, the first two records and the next
    two, and no group for DEF456 (the three references being pairwise
    below the similarity threshold); and whatever the input, every group
    returned has at least two members. *)
Theorem find_duplicates_five_references (r1 r2 r3 r4 r5 : email_record) :
  pnr r1 = Some "ABC123" -> pnr r2 = Some "ABC123" ->
  pnr r3 = Some "XYZ789" -> pnr r4 = Some "XYZ789" ->
  pnr r5 = Some "DEF456" ->
  fuzz_ratio "XYZ789" "ABC123" < fuzzy_threshold self ->
  fuzz_ratio "DEF456" "ABC123" < fuzzy_threshold self ->
  fuzz_ratio "DEF456" "XYZ789" < fuzzy_threshold self ->
  find_duplicates fuzz_ratio self [r1; r2; r3; r4; r5]
  = [ ("ABC123", [rec_message_id r1; rec_message_id r2]);
      ("XYZ789", [rec_message_id r3; rec_message_id r4]) ]
  /\ length (find_duplicates fuzz_ratio self [r1; r2; r3; r4; r5]) = 2%nat
  /\ ~ In "DEF456" (map fst (find_duplicates fuzz_ratio self [r1; r2; r3; r4; r5]))
  /\ (~ In (rec_message_id r5)
          [rec_message_id r1; rec_message_id r2; rec_message_id r3; rec_message_id r4] ->
      forall g, In g (find_duplicates fuzz_ratio self [r1; r2; r3; r4; r5]) ->
                ~ In (rec_message_id r5) (snd g))
  /\ forall emails : list email_record,
       Forall (fun g => (2 <= length (snd g))%nat)
              (find_duplicates fuzz_ratio self emails).
Proof.
  intros H1 H2 H3 H4 H5 Hxa Hda Hdx.
  rewrite (five_references r1 r2 r3 r4 r5 H1 H2 H3 H4 H5 Hxa Hda Hdx).
  split; [reflexivity|]. split; [reflexivity|]. split; [|split].
  - cbn. intros [H|[H|[]]]; discriminate.
  - intros Hn g [<-|[<-|[]]] Hin; cbn in Hin, Hn; intuition.
  - intros emails. unfold find_duplicates. apply keep_groups_sizes.
Qed.

End DedupFacts.

(** C5 at "ABC123" and "abc123", and at an absent reference. *)
Lemma are_pnrs_duplicate_spec_witness :
  ("ABC123" <> "" /\ "abc123" <> "" /\ Py.upper "ABC123" = Py.upper "abc123")
  /\ are_pnrs_duplicate Fuzz.ratio Sample.default_dedup (Some "ABC123") (Some "abc123") = true
  /\ are_pnrs_duplicate Fuzz.ratio Sample.default_dedup None (Some "ABC123") = false.
Proof.
  destruct (are_pnrs_duplicate_spec Fuzz.ratio Sample.default_dedup) as [Hsame Habsent].
  assert (H1 : "ABC123" <> "") by discriminate.
  assert (H2 : "abc123" <> "") by discriminate.
  assert (H3 : Py.upper "ABC123" = Py.upper "abc123") by reflexivity.
  split; [exact (conj H1 (conj H2 H3))|]. split.
  - exact (Hsame "ABC123" "abc123" H1 H2 H3).
  - apply Habsent. left. reflexivity.
Defined.

(** C9 on the five records of the scenario, with the default threshold. *)
Lemma find_duplicates_five_references_witness :
  (Fuzz.ratio "XYZ789" "ABC123" < 95 /\ Fuzz.ratio "DEF456" "ABC123" < 95
   /\ Fuzz.ratio "DEF456" "XYZ789" < 95)
  /\ find_duplicates Fuzz.ratio Sample.default_dedup Sample.five
     = [ ("ABC123", ["m1"; "m2"]); ("XYZ789", ["m3"; "m4"]) ].
Proof.
  assert (Hxa : Fuzz.ratio "XYZ789" "ABC123" < 95) by (vm_compute; reflexivity).
  assert (Hda : Fuzz.ratio "DEF456" "ABC123" < 95) by (vm_compute; reflexivity).
  assert (Hdx : Fuzz.ratio "DEF456" "XYZ789" < 95) by (vm_compute; reflexivity).
  split; [exact (conj Hxa (conj Hda Hdx))|].
  exact (proj1 (find_duplicates_five_references Fuzz.ratio Sample.default_dedup
                  (Sample.record "m1" "ABC123") (Sample.record "m2" "ABC123")
                  (Sample.record "m3" "XYZ789") (Sample.record "m4" "XYZ789")
                  (Sample.record "m5" "DEF456")
                  eq_refl eq_refl eq_refl eq_refl eq_refl Hxa Hda Hdx)).
Defined.

(** ** The ledger and the Phase 1 sweep *)

Lemma is_email_processed_iff (d : database) (m p : string) :
  StateManager.is_email_processed d m p = true <->
  exists ev, In ev (processing_state d) /\ ev_message_id ev = m
             /\ ev_phase ev = p /\ ev_status ev = "SUCCESS".
Proof.
  unfold StateManager.is_email_processed. rewrite existsb_exists.
  unfold StateManager.is_success_for. split.
  - intros (ev & Hin & H). apply andb_prop in H as [H Hs].
    apply andb_prop in H as [Hm Hp].
    apply String.eqb_eq in Hs, Hm, Hp. eauto.
  - intros (ev & Hin & Hm & Hp & Hs). exists ev. split; [exact Hin|].
    rewrite Hm, Hp, Hs, !String.eqb_refl. reflexivity.
Qed.

Lemma save_email_events d d' m t s f dt p fl da aa :
  StateManager.save_email d m t s f dt p fl da aa = Py.Ok d' ->
  processing_state d' = processing_state d.
Proof.
  unfold StateManager.save_email.
  destruct (StateManager.bind_text p), (StateManager.bind_text fl),
    (StateManager.bind_text da), (StateManager.bind_text aa);
    intros H; try discriminate; inversion H; reflexivity.
Qed.

Lemma processed_app (d d' : database) (m p : string) (evs : list processing_event) :
  processing_state d' = processing_state d ++ evs ->
  StateManager.is_email_processed d' m p
  = StateManager.is_email_processed d m p
    || existsb (StateManager.is_success_for m p) evs.
Proof. intros H. unfold StateManager.is_email_processed. rewrite H. apply existsb_app. Qed.

Section Phase1Facts.

Variable json_loads : string -> Py.result json.
Variable re_search : string -> string -> list re_flag -> option (list string).
Variable re_findall : string -> string -> list string.
Variable get_message : string -> Py.result email_data.

Local Abbreviation step := (sweep_message json_loads re_search re_findall get_message).
Local Abbreviation run := (phase1_label_emails json_loads re_search re_findall get_message).
Local Abbreviation done d m := (StateManager.is_email_processed d m PHASE1_LABEL).

(** A message that is done is passed over: nothing changes. *)
Lemma sweep_message_skip (s : sweep) (m : string) :
  done (db s) m = true -> step s m = s.
Proof. intros H. unfold sweep_message. rewrite H. reflexivity. Qed.

(** A message that is not done is fetched, and exactly one event is
    appended for it. *)
Lemma sweep_message_attempt (s : sweep) (m : string) :
  done (db s) m = false ->
  fetched (step s m) = fetched s ++ [m] /\
  exists status err,
    processing_state (db (step s m))
    = processing_state (db s) ++
      [ {| ev_message_id := m; ev_phase := PHASE1_LABEL;
           ev_status := status; ev_error_message := err |} ].
Proof.
  intros H. unfold sweep_message. rewrite H.
  destruct (attempt _ _ _ _ (db s) m) as [[d' b]|e] eqn:Ha; cbn; split; eauto.
  unfold attempt in Ha.
  destruct (get_message m) as [ed|]; [|discriminate].
  destruct (classify _ _ _ ed) as [is_flight score].
  destruct is_flight.
  - destruct (StateManager.save_email _ _ _ _ _ _ _ _ _ _) as [d1|] eqn:Hs; [|discriminate].
    inversion Ha; subst. cbn. rewrite (save_email_events _ _ _ _ _ _ _ _ _ _ _ Hs). eauto.
  - inversion Ha; subst. cbn. eauto.
Qed.

Lemma sweep_message_other (s : sweep) (m m' : string) :
  m' <> m -> done (db (step s m')) m = done (db s) m.
Proof.
  intros Hne. destruct (done (db s) m') eqn:Hp.
  - rewrite sweep_message_skip by exact Hp. reflexivity.
  - destruct (sweep_message_attempt s m' Hp) as [_ (status & err & He)].
    rewrite (processed_app _ _ _ _ _ He). cbn. unfold StateManager.is_success_for. cbn.
    apply String.eqb_neq in Hne. rewrite Hne. cbn. apply orb_false_r.
Qed.

Lemma sweep_message_fetched_mono (s : sweep) (m m' : string) :
  In m (fetched s) -> In m (fetched (step s m')).
Proof.
  intros H. destruct (done (db s) m') eqn:Hp.
  - rewrite sweep_message_skip by exact Hp. exact H.
  - destruct (sweep_message_attempt s m' Hp) as [Hf _]. rewrite Hf.
    apply in_or_app. left. exact H.
Qed.

Lemma fold_fetched_mono (msgs : list string) (s : sweep) (m : string) :
  In m (fetched s) -> In m (fetched (fold_left step msgs s)).
Proof.
  revert s. induction msgs as [|m' rest IH]; intros s H; cbn; [exact H|].
  apply IH, sweep_message_fetched_mono, H.
Qed.

(** A candidate that is not done when the sweep starts is fetched. *)
Lemma fold_attempts (msgs : list string) (s : sweep) (m : string) :
  In m msgs -> done (db s) m = false ->
  In m (fetched (fold_left step msgs s)).
Proof.
  revert s. induction msgs as [|m' rest IH]; intros s Hin Hp; [destruct Hin|].
  cbn [fold_left]. destruct (String.eqb_spec m' m) as [->|Hne].
  - apply fold_fetched_mono.
    destruct (sweep_message_attempt s m Hp) as [Hf _]. rewrite Hf.
    apply in_or_app. right. left. reflexivity.
  - destruct Hin as [->|Hin]; [congruence|].
    apply IH; [exact Hin|]. rewrite sweep_message_other by exact Hne. exact Hp.
Qed.

Lemma sweep_message_done (s : sweep) (m m' : string) :
  done (db s) m = true ->
  done (db (step s m')) m = true
  /\ (~ In m (fetched s) -> ~ In m (fetched (step s m')))
  /\ Spec.events_of m (db (step s m')) = Spec.events_of m (db s).
Proof.
  intros Hp. destruct (String.eqb_spec m' m) as [->|Hne].
  - rewrite sweep_message_skip by exact Hp. auto.
  - split; [rewrite sweep_message_other by exact Hne; exact Hp|].
    destruct (done (db s) m') eqn:Hp'.
    + rewrite sweep_message_skip by exact Hp'. auto.
    + destruct (sweep_message_attempt s m' Hp') as [Hf (status & err & He)].
      split.
      * rewrite Hf. intros Hn Hin. apply in_app_or in Hin as [Hin|[Hin|[]]]; auto.
      * unfold Spec.events_of. rewrite He, List.filter_app. cbn.
        apply String.eqb_neq in Hne. rewrite Hne. apply app_nil_r.
Qed.

(** A message that is done when the sweep starts is never fetched, and no
    event is added for it. *)
Lemma fold_skips (msgs : list string) (s : sweep) (m : string) :
  done (db s) m = true ->
  (~ In m (fetched s) -> ~ In m (fetched (fold_left step msgs s)))
  /\ Spec.events_of m (db (fold_left step msgs s)) = Spec.events_of m (db s).
Proof.
  revert s. induction msgs as [|m' rest IH]; intros s Hp; cbn [fold_left]; [auto|].
  destruct (sweep_message_done s m m' Hp) as (Hp' & Hf & He).
  destruct (IH _ Hp') as [Hf' He']. split; [auto | congruence].
Qed.

(** What the attempt on a message that is not done leaves in the ledger:
    one event for the message, FAILED with the exception's text when the
    fetch raised, SKIPPED when the content fetched is not classified as a
    flight confirmation, and SUCCESS or (when the record could not be
    saved) FAILED when it is. *)
Lemma sweep_message_records (s : sweep) (m : string) :
  done (db s) m = false ->
  exists ev,
    processing_state (db (step s m)) = processing_state (db s) ++ [ev]
    /\ ev_message_id ev = m
    /\ ev_phase ev = PHASE1_LABEL
    /\ match get_message m with
       | Py.Raise e =>
           ev_status ev = "FAILED" /\ ev_error_message ev = Some (exn_message e)
       | Py.Ok content =>
           if fst (classify json_loads re_search re_findall content)
           then ev_status ev = "SUCCESS" \/ ev_status ev = "FAILED"
           else ev_status ev = "SKIPPED"
       end.
Proof.
  intros H. unfold sweep_message. rewrite H. unfold attempt.
  destruct (get_message m) as [content|e].
  - destruct (classify json_loads re_search re_findall content) as [is_flight score].
    destruct is_flight; cbn [fst].
    + destruct (StateManager.save_email _ _ _ _ _ _ _ _ _ _) as [d1|e] eqn:Hs.
      * eexists. cbn [db StateManager.mark_email_processed processing_state].
        rewrite (save_email_events _ _ _ _ _ _ _ _ _ _ _ Hs).
        split; [reflexivity|]. cbn. auto.
      * eexists. cbn [db StateManager.mark_email_processed processing_state].
        split; [reflexivity|]. cbn. auto.
    + eexists. cbn [db StateManager.mark_email_processed processing_state].
      split; [reflexivity|]. cbn. auto.
  - eexists. cbn [db StateManager.mark_email_processed processing_state].
    split; [reflexivity|]. cbn. auto.
Qed.

(** The sweep only appends to the ledger. *)
Lemma fold_appends (msgs : list string) (s : sweep) :
  exists evs,
    processing_state (db (fold_left step msgs s)) = processing_state (db s) ++ evs.
Proof.
  revert s. induction msgs as [|m' rest IH]; intros s; cbn [fold_left].
  - exists []. rewrite app_nil_r. reflexivity.
  - destruct (IH (step s m')) as [evs He]. rewrite He.
    destruct (done (db s) m') eqn:Hp.
    + rewrite sweep_message_skip by exact Hp. eauto.
    + destruct (sweep_message_records s m' Hp) as (ev & -> & _).
      rewrite <- app_assoc. eauto.
Qed.

(** A candidate that is not done when the sweep starts has an event
    appended for it, which tells how its attempt ended. *)
Lemma fold_records (msgs : list string) (s : sweep) (m : string) :
  In m msgs -> done (db s) m = false ->
  exists before ev after,
    processing_state (db (fold_left step msgs s))
    = processing_state (db s) ++ before ++ ev :: after
    /\ ev_message_id ev = m
    /\ ev_phase ev = PHASE1_LABEL
    /\ match get_message m with
       | Py.Raise e =>
           ev_status ev = "FAILED" /\ ev_error_message ev = Some (exn_message e)
       | Py.Ok content =>
           if fst (classify json_loads re_search re_findall content)
           then ev_status ev = "SUCCESS" \/ ev_status ev = "FAILED"
           else ev_status ev = "SKIPPED"
       end.
Proof.
  revert s. induction msgs as [|m' rest IH]; intros s Hin Hp; [destruct Hin|].
  cbn [fold_left]. destruct (String.eqb_spec m' m) as [->|Hne].
  - destruct (sweep_message_records s m Hp) as (ev & He & Hev).
    destruct (fold_appends rest (step s m)) as [after Ha].
    exists [], ev, after. rewrite Ha, He, <- app_assoc. split; [reflexivity | exact Hev].
  - destruct Hin as [->|Hin]; [congruence|].
    assert (Hp' : done (db (step s m')) m = false)
      by (rewrite sweep_message_other by exact Hne; exact Hp).
    destruct (IH (step s m') Hin Hp') as (before & ev & after & He & Hev).
    destruct (done (db s) m') eqn:Hd.
    + rewrite sweep_message_skip in He |- * by exact Hd. exists before, ev, after.
      split; [exact He | exact Hev].
    + destruct (sweep_message_records s m' Hd) as (ev' & He' & _).
      rewrite He', <- app_assoc in He. exists (ev' :: before), ev, after.
      split; [exact He | exact Hev].
Qed.

(** C1. A message is done for a phase exactly when the ledger has a
    SUCCESS event for that message and phase. Hence a candidate of the
    Phase 1 sweep whose events for the phase are all FAILED or SKIPPED is
    not done and the sweep attempts it again: it fetches the message and
    appends an event for it to the ledger, FAILED when the fetch raised,
    SKIPPED when the content is not classified as a flight confirmation,
    SUCCESS or FAILED when it is. A message with a SUCCESS event is passed
    over: it is not fetched and its events stay as they are. *)
Theorem success_event_decides_phase1 :
  (forall (d : database) (m p : string),
      StateManager.is_email_processed d m p = true <->
      exists ev, In ev (processing_state d) /\ ev_message_id ev = m
                 /\ ev_phase ev = p /\ ev_status ev = "SUCCESS")
  /\ (forall (d : database) (message_list : list string) (m : string),
         In m message_list ->
         (forall ev, In ev (processing_state d) ->
                     ev_message_id ev = m -> ev_phase ev = PHASE1_LABEL ->
                     ev_status ev = "FAILED" \/ ev_status ev = "SKIPPED") ->
         StateManager.is_email_processed d m PHASE1_LABEL = false
         /\ In m (fetched (run d message_list))
         /\ exists before ev after,
              processing_state (db (run d message_list))
              = processing_state d ++ before ++ ev :: after
              /\ ev_message_id ev = m
              /\ ev_phase ev = PHASE1_LABEL
              /\ match get_message m with
                 | Py.Raise e =>
                     ev_status ev = "FAILED"
                     /\ ev_error_message ev = Some (exn_message e)
                 | Py.Ok content =>
                     if fst (classify json_loads re_search re_findall content)
                     then ev_status ev = "SUCCESS" \/ ev_status ev = "FAILED"
                     else ev_status ev = "SKIPPED"
                 end)
  /\ (forall (d : database) (message_list : list string) (m : string)
             (ev : processing_event),
         In ev (processing_state d) ->
         ev_message_id ev = m -> ev_phase ev = PHASE1_LABEL ->
         ev_status ev = "SUCCESS" ->
         StateManager.is_email_processed d m PHASE1_LABEL = true
         /\ ~ In m (fetched (run d message_list))
         /\ Spec.events_of m (db (run d message_list)) = Spec.events_of m d).
Proof.
  split; [exact is_email_processed_iff|]. split.
  - intros d msgs m Hin Hall.
    assert (Hnot : StateManager.is_email_processed d m PHASE1_LABEL = false).
    { apply not_true_is_false. intros Hp.
      apply is_email_processed_iff in Hp as (ev & Hev & Hm & Hph & Hs).
      destruct (Hall ev Hev Hm Hph) as [H|H]; rewrite Hs in H; discriminate. }
    split; [exact Hnot|].
    unfold phase1_label_emails. split; [apply fold_attempts; [exact Hin | exact Hnot]|].
    exact (fold_records msgs {| db := d; flight_messages := []; fetched := [] |} m Hin Hnot).
  - intros d msgs m ev Hev Hm Hph Hs.
    assert (Hp : StateManager.is_email_processed d m PHASE1_LABEL = true)
      by (apply is_email_processed_iff; eauto).
    split; [exact Hp|].
    unfold phase1_label_emails.
    destruct (fold_skips msgs {| db := d; flight_messages := []; fetched := [] |} m Hp)
      as [Hf He].
    split; [apply Hf; intros [] | exact He].
Qed.

End Phase1Facts.

(** C1 on a ledger where [m1] has a FAILED and a SKIPPED event and [m2] a
    SUCCESS event: the sweep over both fetches [m1], which is a flight
    confirmation, and appends an event for it; it does not fetch [m2]. *)
Lemma success_event_decides_phase1_witness :
  (In "m1" ["m1"; "m2"]
   /\ forall ev, In ev (processing_state Sample.ledger) ->
                 ev_message_id ev = "m1" -> ev_phase ev = PHASE1_LABEL ->
                 ev_status ev = "FAILED" \/ ev_status ev = "SKIPPED")
  /\ (In (Sample.event "m2" "SUCCESS") (processing_state Sample.ledger))
  /\ In "m1" (fetched (phase1_label_emails JsonText.loads Regex.re_search Regex.re_findall
                         Sample.get_message Sample.ledger ["m1"; "m2"]))
  /\ (exists before ev after,
         processing_state
           (db (phase1_label_emails JsonText.loads Regex.re_search Regex.re_findall
                  Sample.get_message Sample.ledger ["m1"; "m2"]))
         = processing_state Sample.ledger ++ before ++ ev :: after
         /\ ev_message_id ev = "m1"
         /\ ev_phase ev = PHASE1_LABEL
         /\ (ev_status ev = "SUCCESS" \/ ev_status ev = "FAILED"))
  /\ ~ In "m2" (fetched (phase1_label_emails JsonText.loads Regex.re_search Regex.re_findall
                           Sample.get_message Sample.ledger ["m1"; "m2"])).
Proof.
  destruct (success_event_decides_phase1 JsonText.loads Regex.re_search Regex.re_findall
              Sample.get_message) as (_ & Hretry & Hskip).
  assert (H1 : In "m1" ["m1"; "m2"]) by (left; reflexivity).
  assert (H2 : forall ev, In ev (processing_state Sample.ledger) ->
                          ev_message_id ev = "m1" -> ev_phase ev = PHASE1_LABEL ->
                          ev_status ev = "FAILED" \/ ev_status ev = "SKIPPED").
  { intros ev [<-|[<-|[<-|[]]]] Hm Hp; cbn in *;
      [left; reflexivity | discriminate | right; reflexivity]. }
  assert (H3 : In (Sample.event "m2" "SUCCESS") (processing_state Sample.ledger))
    by (right; left; reflexivity).
  split; [exact (conj H1 H2)|]. split; [exact H3|].
  destruct (Hretry Sample.ledger ["m1"; "m2"] "m1" H1 H2)
    as (_ & Hfetched & before & ev & after & Hledger & Hm & Hp & Hstatus).
  split; [exact Hfetched|]. split.
  - exists before, ev, after. split; [exact Hledger|]. split; [exact Hm|].
    split; [exact Hp|]. vm_compute in Hstatus. exact Hstatus.
  - exact (proj1 (proj2 (Hskip Sample.ledger ["m1"; "m2"] "m2" _ H3 eq_refl eq_refl eq_refl))).
Defined.

(** ** Classifier *)

Section ClassifierFacts.

Variable json_loads : string -> Py.result json.
Variable re_search : string -> string -> list re_flag -> option (list string).
Variable re_findall : string -> string -> list string.

Local Abbreviation score_of e :=
  (snd (classify json_loads re_search re_findall e)).

(** The score is the sum of the weights of the signals that fire, and the
    decision is the comparison of that sum with 50. *)
Lemma classify_sum (e : email_data) :
  classify json_loads re_search re_findall e
  = (50 <=? Spec.other_signals json_loads re_search re_findall e
            + Spec.points (is_confirmation_subject re_search (subject e)) 20,
     Spec.other_signals json_loads re_search re_findall e
     + Spec.points (is_confirmation_subject re_search (subject e)) 20).
Proof.
  unfold classify, Spec.other_signals, Spec.points.
  destruct (schema_signal json_loads e), (is_airline_domain (from_email e)),
    (is_confirmation_subject re_search (subject e)),
    (has_flight_markers re_search re_findall (subject e +:+ " " +:+ text_content e));
    reflexivity.
Qed.

(** The structured-markup signal is decisive once it fires. *)
Lemma schema_signal_decisive (e : email_data) :
  schema_signal json_loads e = true ->
  fst (classify json_loads re_search re_findall e) = true /\ 50 <= score_of e.
Proof.
  intros H. rewrite classify_sum. cbn [fst snd].
  unfold Spec.other_signals, Spec.points. rewrite H.
  destruct (is_airline_domain (from_email e)),
    (is_confirmation_subject re_search (subject e)),
    (has_flight_markers re_search re_findall (subject e +:+ " " +:+ text_content e));
    cbv iota; (split; [reflexivity | lia]).
Qed.

Lemma existsb_false_forall {A : Type} (f : A -> bool) (l : list A) :
  existsb f l = false <-> forall x, In x l -> f x = false.
Proof.
  split.
  - intros H x Hin. apply not_true_is_false. intros Hx.
    assert (existsb f l = true) by (apply existsb_exists; eauto). congruence.
  - intros H. apply not_true_is_false. intros He.
    apply existsb_exists in He as (x & Hin & Hx). rewrite (H x Hin) in Hx. discriminate.
Qed.

(** C8. The subject signal fires exactly when some confirmation pattern
    matches the subject and no exclusion pattern does; it adds 20 to the
    score when it fires and nothing otherwise; so a subject that matches
    an exclusion pattern adds nothing, whatever confirmation phrase it
    also has. *)
Theorem subject_signal_needs_no_exclusion :
  (forall subject : string,
      is_confirmation_subject re_search subject = true <->
      (exists p, In p CONFIRMATION_PATTERNS /\ matches re_search p subject = true)
      /\ (forall p, In p EXCLUSION_PATTERNS -> matches re_search p subject = false))
  /\ (forall e : email_data,
         score_of e
         = Spec.other_signals json_loads re_search re_findall e
           + (if is_confirmation_subject re_search (subject e) then 20 else 0))
  /\ (forall (e : email_data) (p : string),
         In p EXCLUSION_PATTERNS -> matches re_search p (subject e) = true ->
         is_confirmation_subject re_search (subject e) = false
         /\ score_of e = Spec.other_signals json_loads re_search re_findall e).
Proof.
  assert (Hiff : forall subject : string,
      is_confirmation_subject re_search subject = true <->
      (exists p, In p CONFIRMATION_PATTERNS /\ matches re_search p subject = true)
      /\ (forall p, In p EXCLUSION_PATTERNS -> matches re_search p subject = false)).
  { intros subject. unfold is_confirmation_subject.
    rewrite andb_true_iff, negb_true_iff, existsb_exists, existsb_false_forall.
    reflexivity. }
  assert (Hscore : forall e : email_data,
         score_of e
         = Spec.other_signals json_loads re_search re_findall e
           + (if is_confirmation_subject re_search (subject e) then 20 else 0)).
  { intros e. rewrite classify_sum. reflexivity. }
  split; [exact Hiff|]. split; [exact Hscore|].
  intros e p Hin Hm.
  assert (Hno : is_confirmation_subject re_search (subject e) = false).
  { apply not_true_is_false. intros Hc. apply Hiff in Hc as [_ Hall].
    rewrite (Hall p Hin) in Hm. discriminate. }
  split; [exact Hno|]. rewrite Hscore, Hno. lia.
Qed.

(** *** What the markup test accepts and what it misses *)

Lemma confirmed_object_reservation (members : list (string * json)) :
  Spec.confirmed_object (JObj members) = true <->
  confirmed_reservation members = Py.Ok true.
Proof.
  unfold Spec.confirmed_object, confirmed_reservation.
  destruct (Json.field_is "@type" "FlightReservation" members); cbn;
    [|split; discriminate].
  destruct (Json.get "reservationStatus" members) as [status|]; cbn.
  - destruct (Json.str_in "Confirmed" status) as [b|e]; split; congruence.
  - split; discriminate.
Qed.

Lemma confirmed_reservation_raises (members : list (string * json)) (e : Py.exn) :
  confirmed_reservation members = Py.Raise e -> e = Py.TypeError.
Proof.
  unfold confirmed_reservation.
  destruct (Json.field_is "@type" "FlightReservation" members); [|discriminate].
  destruct (default (JStr "") (Json.get "reservationStatus" members));
    cbn; congruence.
Qed.

Lemma confirmed_in_items_sound (items : list json) :
  confirmed_in_items items = Py.Ok true -> existsb Spec.confirmed_object items = true.
Proof.
  induction items as [|item rest IH]; cbn; [discriminate|].
  destruct item as [| | | | |members]; try (intros H; rewrite (IH H); reflexivity).
  destruct (confirmed_reservation members) as [[]|e] eqn:Hr.
  - intros _. apply confirmed_object_reservation in Hr. rewrite Hr. reflexivity.
  - intros H. rewrite (IH H). apply orb_true_r.
  - discriminate.
Qed.

Lemma confirmed_in_items_complete (items : list json) :
  existsb Spec.confirmed_object items = true ->
  confirmed_in_items items = Py.Ok true
  \/ confirmed_in_items items = Py.Raise Py.TypeError.
Proof.
  induction items as [|item rest IH]; cbn; [discriminate|].
  destruct item as [| | | | |members]; try (cbn; exact IH).
  destruct (confirmed_reservation members) as [[]|e] eqn:Hr.
  - intros _. left. reflexivity.
  - intros H. apply orb_prop in H as [H|H].
    + apply confirmed_object_reservation in H. congruence.
    + apply IH, H.
  - intros _. right. rewrite (confirmed_reservation_raises _ _ Hr). reflexivity.
Qed.

Lemma script_handled_sound (script : node) :
  script_handled json_loads script = Py.Ok true ->
  Spec.script_declares json_loads script = true.
Proof.
  unfold script_handled, script_body, Spec.script_declares.
  destruct (Soup.string_of script) as [s|]; [|discriminate].
  destruct (Py.truthy s); [|discriminate]. cbn.
  destruct (json_loads s) as [[| | | |items|members]|[]]; try discriminate.
  - destruct (confirmed_in_items items) as [[]|[]] eqn:Hi; try discriminate.
    intros _. apply confirmed_in_items_sound, Hi.
  - destruct (confirmed_reservation members) as [[]|[]] eqn:Hr; try discriminate.
    intros _. apply confirmed_object_reservation, Hr.
Qed.

Lemma script_handled_complete (script : node) :
  Spec.script_declares json_loads script = true ->
  script_handled json_loads script = Py.Ok true
  \/ script_handled json_loads script = Py.Raise Py.TypeError.
Proof.
  unfold script_handled, script_body, Spec.script_declares.
  destruct (Soup.string_of script) as [s|]; [|discriminate].
  destruct (Py.truthy s); [|discriminate]. cbn.
  destruct (json_loads s) as [[| | | |items|members]|e]; try discriminate.
  - intros H. destruct (confirmed_in_items_complete items H) as [-> | ->]; auto.
  - intros H. apply confirmed_object_reservation in H. rewrite H. auto.
Qed.

Lemma scan_scripts_sound (scripts : list node) :
  scan_scripts json_loads scripts = Py.Ok true ->
  existsb (Spec.script_declares json_loads) scripts = true.
Proof.
  induction scripts as [|script rest IH]; cbn; [discriminate|].
  destruct (script_handled json_loads script) as [[]|e] eqn:Hs.
  - intros _. rewrite (script_handled_sound _ Hs). reflexivity.
  - intros H. rewrite (IH H). apply orb_true_r.
  - discriminate.
Qed.

Lemma scan_scripts_complete (scripts : list node) :
  existsb (Spec.script_declares json_loads) scripts = true ->
  scan_scripts json_loads scripts <> Py.Ok false.
Proof.
  induction scripts as [|script rest IH]; cbn; [discriminate|].
  destruct (script_handled json_loads script) as [[]|e] eqn:Hs; try discriminate.
  intros H. apply orb_prop in H as [H|H].
  - destruct (script_handled_complete _ H); congruence.
  - apply IH, H.
Qed.

(** In the JSON-structured form the signal fires only for a reservation
    whose status contains "Confirmed". *)
Lemma json_signal_needs_confirmed (soup : node) :
  Soup.find_with "div" "itemtype" SCHEMA_FLIGHT_RESERVATION soup = None ->
  has_flight_reservation_schema json_loads soup = true ->
  existsb (Spec.script_declares json_loads)
    (Soup.find_all_with "script" "type" "application/ld+json" soup) = true.
Proof.
  intros Hdiv. unfold has_flight_reservation_schema. rewrite Hdiv.
  destruct (scan_scripts json_loads _) as [[]|e] eqn:Hs; try discriminate.
  intros _. apply scan_scripts_sound, Hs.
Qed.

(** Markup with a confirmed status fires the signal, unless the scan of
    the scripts ends in an exception. *)
Lemma confirmed_markup_detected (soup : node) :
  Spec.declares_confirmed json_loads soup = true ->
  (forall e, scan_scripts json_loads
               (Soup.find_all_with "script" "type" "application/ld+json" soup)
             <> Py.Raise e) ->
  has_flight_reservation_schema json_loads soup = true.
Proof.
  unfold Spec.declares_confirmed, has_flight_reservation_schema. intros H Hno.
  destruct (scan_scripts json_loads _) as [[]|e] eqn:Hs.
  - reflexivity.
  - apply orb_prop in H as [H|H].
    + apply scan_scripts_complete in H. congruence.
    + unfold Spec.microdata_declares in H. unfold Soup.find_with.
      destruct (Soup.find_all_with "div" "itemtype" SCHEMA_FLIGHT_RESERVATION soup);
        [discriminate | reflexivity].
  - exfalso. exact (Hno e eq_refl).
Qed.

End ClassifierFacts.

(** C8 on the subject "Flight Confirmation — Cancelled": a confirmation
    pattern matches, the exclusion pattern for cancellations matches too,
    and the score is that of the other signals alone. *)
Lemma subject_signal_needs_no_exclusion_witness :
  (In "(?i)cancel" EXCLUSION_PATTERNS
   /\ matches Regex.re_search "(?i)cancel" (subject Sample.cancelled_subject) = true)
  /\ matches Regex.re_search "(?i)(flight|booking|reservation).*confirm(ed|ation)"
       (subject Sample.cancelled_subject) = true
  /\ is_confirmation_subject Regex.re_search (subject Sample.cancelled_subject) = false
  /\ snd (classify JsonText.loads Regex.re_search Regex.re_findall Sample.cancelled_subject)
     = Spec.other_signals JsonText.loads Regex.re_search Regex.re_findall Sample.cancelled_subject.
Proof.
  destruct (subject_signal_needs_no_exclusion JsonText.loads Regex.re_search Regex.re_findall)
    as (_ & _ & Hvoid).
  assert (H1 : In "(?i)cancel" EXCLUSION_PATTERNS) by (left; reflexivity).
  assert (H2 : matches Regex.re_search "(?i)cancel" (subject Sample.cancelled_subject) = true)
    by (vm_compute; reflexivity).
  split; [exact (conj H1 H2)|]. split; [vm_compute; reflexivity|].
  exact (Hvoid Sample.cancelled_subject "(?i)cancel" H1 H2).
Defined.

(** C3. A body with two reservation objects, the first with a null status
    and the second confirmed, does contain markup of type FlightReservation
    with a status containing "Confirmed"; the test of the first object
    raises [TypeError], which the handler inside the loop does not catch,
    so the markup signal does not fire and the e-mail, with all other
    fields empty, gets score 0 and is not classified as a flight. *)
Theorem null_status_hides_confirmed_markup :
  Spec.declares_confirmed JsonText.loads Sample.null_then_confirmed = true
  /\ scan_scripts JsonText.loads
       (Soup.find_all_with "script" "type" "application/ld+json" Sample.null_then_confirmed)
     = Py.Raise Py.TypeError
  /\ has_flight_reservation_schema JsonText.loads Sample.null_then_confirmed = false
  /\ classify JsonText.loads Regex.re_search Regex.re_findall
       (Sample.html_only "m" Sample.null_then_confirmed)
     = (false, 0).
Proof. vm_compute. repeat split. Qed.

(** The same body with the confirmed object alone is classified as the
    specification says. *)
Example confirmed_alone_is_decisive :
  classify JsonText.loads Regex.re_search Regex.re_findall
    (Sample.html_only "m" Sample.confirmed)
  = (true, 50).
Proof. vm_compute. reflexivity. Qed.

(** C4. A Microdata reservation whose only status is a cancellation holds
    no status containing "Confirmed", and yet the markup signal fires,
    whatever the JSON decoder: the Microdata branch does not look at the
    status. With all other fields empty the e-mail gets score 50 and is
    classified as a flight. *)
Theorem microdata_fires_without_confirmed :
  Spec.declares_confirmed JsonText.loads Sample.cancelled_microdata = false
  /\ (forall json_loads : string -> Py.result json,
         has_flight_reservation_schema json_loads Sample.cancelled_microdata = true)
  /\ classify JsonText.loads Regex.re_search Regex.re_findall
       (Sample.html_only "m" Sample.cancelled_microdata)
     = (true, 50).
Proof.
  split; [vm_compute; reflexivity|]. split; [|vm_compute; reflexivity].
  intros json_loads. reflexivity.
Qed.

(** ** Extractor *)

Section ExtractorFacts.

Variable json_loads : string -> Py.result json.
Variable re_search : string -> string -> list re_flag -> option (list string).
Variable re_findall : string -> string -> list string.

Local Abbreviation parse_email e := (parse json_loads re_search re_findall e).

Lemma found_some (data : option flight_details) :
  (if found data then data else None)
  = match data with
    | Some d => if Details.truthy d then Some d else None
    | None => None
    end.
Proof. destruct data as [d|]; cbn; [destruct (Details.truthy d)|]; reflexivity. Qed.

(** The code's cascade is the specification's: strict priority order,
    first success wins. *)
Lemma parse_cascade (e : email_data) :
  parse_email e = Spec.cascade json_loads re_search re_findall e.
Proof.
  unfold parse, Spec.cascade, Spec.first_success,
    Spec.structured_markup, Spec.html_tables, Spec.free_text.
  destruct (html_content e) as [soup|].
  - destruct (parse_schema_org json_loads soup) as [[d1|]|err],
      (parse_html_table re_search soup) as [d2|],
      (extract_flight_info_regex re_search re_findall _) as [d3|];
      cbn [found];
      repeat match goal with
             | |- context [Details.truthy ?d] => destruct (Details.truthy d)
             end;
      reflexivity.
  - destruct (extract_flight_info_regex re_search re_findall _) as [d3|];
      cbn [found]; try destruct (Details.truthy d3); reflexivity.
Qed.

(** C2. [parse] is the cascade of the specification: the strategies in
    the order structured markup, HTML tables, free text, the result being
    that of the first one that yields a field. In particular, when the
    structured-markup strategy yields a non-empty record the result is
    that record, whole, and nothing of what the tables or the text would
    give. *)
Theorem parse_first_success (e : email_data) :
  parse_email e = Spec.cascade json_loads re_search re_findall e
  /\ (forall (soup : node) (d : flight_details),
         html_content e = Some soup ->
         parse_schema_org json_loads soup = Py.Ok (Some d) ->
         Details.truthy d = true ->
         parse_email e = Some d)
  /\ (Spec.structured_markup json_loads e = None ->
      forall d : flight_details,
        Spec.html_tables re_search e = Some d -> Details.truthy d = true ->
        parse_email e = Some d)
  /\ (Spec.structured_markup json_loads e = None ->
      Spec.html_tables re_search e = None ->
      parse_email e = Spec.free_text re_search re_findall e).
Proof.
  split; [apply parse_cascade|]. split; [|split].
  - intros soup d Hh Hp Ht. rewrite parse_cascade.
    unfold Spec.cascade, Spec.first_success, Spec.structured_markup.
    rewrite Hh, Hp, Ht. reflexivity.
  - intros H1 d H2 Ht. rewrite parse_cascade.
    unfold Spec.cascade, Spec.first_success. rewrite H1, H2, Ht. reflexivity.
  - intros H1 H2. rewrite parse_cascade.
    unfold Spec.cascade, Spec.first_success. rewrite H1, H2.
    unfold Spec.free_text, extract_flight_info_regex.
    match goal with
    | |- context [if Details.truthy ?d then Some ?d else None] =>
        destruct (Details.truthy d) eqn:Ht; [rewrite Ht|]; reflexivity
    end.
Qed.

(** *** Tables *)

Lemma scan_tables_find (tables : list node) :
  scan_tables re_search tables
  = table_fields re_search
      <$> List.find
            (fun table => table_has_keyword table
                          && Details.truthy (table_fields re_search table))
            tables.
Proof.
  induction tables as [|table rest IH]; [reflexivity|].
  cbn [scan_tables List.find].
  destruct (table_has_keyword table); cbn [andb]; [|exact IH].
  destruct (Details.truthy (table_fields re_search table)); [reflexivity | exact IH].
Qed.

Lemma find_none_iff {A : Type} (f : A -> bool) (l : list A) :
  List.find f l = None <-> forall x, In x l -> f x = false.
Proof.
  split; [apply find_none|].
  induction l as [|x l IH]; cbn; intros H; [reflexivity|].
  rewrite (H x (or_introl eq_refl)). apply IH. intros y Hy. apply H. right. exact Hy.
Qed.

(** C10, amended. Tabular extraction returns the fields of the first
    table that has a keyword and yields at least one field, all of them
    taken from that table's rows; a keyword table that yields no field is
    passed over. So the first keyword table decides only when it yields a
    field, and no data is returned exactly when no keyword table yields
    one. *)
Theorem parse_html_table_first_yielding (soup : node) :
  parse_html_table re_search soup
  = table_fields re_search <$> Spec.first_yielding_table re_search soup
  /\ (forall table : node,
         Spec.first_keyword_table soup = Some table ->
         Details.truthy (table_fields re_search table) = true ->
         parse_html_table re_search soup = Some (table_fields re_search table))
  /\ (parse_html_table re_search soup = None <->
      forall table : node,
        In table (Soup.find_all "table" soup) ->
        table_has_keyword table = true ->
        Details.truthy (table_fields re_search table) = false).
Proof.
  unfold parse_html_table, Spec.first_yielding_table, Spec.first_keyword_table.
  rewrite scan_tables_find. split; [reflexivity|]. split.
  - intros table Hfirst Ht.
    induction (Soup.find_all "table" soup) as [|t rest IH]; [discriminate|].
    cbn [List.find] in *.
    destruct (table_has_keyword t); cbn [andb].
    + inversion Hfirst; subst. rewrite Ht. reflexivity.
    + apply IH, Hfirst.
  - destruct (List.find _ (Soup.find_all "table" soup)) as [t|] eqn:Hf;
      cbn [fmap option_fmap option_map].
    + split; [discriminate|]. intros Hall.
      apply find_some in Hf as [Hin Ht]. apply andb_prop in Ht as [Hk Ht].
      rewrite (Hall t Hin Hk) in Ht. discriminate.
    + split; [|reflexivity]. intros _ table Hin Hk.
      apply find_none_iff with (x := table) in Hf; [|exact Hin].
      rewrite Hk in Hf. exact Hf.
Qed.

(** *** Empty fields *)


End ExtractorFacts.

(** C2 on a body whose structured markup says ABC123 and whose table says
    ZZZ999 and UA456: the result is the markup's record alone. *)
Lemma parse_first_success_witness :
  (html_content (Sample.html_only "m" Sample.markup_and_table) = Some Sample.markup_and_table
   /\ parse_schema_org JsonText.loads Sample.markup_and_table = Py.Ok (Some Sample.abc123_only)
   /\ Details.truthy Sample.abc123_only = true)
  /\ parse JsonText.loads Regex.re_search Regex.re_findall
       (Sample.html_only "m" Sample.markup_and_table)
     = Some Sample.abc123_only.
Proof.
  assert (H1 : html_content (Sample.html_only "m" Sample.markup_and_table)
               = Some Sample.markup_and_table) by reflexivity.
  assert (H2 : parse_schema_org JsonText.loads Sample.markup_and_table
               = Py.Ok (Some Sample.abc123_only)) by (vm_compute; reflexivity).
  assert (H3 : Details.truthy Sample.abc123_only = true) by reflexivity.
  split; [exact (conj H1 (conj H2 H3))|].
  exact (proj1 (proj2 (parse_first_success JsonText.loads Regex.re_search Regex.re_findall
                         (Sample.html_only "m" Sample.markup_and_table)))
           Sample.markup_and_table Sample.abc123_only H1 H2 H3).
Defined.

(** What the table of that body would have given. *)
Example conflicting_table_fields :
  parse_html_table Regex.re_search Sample.markup_and_table
  = Some (Details.set_flight_number (JStr "UA456")
            (Details.set_booking_reference (JStr "ZZZ999") Details.empty)).
Proof. vm_compute. reflexivity. Qed.

(** C10 as stated fails on a body with a heading table about the flight
    followed by the table with the booking reference: the first keyword
    table yields nothing and the reference of the second table is
    returned. *)
Lemma later_table_taken :
  ~ Spec.first_table_decides Regex.re_search Sample.heading_then_booking.
Proof. unfold Spec.first_table_decides. vm_compute. discriminate. Qed.

(** C10, amended, on a body whose first keyword table yields fields. *)
Lemma parse_html_table_first_yielding_witness :
  (Spec.first_keyword_table Sample.markup_and_table = Some Sample.conflicting_table
   /\ Details.truthy (table_fields Regex.re_search Sample.conflicting_table) = true)
  /\ parse_html_table Regex.re_search Sample.markup_and_table
     = Some (table_fields Regex.re_search Sample.conflicting_table).
Proof.
  assert (H1 : Spec.first_keyword_table Sample.markup_and_table
               = Some Sample.conflicting_table) by (vm_compute; reflexivity).
  assert (H2 : Details.truthy (table_fields Regex.re_search Sample.conflicting_table) = true)
    by (vm_compute; reflexivity).
  split; [exact (conj H1 H2)|].
  exact (proj1 (proj2 (parse_html_table_first_yielding Regex.re_search
                         Sample.markup_and_table))
           Sample.conflicting_table H1 H2).
Defined.

(** C7. A confirmed reservation whose [reservationNumber] is the empty
    text: the extractor returns a record whose booking reference is the
    empty string, and Phase 1 stores the empty string as the reference of
    the Email Record. A table whose flight-number cell is empty gives an
    empty flight number in the same way. The Microdata branch, for its
    part, stores a value only when it is not empty
    ([meta_content_nonempty]). *)
Theorem empty_reservation_number_extracted :
  parse JsonText.loads Regex.re_search Regex.re_findall
    (Sample.html_only "m1" Sample.empty_number)
  = Some (Details.set_booking_reference (JStr "") Details.empty)
  /\ pnr <$> (emails (db (phase1_label_emails JsonText.loads Regex.re_search
                            Regex.re_findall Sample.get_message Sample.ledger ["m1"]))
              !! "m1")
     = Some (Some "")
  /\ parse JsonText.loads Regex.re_search Regex.re_findall
       (Sample.html_only "m" Sample.empty_flight_cell)
     = Some (Details.set_flight_number (JStr "") Details.empty)
  /\ forallb Spec.not_empty_text
       (Details.fields (Details.set_booking_reference (JStr "") Details.empty))
     = false.
Proof. vm_compute. repeat split. Qed.

(** ** The repository's tests, replayed on the model

    The assertions of tests/test_parser.py, tests/test_classifier.py,
    tests/test_deduplicator.py and tests/test_state_manager.py, computed
    with the executable instances of the library functions. *)

Example test_schema_org_json_ld :
  parse_schema_org JsonText.loads Sample.test_json_ld
  = Py.Ok (Some
      {| booking_reference := Some (JStr "ABC123");
         flight_number := Some (JStr "UA456");
         departure_airport := Some (JStr "SFO");
         arrival_airport := Some (JStr "JFK");
         departure_time := Some (JStr "2024-10-15T10:00:00");
         arrival_time := Some (JStr "2024-10-15T18:00:00") |}).
Proof. vm_compute. reflexivity. Qed.

Example test_html_table_parsing :
  parse_html_table Regex.re_search Sample.test_table
  = Some
      {| booking_reference := Some (JStr "ABC123");
         flight_number := Some (JStr "UA456");
         departure_airport := Some (JStr "SFO");
         arrival_airport := Some (JStr "JFK");
         departure_time := None; arrival_time := None |}.
Proof. vm_compute. reflexivity. Qed.

Example test_no_data_returns_none :
  parse JsonText.loads Regex.re_search Regex.re_findall Sample.test_no_data = None.
Proof. vm_compute. reflexivity. Qed.

Example test_confirmation_subject :
  map (is_confirmation_subject Regex.re_search)
    [ "Flight Confirmation - UA123"; "Your booking is confirmed";
      "Itinerary Confirmation"; "Flight Cancelled"; "Check-in now available";
      "Flight Change Notification" ]
  = [ true; true; true; false; false; false ].
Proof. vm_compute. reflexivity. Qed.

Example test_airline_domain :
  map is_airline_domain
    [ "noreply@united.com"; "confirmations@delta.com"; "email@aa.com";
      "user@gmail.com"; "spam@example.com" ]
  = [ true; true; true; false; false ].
Proof. vm_compute. reflexivity. Qed.

Example test_combined_classification :
  classify JsonText.loads Regex.re_search Regex.re_findall Sample.test_combined
  = (true, 50).
Proof. vm_compute. reflexivity. Qed.

Example test_non_flight_email :
  classify JsonText.loads Regex.re_search Regex.re_findall Sample.test_newsletter
  = (false, 0).
Proof. vm_compute. reflexivity. Qed.

Example test_fuzzy_pnr_match :
  are_pnrs_duplicate Fuzz.ratio Sample.default_dedup (Some "ABC123") (Some "ABC124") = false
  /\ are_pnrs_duplicate Fuzz.ratio Sample.default_dedup (Some "ABCDEF") (Some "ABCDEF") = true.
Proof. vm_compute. split; reflexivity. Qed.

Example test_get_unique_emails :
  map rec_message_id (get_unique_emails Fuzz.ratio Sample.default_dedup Sample.test_unique)
  = [ "1"; "3"; "4" ].
Proof. vm_compute. reflexivity. Qed.

Example test_mark_email_processed_with_error :
  StateManager.is_email_processed
    (StateManager.mark_email_processed
       {| emails := ∅; processing_state := [] |}
       "msg123" PHASE1_LABEL "FAILED" (Some "Parse error"))
    "msg123" PHASE1_LABEL
  = false.
Proof. vm_compute. reflexivity. Qed.

(** * Further properties of the code *)

(** ** More on Python strings *)

Lemma upper_upper_char (c : ascii) : Py.upper_char (Py.upper_char c) = Py.upper_char c.
Proof. destruct c as [[] [] [] [] [] [] [] []]; reflexivity. Qed.

Lemma upper_idempotent (s : string) : Py.upper (Py.upper s) = Py.upper s.
Proof. induction s as [|c s IH]; cbn; [reflexivity|]. rewrite upper_upper_char, IH. reflexivity. Qed.

Lemma truthy_upper (s : string) : Py.truthy (Py.upper s) = Py.truthy s.
Proof. destruct s; reflexivity. Qed.

Lemma lower_app (a b : string) : Py.lower (a +:+ b) = Py.lower a +:+ Py.lower b.
Proof. induction a as [|c a IH]; simpl; [reflexivity|]. rewrite IH. reflexivity. Qed.

Lemma prefix_app (s b : string) : String.prefix s (s +:+ b) = true.
Proof.
  induction s as [|c s IH]; simpl; [destruct b; reflexivity|].
  destruct (ascii_dec c c); [exact IH | congruence].
Qed.

Lemma contains_unfold (sub s : string) :
  Py.contains sub s
  = String.prefix sub s
    || match s with EmptyString => false | String _ s' => Py.contains sub s' end.
Proof. destruct s; reflexivity. Qed.

Lemma contains_middle (a sub b : string) : Py.contains sub (a +:+ sub +:+ b) = true.
Proof.
  induction a as [|c a IH].
  - change ("" +:+ sub +:+ b) with (sub +:+ b).
    rewrite contains_unfold, prefix_app. reflexivity.
  - change (String c a +:+ sub +:+ b) with (String c (a +:+ sub +:+ b)).
    rewrite contains_unfold, IH. apply orb_true_r.
Qed.

(** ** More on the classifier *)

(** X1. The sender test is a substring test on the lower-cased address: an
    allow-listed domain anywhere in the address, in any case, fires it. *)
Theorem is_airline_domain_substring (domain s before after : string) :
  In domain AIRLINE_DOMAINS -> Py.lower s = domain ->
  is_airline_domain (before +:+ s +:+ after) = true.
Proof.
  intros Hin Hs. unfold is_airline_domain. apply existsb_exists.
  exists domain. split; [exact Hin|].
  rewrite !lower_app, Hs. apply contains_middle.
Qed.


Section MoreClassifier.

Variable json_loads : string -> Py.result json.
Variable re_search : string -> string -> list re_flag -> option (list string).
Variable re_findall : string -> string -> list string.

(** X2. The score lies between 0 and 100, the decision is its comparison with
    50, and without the markup signal the decision needs the three other
    signals together: sender, subject and content markers. *)
Theorem classify_without_markup (e : email_data) :
  0 <= snd (classify json_loads re_search re_findall e) <= 100
  /\ fst (classify json_loads re_search re_findall e)
     = (50 <=? snd (classify json_loads re_search re_findall e))
  /\ (schema_signal json_loads e = false ->
      snd (classify json_loads re_search re_findall e) <= 50
      /\ (fst (classify json_loads re_search re_findall e) = true <->
          is_airline_domain (from_email e) = true
          /\ is_confirmation_subject re_search (subject e) = true
          /\ has_flight_markers re_search re_findall
               (subject e +:+ " " +:+ text_content e) = true)).
Proof.
  unfold classify.
  destruct (schema_signal json_loads e), (is_airline_domain (from_email e)),
    (is_confirmation_subject re_search (subject e)),
    (has_flight_markers re_search re_findall (subject e +:+ " " +:+ text_content e));
    cbn [fst snd]; (split; [lia|]); (split; [reflexivity|]);
    intros H; try discriminate H; (split; [lia|]);
    (split; [intros Hf; try discriminate Hf; auto
            | intros (H1 & H2 & H3); first [reflexivity | discriminate]]).
Qed.

(** X3. When no JSON-LD script decodes, the check is decided by the Microdata
    alone: a decode failure skips the script and never aborts the check. *)
Theorem undecodable_scripts_are_skipped (soup : node) :
  (forall script s,
      In script (Soup.find_all_with "script" "type" "application/ld+json" soup) ->
      Soup.string_of script = Some s -> json_loads s = Py.Raise Py.JSONDecodeError) ->
  has_flight_reservation_schema json_loads soup
  = match Soup.find_with "div" "itemtype" SCHEMA_FLIGHT_RESERVATION soup with
    | Some _ => true
    | None => false
    end.
Proof.
  intros Hall. unfold has_flight_reservation_schema.
  assert (Hscan : scan_scripts json_loads
            (Soup.find_all_with "script" "type" "application/ld+json" soup) = Py.Ok false).
  { induction (Soup.find_all_with "script" "type" "application/ld+json" soup)
      as [|script rest IH]; [reflexivity|].
    cbn [scan_scripts].
    assert (Hs : script_handled json_loads script = Py.Ok false).
    { unfold script_handled, script_body.
      destruct (Soup.string_of script) as [s|] eqn:Hstr; [|reflexivity].
      destruct (Py.truthy s); [|reflexivity].
      rewrite (Hall script s (or_introl eq_refl) Hstr). reflexivity. }
    rewrite Hs. apply IH. intros script' s' Hin. apply Hall. right. exact Hin. }
  rewrite Hscan. reflexivity.
Qed.

End MoreClassifier.

(** ** More on the extractor *)

Section MoreExtractor.

Variable json_loads : string -> Py.result json.
Variable re_search : string -> string -> list re_flag -> option (list string).
Variable re_findall : string -> string -> list string.

Lemma reservation_item_return (d d' : flight_details) (item : json) :
  reservation_item d item = (d', Py.Ok Return) -> Details.truthy d' = true.
Proof.
  unfold reservation_item. destruct item as [| | | | |members]; try discriminate.
  destruct (Json.field_is "@type" "FlightReservation" members); [|discriminate].
  destruct (default (JObj []) (Json.get "reservationFor" members)) as [| | | | |flight];
    try discriminate.
  match goal with
  | |- context [if Details.truthy ?x then Return else Next] =>
      destruct (Details.truthy x) eqn:Ht
  end; intros H; inversion H; subst. exact Ht.
Qed.

Lemma reservation_items_return (items : list json) (d d' : flight_details) :
  reservation_items d items = (d', Py.Ok Return) -> Details.truthy d' = true.
Proof.
  revert d. induction items as [|item rest IH]; intros d; cbn [reservation_items];
    [discriminate|].
  destruct (reservation_item d item) as [d1 [[]|e]] eqn:Hi.
  - apply IH.
  - intros H; inversion H; subst. apply (reservation_item_return _ _ _ Hi).
  - discriminate.
Qed.

Lemma ld_script_return (d d' : flight_details) (script : node) :
  ld_script json_loads d script = (d', Py.Ok Return) -> Details.truthy d' = true.
Proof.
  unfold ld_script.
  destruct (ld_script_body json_loads d script) as [d1 [[]|[]]] eqn:Hb;
    try discriminate; intros H; inversion H; subst.
  unfold ld_script_body in Hb.
  destruct (Soup.string_of script) as [s|]; [|discriminate].
  destruct (Py.truthy s); [|discriminate].
  destruct (json_loads s) as [j|]; [|discriminate].
  destruct (items_of j) as [items|]; [|discriminate].
  apply (reservation_items_return _ _ _ Hb).
Qed.

Lemma ld_script_raises (d d' : flight_details) (script : node) (e : Py.exn) :
  ld_script json_loads d script = (d', Py.Raise e) ->
  e <> Py.JSONDecodeError /\ e <> Py.AttributeError /\ e <> Py.KeyError.
Proof.
  unfold ld_script.
  destruct (ld_script_body json_loads d script) as [d1 [[]|[]]];
    intros H; inversion H; subst; repeat split; discriminate.
Qed.

Lemma ld_scripts_return (scripts : list node) (d d' : flight_details) :
  ld_scripts json_loads d scripts = (d', Py.Ok Return) -> Details.truthy d' = true.
Proof.
  revert d. induction scripts as [|script rest IH]; intros d; cbn [ld_scripts];
    [discriminate|].
  destruct (ld_script json_loads d script) as [d1 [[]|e]] eqn:Hs.
  - apply IH.
  - intros H; inversion H; subst. apply (ld_script_return _ _ _ Hs).
  - discriminate.
Qed.

Lemma ld_scripts_raises (scripts : list node) (d d' : flight_details) (e : Py.exn) :
  ld_scripts json_loads d scripts = (d', Py.Raise e) ->
  e <> Py.JSONDecodeError /\ e <> Py.AttributeError /\ e <> Py.KeyError.
Proof.
  revert d. induction scripts as [|script rest IH]; intros d; cbn [ld_scripts];
    [discriminate|].
  destruct (ld_script json_loads d script) as [d1 [[]|e1]] eqn:Hs.
  - apply IH.
  - discriminate.
  - intros H; inversion H; subst. apply (ld_script_raises _ _ _ _ Hs).
Qed.

(** X4. [parse_schema_org] returns [None] rather than an empty record, and the
    decode, attribute and key errors met in a script never leave it. *)
Theorem parse_schema_org_result (soup : node) :
  (forall d, parse_schema_org json_loads soup = Py.Ok (Some d) -> Details.truthy d = true)
  /\ (forall e, parse_schema_org json_loads soup = Py.Raise e ->
                e <> Py.JSONDecodeError /\ e <> Py.AttributeError /\ e <> Py.KeyError).
Proof.
  unfold parse_schema_org.
  destruct (ld_scripts json_loads Details.empty _) as [d1 [[]|e1]] eqn:Hs; split.
  - intros d. destruct (Details.truthy (microdata soup d1)) eqn:Ht; [|discriminate].
    intros H; inversion H; subst. exact Ht.
  - discriminate.
  - intros d H; inversion H; subst. apply (ld_scripts_return _ _ _ Hs).
  - discriminate.
  - discriminate.
  - intros e H; inversion H; subst. apply (ld_scripts_raises _ _ _ _ Hs).
Qed.

(** *** Microdata *)




(** X6. A reservation whose [reservationFor] is not an object gives its
    reservation number and nothing else: the attribute error is swallowed
    and what was written before it stays. *)
Theorem reservation_number_survives_error (soup script : node) (s : string)
    (members : list (string * json)) (number flight : json) :
  Soup.find_all_with "script" "type" "application/ld+json" soup = [script] ->
  Soup.find_with "div" "itemtype" SCHEMA_FLIGHT_RESERVATION soup = None ->
  Soup.string_of script = Some s -> s <> "" ->
  json_loads s = Py.Ok (JObj members) ->
  Json.field_is "@type" "FlightReservation" members = true ->
  Json.get "reservationNumber" members = Some number ->
  Json.get "reservationFor" members = Some flight ->
  (forall fields, flight <> JObj fields) ->
  parse_schema_org json_loads soup
  = Py.Ok (Some (Details.set_booking_reference number Details.empty)).
Proof.
  intros Hs Hdiv Hstr Hne Hj Ht Hn Hf Hnot.
  unfold parse_schema_org. rewrite Hs. cbn [ld_scripts].
  unfold ld_script, ld_script_body. rewrite Hstr.
  apply truthy_nonempty in Hne. rewrite Hne, Hj. cbn [items_of reservation_items].
  unfold reservation_item. rewrite Ht. unfold Details.copy_key. rewrite Hn, Hf.
  cbn [default].
  destruct flight as [| | | | |fields];
    try (cbn; unfold microdata; rewrite Hdiv; reflexivity).
  exfalso. exact (Hnot fields eq_refl).
Qed.

(** *** Tables *)

Lemma set_airport_code_shape (value : string)
    (set : json -> flight_details -> flight_details) (d : flight_details) :
  (forall c d0, Inv.table_shape d0 -> Inv.table_shape (set (JStr c) d0)) ->
  Inv.table_shape d -> Inv.table_shape (set_airport_code re_search value set d).
Proof.
  intros Hset Hd. unfold set_airport_code.
  destruct (re_search _ value []); [apply Hset|]; exact Hd.
Qed.

Lemma table_row_shape (d : flight_details) (row : node) :
  Inv.table_shape d -> Inv.table_shape (table_row re_search d row).
Proof.
  intros H. unfold table_row.
  destruct (Soup.find_all_names ["td"; "th"] row) as [|c0 [|c1 more]]; try exact H.
  set (key := Py.lower (Py.strip (Soup.get_text c0))).
  set (value := Py.strip (Soup.get_text c1)).
  destruct ((Py.contains "booking" key || Py.contains "confirmation" key
             || Py.contains "pnr" key) && (5 <=? Py.len value)) eqn:Hb.
  - apply andb_prop in Hb as [_ Hlen]. apply Z.leb_le in Hlen.
    destruct H as (H1 & H2 & H3 & H4 & H5 & H6). repeat split; assumption.
  - destruct (Py.contains "flight" key && Py.contains "number" key).
    + destruct H as (H1 & H2 & H3 & H4 & H5 & H6).
      repeat split; first [assumption | exact I].
    + destruct (Py.contains "departure" key).
      * destruct (Py.contains "airport" key || Py.contains "from" key); [|exact H].
        apply set_airport_code_shape; [|exact H].
        intros c d0 (H1 & H2 & H3 & H4 & H5 & H6). repeat split; assumption.
      * destruct (Py.contains "arrival" key || Py.contains "destination" key); [|exact H].
        destruct (Py.contains "airport" key || Py.contains "to" key); [|exact H].
        apply set_airport_code_shape; [|exact H].
        intros c d0 (H1 & H2 & H3 & H4 & H5 & H6). repeat split; assumption.
Qed.

Lemma table_fields_shape (table : node) : Inv.table_shape (table_fields re_search table).
Proof.
  unfold table_fields.
  assert (H : Inv.table_shape Details.empty) by (repeat split; exact I).
  revert H. generalize Details.empty.
  induction (Soup.find_all "tr" table) as [|row rows IH]; intros d H; cbn [fold_left];
    [exact H|].
  apply IH, table_row_shape, H.
Qed.

(** X7. Whatever the tables hold, a booking reference taken from them has at
    least five characters, the other fields are texts, and no departure or
    arrival time is ever taken from a table; a body without tables gives
    [None]. *)
Theorem parse_html_table_shape (soup : node) :
  (forall d, parse_html_table re_search soup = Some d ->
             Details.truthy d = true /\ Inv.table_shape d)
  /\ (Soup.find_all "table" soup = [] -> parse_html_table re_search soup = None).
Proof.
  split.
  - intros d. unfold parse_html_table.
    induction (Soup.find_all "table" soup) as [|table rest IH]; cbn [scan_tables];
      [discriminate|].
    destruct (table_has_keyword table); [|exact IH].
    destruct (Details.truthy (table_fields re_search table)) eqn:Ht; [|exact IH].
    intros H; inversion H; subst. split; [exact Ht | apply table_fields_shape].
  - intros Hno. unfold parse_html_table. rewrite Hno. reflexivity.
Qed.

(** *** Free text *)

Lemma remove_spaces_no_space (s : string) : Py.contains " " (remove_spaces s) = false.
Proof.
  induction s as [|c s IH]; [reflexivity|].
  cbn [remove_spaces]. destruct (Ascii.eqb_spec c " "%char) as [->|Hne]; [exact IH|].
  rewrite contains_unfold, IH.
  change (String.prefix " " (String c (remove_spaces s)))
    with (if ascii_dec " " c then String.prefix "" (remove_spaces s) else false).
  destruct (ascii_dec " " c) as [<-|_]; [congruence | reflexivity].
Qed.

(** X8. Whatever the regular expressions match, a free-text record has an
    upper-case booking reference and a flight number without spaces, its
    two airports are both present or both absent, it has no times, and it
    is never empty. *)
Theorem extract_flight_info_regex_shape (text : string) (d : flight_details) :
  extract_flight_info_regex re_search re_findall text = Some d ->
  Details.truthy d = true /\ Inv.free_text_shape d.
Proof.
  unfold extract_flight_info_regex.
  destruct (re_search "(?:booking|confirmation|reference|pnr)[:\s]+([A-Z0-9]{5,7})"
              text [IGNORECASE]) as [g1|],
    (re_search "\b([A-Z]{2}\s?\d{3,4})\b" text []) as [g2|],
    (re_search "\b([A-Z]{3})\s*(?:to|→|-|–)\s*([A-Z]{3})\b" text []) as [g3|];
    cbn [departure_airport Details.set_arrival_airport Details.set_departure_airport
         Details.set_flight_number Details.set_booking_reference Details.empty];
    try (destruct (List.filter _ (re_findall "\b([A-Z]{3})\b" text)) as [|c0 [|c1 more]]);
    cbn; intros H; inversion H; subst; cbn;
    (split; [reflexivity|]); unfold Inv.free_text_shape, Inv.text, Inv.no_times; cbn;
    repeat split; auto using upper_idempotent, remove_spaces_no_space; discriminate.
Qed.

(** X9. When the explicit "XXX to YYY" pattern finds nothing, an airport of
    the record is a three-letter code found in the text, and never one of
    the common words THE, AND, FOR, YOU, NOT, ARE, WAS, BUT. *)
Theorem fallback_skips_common_words (text : string) (d : flight_details) (c : string) :
  re_search "\b([A-Z]{3})\s*(?:to|→|-|–)\s*([A-Z]{3})\b" text [] = None ->
  extract_flight_info_regex re_search re_findall text = Some d ->
  departure_airport d = Some (JStr c) \/ arrival_airport d = Some (JStr c) ->
  In c (re_findall "\b([A-Z]{3})\b" text) /\ ~ In c FALSE_POSITIVES.
Proof.
  intros Hno. unfold extract_flight_info_regex. rewrite Hno.
  destruct (re_search "(?:booking|confirmation|reference|pnr)[:\s]+([A-Z0-9]{5,7})"
              text [IGNORECASE]) as [g1|],
    (re_search "\b([A-Z]{2}\s?\d{3,4})\b" text []) as [g2|];
    cbn [departure_airport Details.set_arrival_airport Details.set_departure_airport
         Details.set_flight_number Details.set_booking_reference Details.empty];
    (destruct (List.filter _ (re_findall "\b([A-Z]{3})\b" text)) as [|c0 [|c1 more]] eqn:Hf);
    cbn; intros H; inversion H; subst; cbn; intros [Hc|Hc]; try discriminate;
    inversion Hc; subst;
    match goal with
    | Hf : List.filter ?f ?l = _ |- In ?c ?l /\ _ =>
        assert (Hin : In c (List.filter f l)) by (rewrite Hf; cbn; auto);
        apply filter_In in Hin as [Hin Hneg]; split; [exact Hin|];
        apply negb_true_iff in Hneg; intros Hfp;
        assert (existsb (String.eqb c) FALSE_POSITIVES = true)
          by (apply existsb_exists; exists c; split; [exact Hfp | apply String.eqb_refl]);
        congruence
    end.
Qed.

End MoreExtractor.

(** ** More on the deduplicator *)

Section MoreDedup.

Variable fuzz_ratio : string -> string -> Z.
Variable self : Deduplicator.

Local Abbreviation dup a b := (are_pnrs_duplicate fuzz_ratio self (Some a) (Some b)).
Local Abbreviation unique := (get_unique_emails fuzz_ratio self).

(** X10. Upper-casing either reference beforehand does not change the
    outcome of the match, and a pair that matches at one threshold matches
    at every lower one. *)
Theorem are_pnrs_duplicate_case_and_threshold (p1 p2 : string) :
  dup (Py.upper p1) p2 = dup p1 p2
  /\ dup p1 (Py.upper p2) = dup p1 p2
  /\ (forall other : Deduplicator,
         fuzzy_threshold other <= fuzzy_threshold self ->
         dup p1 p2 = true ->
         are_pnrs_duplicate fuzz_ratio other (Some p1) (Some p2) = true).
Proof.
  unfold are_pnrs_duplicate. split; [|split].
  - rewrite truthy_upper, upper_idempotent. reflexivity.
  - rewrite truthy_upper, upper_idempotent. reflexivity.
  - intros other Hle.
    destruct (negb (Py.truthy p1) || negb (Py.truthy p2)); [discriminate|].
    destruct (String.eqb (Py.upper p1) (Py.upper p2)); [reflexivity|].
    rewrite !Z.leb_le. lia.
Qed.

Lemma is_duplicate_false (x : string) (seen : gset string) :
  is_duplicate fuzz_ratio self x seen = false <->
  forall s, s ∈ seen -> dup x s = false.
Proof.
  unfold is_duplicate. rewrite existsb_false_forall. split.
  - intros H s Hs. apply H. apply list_elem_of_In, elem_of_elements, Hs.
  - intros H s Hs. apply H. apply elem_of_elements, list_elem_of_In, Hs.
Qed.

Lemma is_duplicate_true (x : string) (seen : gset string) :
  is_duplicate fuzz_ratio self x seen = true <->
  exists s, s ∈ seen /\ dup x s = true.
Proof.
  unfold is_duplicate. rewrite existsb_exists. split.
  - intros (s & Hs & Hd). exists s. split; [|exact Hd].
    apply elem_of_elements, list_elem_of_In, Hs.
  - intros (s & Hs & Hd). exists s. split; [|exact Hd].
    apply list_elem_of_In, elem_of_elements, Hs.
Qed.

(** The cases of one turn of the loop of [get_unique_emails]. *)
Lemma unique_from_cons (seen : gset string) (email : email_record)
    (rest : list email_record) :
  (Py.truthy_opt (pnr email) = false /\
   unique_from fuzz_ratio self seen (email :: rest)
   = email :: unique_from fuzz_ratio self seen rest)
  \/ exists p, pnr email = Some p /\ p <> "" /\
       ((is_duplicate fuzz_ratio self (Py.upper p) seen = true /\
         unique_from fuzz_ratio self seen (email :: rest)
         = unique_from fuzz_ratio self seen rest)
        \/ (is_duplicate fuzz_ratio self (Py.upper p) seen = false /\
            unique_from fuzz_ratio self seen (email :: rest)
            = email :: unique_from fuzz_ratio self ({[ Py.upper p ]} ∪ seen) rest)).
Proof.
  cbn [unique_from]. destruct (pnr email) as [p|]; [|left; split; reflexivity].
  destruct (Py.truthy p) eqn:Ht; [|left; split; [exact Ht | reflexivity]].
  right. exists p. split; [reflexivity|]. split; [apply truthy_nonempty, Ht|].
  rewrite truthy_upper, Ht.
  destruct (is_duplicate fuzz_ratio self (Py.upper p) seen); [left | right];
    split; reflexivity.
Qed.

Lemma unique_from_sublist (seen : gset string) (emails : list email_record) :
  sublist (unique_from fuzz_ratio self seen emails) emails.
Proof.
  revert seen. induction emails as [|email rest IH]; intros seen; [constructor|].
  destruct (unique_from_cons seen email rest)
    as [[_ ->] | (p & _ & _ & [[_ ->] | [_ ->]])].
  - apply sublist_skip, IH.
  - apply sublist_cons, IH.
  - apply sublist_skip, IH.
Qed.

Lemma unique_from_keeps_unreferenced (seen : gset string) (emails : list email_record)
    (e : email_record) :
  In e emails -> Py.truthy_opt (pnr e) = false ->
  In e (unique_from fuzz_ratio self seen emails).
Proof.
  revert seen. induction emails as [|email rest IH]; intros seen Hin Hno; [destruct Hin|].
  destruct (unique_from_cons seen email rest)
    as [[_ ->] | (p & Hp & Hne & [[_ ->] | [_ ->]])].
  - destruct Hin as [->|Hin]; [left; reflexivity | right; apply IH; assumption].
  - destruct Hin as [->|Hin]; [|apply IH; assumption].
    rewrite Hp in Hno. cbn in Hno. apply truthy_nonempty in Hne. congruence.
  - destruct Hin as [->|Hin]; [left; reflexivity | right; apply IH; assumption].
Qed.

(** X11. The filter only removes records: its output is the input with some
    records left out, in the same order; a record without a reference is
    never left out, and neither is the first record. *)
Theorem get_unique_emails_sublist (emails : list email_record) :
  sublist (unique emails) emails
  /\ (length (unique emails) <= length emails)%nat
  /\ (forall e, In e emails -> Py.truthy_opt (pnr e) = false -> In e (unique emails))
  /\ (forall e rest, emails = e :: rest -> exists kept, unique emails = e :: kept).
Proof.
  unfold get_unique_emails. split; [apply unique_from_sublist|]. split; [|split].
  - apply sublist_length, unique_from_sublist.
  - intros e. apply unique_from_keeps_unreferenced.
  - intros e rest ->.
    destruct (unique_from_cons ∅ e rest)
      as [[_ ->] | (p & _ & _ & [[Hd _] | [_ ->]])]; eauto.
    apply is_duplicate_true in Hd as (s & Hs & _). set_solver.
Qed.

Lemma unique_from_distinct (seen : gset string) (emails : list email_record) :
  Forall (fun e => forall q, pnr e = Some q -> q <> "" ->
                   is_duplicate fuzz_ratio self (Py.upper q) seen = false)
         (unique_from fuzz_ratio self seen emails)
  /\ ForallOrdPairs (Inv.distinct_from fuzz_ratio self)
       (unique_from fuzz_ratio self seen emails).
Proof.
  revert seen. induction emails as [|email rest IH]; intros seen;
    [split; constructor|].
  destruct (unique_from_cons seen email rest)
    as [[Hno ->] | (p & Hp & Hne & [[_ ->] | [Hd ->]])].
  - destruct (IH seen) as [Hall Hpairs]. split.
    + constructor; [|exact Hall]. intros q Hq Hqne. rewrite Hq in Hno. cbn in Hno.
      apply truthy_nonempty in Hqne. congruence.
    + constructor; [|exact Hpairs].
      apply Forall_forall. intros later _ p' q Hp' Hne' _ _.
      rewrite Hp' in Hno. cbn in Hno. apply truthy_nonempty in Hne'. congruence.
  - apply IH.
  - destruct (IH ({[ Py.upper p ]} ∪ seen)) as [Hall Hpairs]. split.
    + constructor.
      * intros q Hq _. rewrite Hp in Hq. inversion Hq; subst. exact Hd.
      * eapply List.Forall_impl; [|exact Hall]. cbn. intros later Hl q Hq Hqne.
        apply is_duplicate_false. intros s Hs.
        specialize (Hl q Hq Hqne). rewrite is_duplicate_false in Hl.
        apply Hl. apply elem_of_union_r, Hs.
    + constructor; [|exact Hpairs].
      eapply List.Forall_impl; [|exact Hall]. cbn. intros later Hl p' q Hp' _ Hq Hqne.
      rewrite Hp in Hp'. inversion Hp'; subst.
      specialize (Hl q Hq Hqne). rewrite is_duplicate_false in Hl.
      apply Hl. apply elem_of_union_l, elem_of_singleton. reflexivity.
Qed.

(** X12. No record the filter keeps duplicates a record kept before it. *)
Theorem get_unique_emails_distinct (emails : list email_record) :
  ForallOrdPairs (Inv.distinct_from fuzz_ratio self) (unique emails).
Proof. unfold get_unique_emails. apply unique_from_distinct. Qed.

Lemma unique_from_represents (seen : gset string) (emails : list email_record)
    (e : email_record) (p : string) :
  In e emails -> pnr e = Some p -> p <> "" ->
  is_duplicate fuzz_ratio self (Py.upper p) seen = true
  \/ exists k q, In k (unique_from fuzz_ratio self seen emails)
                /\ pnr k = Some q /\ q <> "" /\ dup (Py.upper p) (Py.upper q) = true.
Proof.
  revert seen. induction emails as [|email rest IH]; intros seen Hin Hp Hne;
    [destruct Hin|].
  assert (Hself : forall x, x <> "" -> dup (Py.upper x) (Py.upper x) = true).
  { intros x Hx. apply duplicate_exact; try reflexivity;
      rewrite truthy_upper; apply truthy_nonempty, Hx. }
  destruct (unique_from_cons seen email rest)
    as [[Hno ->] | (p0 & Hp0 & Hne0 & [[Hd0 ->] | [Hd0 ->]])].
  - destruct Hin as [->|Hin].
    + rewrite Hp in Hno. cbn in Hno. apply truthy_nonempty in Hne. congruence.
    + destruct (IH seen Hin Hp Hne) as [H|(k & q & Hk & H)]; [left; exact H|].
      right. exists k, q. split; [right; exact Hk | exact H].
  - destruct Hin as [->|Hin].
    + rewrite Hp in Hp0. inversion Hp0; subst. left. exact Hd0.
    + apply IH; assumption.
  - destruct Hin as [->|Hin].
    + rewrite Hp in Hp0. inversion Hp0; subst. right. exists e, p0.
      split; [left; reflexivity|]. repeat split; auto.
    + destruct (IH ({[ Py.upper p0 ]} ∪ seen) Hin Hp Hne) as [H|(k & q & Hk & H)].
      * apply is_duplicate_true in H as (s & Hs & Hds).
        apply elem_of_union in Hs as [Hs|Hs].
        -- apply elem_of_singleton in Hs. subst s. right. exists email, p0.
           split; [left; reflexivity|]. repeat split; auto.
        -- left. apply is_duplicate_true. eauto.
      * right. exists k, q. split; [right; exact Hk | exact H].
Qed.

(** X13. Every record of the input that carries a reference is represented in
    the output: some kept record has a reference that it duplicates. *)
Theorem get_unique_emails_represents (emails : list email_record)
    (e : email_record) (p : string) :
  In e emails -> pnr e = Some p -> p <> "" ->
  exists k q, In k (unique emails) /\ pnr k = Some q /\ q <> ""
              /\ dup (Py.upper p) (Py.upper q) = true.
Proof.
  intros Hin Hp Hne. unfold get_unique_emails.
  destruct (unique_from_represents ∅ emails e p Hin Hp Hne) as [H|H]; [|exact H].
  apply is_duplicate_true in H as (s & Hs & _). set_solver.
Qed.

Lemma group_email_unreferenced (g : groups) (e : email_record) :
  Py.truthy_opt (pnr e) = false -> group_email fuzz_ratio self g e = g.
Proof.
  unfold group_email. destruct (pnr e) as [p|]; [|reflexivity].
  cbn. intros ->. reflexivity.
Qed.

(** Records without a reference play no part in the grouping: leaving them
    out of the input gives the same groups. *)
Lemma find_duplicates_ignores_unreferenced (emails : list email_record) :
  find_duplicates fuzz_ratio self
    (List.filter (fun e => Py.truthy_opt (pnr e)) emails)
  = find_duplicates fuzz_ratio self emails.
Proof.
  unfold find_duplicates.
  generalize {| store := []; processed_pnrs := []; duplicates := [] |}.
  induction emails as [|e rest IH]; intros g; [reflexivity|].
  cbn [List.filter fold_left].
  destruct (Py.truthy_opt (pnr e)) eqn:Hp.
  - cbn [fold_left]. apply IH.
  - rewrite (group_email_unreferenced g e Hp). apply IH.
Qed.

(** *** The two operations side by side *)

Lemma dict_set_in (k : string) (v : nat) (d : list (string * nat)) (k' : string) (v' : nat) :
  In (k', v') (dict_set k v d) -> (k', v') = (k, v) \/ In (k', v') d.
Proof.
  induction d as [|[k0 v0] rest IH]; cbn [dict_set].
  - intros [H|[]]. left. symmetry. exact H.
  - destruct (String.eqb k k0).
    + intros [H|H]; [left; symmetry; exact H | right; right; exact H].
    + intros [H|H]; [right; left; exact H|].
      destruct (IH H) as [H'|H']; [left; exact H' | right; right; exact H'].
Qed.

Lemma dict_set_keys (k : string) (v : nat) (d : list (string * nat)) (s : string) :
  In s (map fst (dict_set k v d)) <-> s = k \/ In s (map fst d).
Proof.
  induction d as [|[k0 v0] rest IH]; cbn [dict_set map fst In].
  - intuition.
  - destruct (String.eqb_spec k k0) as [->|Hne]; cbn [map fst In].
    + intuition.
    + rewrite IH. intuition.
Qed.

Lemma dict_set_nonempty (k : string) (v : nat) (d : list (string * nat)) :
  dict_set k v d <> [].
Proof. destruct d as [|[k0 v0] rest]; cbn; [|destruct (String.eqb k k0)]; discriminate. Qed.

Lemma append_at_lookup (loc : nat) (m : string) (st : list (list string)) (loc' : nat)
    (ids : list string) :
  st !! loc' = Some ids ->
  exists ids', append_at loc m st !! loc' = Some ids'
               /\ (length ids <= length ids')%nat
               /\ (loc' = loc -> length ids' = S (length ids)).
Proof.
  intros H. unfold append_at. destruct (st !! loc) as [ids0|] eqn:H0.
  - destruct (decide (loc' = loc)) as [->|Hne].
    + rewrite H in H0. inversion H0; subst ids0.
      exists (ids ++ [m]). rewrite list_lookup_insert_eq by (eapply lookup_lt_Some; eauto).
      rewrite length_app. cbn. split; [reflexivity|]. split; intros; lia.
    + exists ids. rewrite list_lookup_insert_ne by congruence.
      split; [exact H|]. split; [lia | congruence].
  - exists ids. split; [exact H|]. split; [lia|]. intros ->. congruence.
Qed.

Lemma first_match_seen (g : groups) (seen : gset string) (x : string) :
  (forall s, s ∈ seen <-> In s (map fst (processed_pnrs g))) ->
  is_duplicate fuzz_ratio self x seen = true <->
  exists hit, first_match fuzz_ratio self x (processed_pnrs g) = Some hit.
Proof.
  intros Hkeys. rewrite is_duplicate_true. unfold first_match. split.
  - intros (s & Hs & Hd). apply Hkeys, in_map_iff in Hs as ([k loc] & <- & Hin).
    destruct (List.find _ (processed_pnrs g)) as [hit|] eqn:Hf; [eauto|].
    apply (find_none _ _ Hf) in Hin. cbn in Hin, Hd. congruence.
  - intros ([k loc] & Hf). apply find_some in Hf as [Hin Hd]. exists k. split.
    + apply Hkeys, in_map_iff. exists (k, loc). split; [reflexivity | exact Hin].
    + exact Hd.
Qed.

Lemma in_step_new (g : groups) (seen : gset string) (p m : string) :
  Inv.in_step g seen ->
  Inv.in_step
    {| store := store g ++ [[m]];
       processed_pnrs := dict_set p (length (store g)) (processed_pnrs g);
       duplicates := duplicates g |}
    ({[ p ]} ∪ seen).
Proof.
  intros (Hkeys & Hproc & Hdup). repeat split; cbn [store processed_pnrs duplicates].
  - intros Hs. apply dict_set_keys. apply elem_of_union in Hs as [Hs|Hs].
    + left. apply elem_of_singleton in Hs. exact Hs.
    + right. apply Hkeys, Hs.
  - intros Hs. apply dict_set_keys in Hs as [->|Hs];
      [apply elem_of_union_l, elem_of_singleton; reflexivity|].
    apply elem_of_union_r, Hkeys, Hs.
  - intros k loc Hin. apply dict_set_in in Hin as [Heq|Hin].
    + inversion Heq; subst. exists [m].
      rewrite lookup_app_r, Nat.sub_diag by lia. split; [reflexivity | cbn; lia].
    + destruct (Hproc k loc Hin) as (ids & Hl & Hlen). exists ids.
      rewrite lookup_app_l by (eapply lookup_lt_Some; eauto). auto.
  - intros k loc Hin. destruct (Hdup k loc Hin) as (ids & Hl & Hlen). exists ids.
    rewrite lookup_app_l by (eapply lookup_lt_Some; eauto). auto.
Qed.

Lemma in_step_known (g : groups) (seen : gset string) (known m : string) (loc : nat) :
  Inv.in_step g seen -> In (known, loc) (processed_pnrs g) ->
  Inv.in_step
    {| store := append_at loc m (store g);
       processed_pnrs := processed_pnrs g;
       duplicates :=
         if dict_has known (duplicates g) then duplicates g
         else dict_set known loc (duplicates g) |}
    seen.
Proof.
  intros (Hkeys & Hproc & Hdup) Hin. repeat split; cbn [store processed_pnrs duplicates];
    try apply Hkeys.
  - intros k loc' Hin'. destruct (Hproc k loc' Hin') as (ids & Hl & Hlen).
    destruct (append_at_lookup loc m _ _ _ Hl) as (ids' & Hl' & Hle & _).
    exists ids'. split; [exact Hl' | lia].
  - intros k loc' Hin'.
    assert (Hcases : In (k, loc') (duplicates g) \/ (k, loc') = (known, loc)).
    { destruct (dict_has known (duplicates g)); [left; exact Hin'|].
      apply dict_set_in in Hin' as [H|H]; [right; exact H | left; exact H]. }
    destruct Hcases as [Hold|Heq].
    + destruct (Hdup k loc' Hold) as (ids & Hl & Hlen).
      destruct (append_at_lookup loc m _ _ _ Hl) as (ids' & Hl' & Hle & _).
      exists ids'. split; [exact Hl' | lia].
    + inversion Heq; subst. destruct (Hproc known loc Hin) as (ids & Hl & Hlen).
      destruct (append_at_lookup loc m _ _ _ Hl) as (ids' & Hl' & _ & Hs).
      exists ids'. split; [exact Hl'|]. rewrite (Hs eq_refl). lia.
Qed.

Lemma side_by_side (emails : list email_record) (g : groups) (seen : gset string) :
  Inv.in_step g seen ->
  (duplicates (fold_left (group_email fuzz_ratio self) emails g) = [] <->
   duplicates g = [] /\ unique_from fuzz_ratio self seen emails = emails)
  /\ (forall k loc,
         In (k, loc) (duplicates (fold_left (group_email fuzz_ratio self) emails g)) ->
         exists ids, store (fold_left (group_email fuzz_ratio self) emails g) !! loc = Some ids
                     /\ (2 <= length ids)%nat).
Proof.
  revert g seen. induction emails as [|email rest IH]; intros g seen Hstep.
  - cbn. split; [tauto|]. apply Hstep.
  - cbn [fold_left].
    destruct (unique_from_cons seen email rest)
      as [[Hno ->] | (p & Hp & Hne & [[Hd ->] | [Hd ->]])].
    + rewrite (group_email_unreferenced g email Hno).
      destruct (IH g seen Hstep) as [Hiff Hlen]. split; [|exact Hlen].
      rewrite Hiff. split; intros [H1 H2]; split; congruence.
    + apply (first_match_seen g seen) in Hd as ([known loc] & Hf); [|apply Hstep].
      apply truthy_nonempty in Hne.
      rewrite (group_email_known fuzz_ratio self g email p known loc Hp Hne Hf).
      assert (Hin : In (known, loc) (processed_pnrs g))
        by (apply find_some in Hf; apply Hf).
      destruct (IH _ seen (in_step_known g seen known (rec_message_id email) loc Hstep Hin))
        as [Hiff Hlen].
      split; [|exact Hlen]. rewrite Hiff. cbn [duplicates]. split.
      * intros [Hempty _]. exfalso.
        destruct (dict_has known (duplicates g)) eqn:Hh.
        -- rewrite Hempty in Hh. discriminate.
        -- exact (dict_set_nonempty _ _ _ Hempty).
      * intros [_ Heq]. exfalso.
        pose proof (sublist_length _ _ (unique_from_sublist seen rest)) as Hle.
        rewrite Heq in Hle. cbn in Hle. lia.
    + assert (Hf : first_match fuzz_ratio self (Py.upper p) (processed_pnrs g) = None).
      { destruct (first_match fuzz_ratio self (Py.upper p) (processed_pnrs g)) eqn:Hf;
          [|reflexivity].
        assert (is_duplicate fuzz_ratio self (Py.upper p) seen = true)
          by (apply (first_match_seen g seen); [apply Hstep | eauto]).
        congruence. }
      apply truthy_nonempty in Hne.
      rewrite (group_email_new fuzz_ratio self g email p Hp Hne Hf).
      destruct (IH _ _ (in_step_new g seen (Py.upper p) (rec_message_id email) Hstep))
        as [Hiff Hlen].
      split; [|exact Hlen]. rewrite Hiff. cbn [duplicates].
      split; intros [H1 H2]; split; congruence.
Qed.

(** X14. The two operations agree on whether there is anything to remove:
    [find_duplicates] reports no group exactly when [get_unique_emails]
    keeps every record. *)
Theorem no_groups_iff_nothing_removed (emails : list email_record) :
  find_duplicates fuzz_ratio self emails = [] <-> unique emails = emails.
Proof.
  unfold find_duplicates, get_unique_emails.
  assert (Hstart : Inv.in_step {| store := []; processed_pnrs := []; duplicates := [] |} ∅).
  { repeat split; cbn; try set_solver; intros ? ? []. }
  destruct (side_by_side emails _ ∅ Hstart) as [Hiff Hlen].
  set (g := fold_left (group_email fuzz_ratio self) emails
              {| store := []; processed_pnrs := []; duplicates := [] |}) in *.
  cbn [duplicates] in Hiff.
  assert (Hkeep : keep_groups (store g) (duplicates g) = [] <-> duplicates g = []).
  { split; [|intros ->; reflexivity].
    destruct (duplicates g) as [|[k loc] more] eqn:Hd; [reflexivity|].
    destruct (Hlen k loc (or_introl eq_refl)) as (ids & Hl & Hn).
    unfold keep_groups. cbn [map List.filter fst snd]. rewrite Hl. cbn [default].
    unfold id.
    destruct (1 <? Z.of_nat (length ids)) eqn:Hlt; [intros H; discriminate H|].
    apply Z.ltb_ge in Hlt. lia. }
  rewrite Hkeep, Hiff. tauto.
Qed.

End MoreDedup.

(** ** More on the state store *)

Lemma bind_text_text (v : option json) :
  Inv.text v -> StateManager.bind_text v = Py.Ok (Inv.text_of v).
Proof. destruct v as [[| | | | |]|]; cbn; intros H; first [reflexivity | destruct H]. Qed.

Lemma bind_text_unbindable (v : option json) :
  Inv.unbindable v -> exists e, StateManager.bind_text v = Py.Raise e.
Proof. intros [[items ->]|[members ->]]; cbn; eauto. Qed.

Lemma save_email_unbindable (d : database) (m : string)
    (t s f dt : option string) (p fl da aa : option json) :
  Exists Inv.unbindable [p; fl; da; aa] ->
  exists e, StateManager.save_email d m t s f dt p fl da aa = Py.Raise e.
Proof.
  intros H. unfold StateManager.save_email.
  repeat match goal with
         | H : Exists _ (_ :: _) |- _ => apply Exists_cons in H as [H|H]
         | H : Exists _ [] |- _ => apply Exists_nil in H; destruct H
         end;
    destruct (bind_text_unbindable _ H) as [e He]; rewrite He;
    destruct (StateManager.bind_text p), (StateManager.bind_text fl),
      (StateManager.bind_text da), (StateManager.bind_text aa); eauto.
Qed.

Lemma save_email_lookup (d d1 : database) (m : string)
    (t s f dt : option string) (p fl da aa : option json) :
  StateManager.save_email d m t s f dt p fl da aa = Py.Ok d1 ->
  is_Some (emails d1 !! m)
  /\ (forall m', m' <> m -> emails d1 !! m' = emails d !! m').
Proof.
  unfold StateManager.save_email.
  destruct (StateManager.bind_text p), (StateManager.bind_text fl),
    (StateManager.bind_text da), (StateManager.bind_text aa);
    intros H; try discriminate H.
  inversion H; subst; clear H. cbn [emails]. split.
  - rewrite lookup_insert_eq. eauto.
  - intros m' Hne. apply lookup_insert_ne. congruence.
Qed.

Lemma mark_processed_test (d : database) (m p status : string) (err : option string)
    (m' p' : string) :
  StateManager.is_email_processed
    (StateManager.mark_email_processed d m p status err) m' p'
  = StateManager.is_email_processed d m' p'
    || (String.eqb m m' && String.eqb p p' && String.eqb status "SUCCESS").
Proof.
  unfold StateManager.is_email_processed, StateManager.mark_email_processed.
  cbn [processing_state]. rewrite existsb_app. cbn [existsb].
  unfold StateManager.is_success_for at 2. cbn. rewrite orb_false_r. reflexivity.
Qed.

Lemma unprocessed_in (d : database) (phase : string) (e : email_record) :
  In e (get_unprocessed_emails d phase) <->
  (exists k, emails d !! k = Some e)
  /\ StateManager.is_email_processed d (rec_message_id e) phase = false.
Proof.
  unfold get_unprocessed_emails. rewrite filter_In, negb_true_iff, in_map_iff. split.
  - intros [([k e'] & <- & Hin) Hp]. split; [|exact Hp].
    exists k. apply elem_of_map_to_list, list_elem_of_In, Hin.
  - intros [[k Hk] Hp]. split; [|exact Hp].
    exists (k, e). split; [reflexivity|].
    apply list_elem_of_In, elem_of_map_to_list, Hk.
Qed.

Lemma unprocessed_ids_nodup (d : database) (phase : string) :
  keyed_by_id d -> List.NoDup (map rec_message_id (get_unprocessed_emails d phase)).
Proof.
  intros Hkey. unfold get_unprocessed_emails.
  assert (Hnd : List.NoDup (map rec_message_id (map snd (map_to_list (emails d))))).
  { assert (Heq : map rec_message_id (map snd (map_to_list (emails d)))
                  = map fst (map_to_list (emails d))).
    { rewrite map_map. apply map_ext_in. intros [k e] Hin. cbn.
      apply Hkey. apply elem_of_map_to_list, list_elem_of_In, Hin. }
    rewrite Heq. apply NoDup_ListNoDup. exact (NoDup_fst_map_to_list (emails d)). }
  revert Hnd. generalize (map snd (map_to_list (emails d))).
  intros l. induction l as [|e rest IH]; cbn; [constructor|].
  intros Hnd. inversion Hnd as [|? ? Hnotin Hnd']; subst.
  destruct (negb (StateManager.is_email_processed d (rec_message_id e) phase));
    [|apply IH, Hnd'].
  cbn. constructor; [|apply IH, Hnd'].
  intros Hin. apply Hnotin.
  apply in_map_iff in Hin as (e' & He' & Hin).
  apply in_map_iff. exists e'. split; [exact He'|]. apply filter_In in Hin. apply Hin.
Qed.

(** X15. For extracted fields that are texts or absent, [save_email]
    followed by [get_email] gives back the row just written, each field
    with its text; the rows of other messages and the ledger are
    untouched; a second [save_email] for the same message replaces the row
    of the first. *)
Theorem save_email_get_email (d d1 : database) (m : string)
    (t s f dt : option string) (p fl da aa : option json) :
  Inv.text p -> Inv.text fl -> Inv.text da -> Inv.text aa ->
  StateManager.save_email d m t s f dt p fl da aa = Py.Ok d1 ->
  StateManager.get_email d1 m
  = Some {| rec_message_id := m; rec_thread_id := t; rec_subject := s;
            rec_from_email := f; rec_msg_date := dt; pnr := Inv.text_of p;
            rec_flight_number := Inv.text_of fl;
            rec_departure_airport := Inv.text_of da;
            rec_arrival_airport := Inv.text_of aa |}
  /\ (forall m', m' <> m -> StateManager.get_email d1 m' = StateManager.get_email d m')
  /\ processing_state d1 = processing_state d
  /\ (forall t' s' f' dt' p' fl' da' aa' d2 d',
         Inv.text p' -> Inv.text fl' -> Inv.text da' -> Inv.text aa' ->
         StateManager.save_email d1 m t' s' f' dt' p' fl' da' aa' = Py.Ok d2 ->
         StateManager.save_email d m t' s' f' dt' p' fl' da' aa' = Py.Ok d' ->
         d2 = d').
Proof.
  intros Tp Tfl Tda Taa. unfold StateManager.save_email, StateManager.get_email.
  rewrite (bind_text_text p Tp), (bind_text_text fl Tfl), (bind_text_text da Tda),
    (bind_text_text aa Taa).
  intros H. inversion H; subst; clear H. cbn [emails processing_state].
  split; [|split; [|split]].
  - apply lookup_insert_eq.
  - intros m' Hne. apply lookup_insert_ne. congruence.
  - reflexivity.
  - intros t' s' f' dt' p' fl' da' aa' d2 d' Tp' Tfl' Tda' Taa'.
    rewrite (bind_text_text p' Tp'), (bind_text_text fl' Tfl'), (bind_text_text da' Tda'),
      (bind_text_text aa' Taa').
    intros H2 H'. inversion H2; inversion H'; subst. cbn [emails processing_state].
    rewrite insert_insert_eq. reflexivity.
Qed.

Section UnbindableFields.

Variable json_loads : string -> Py.result json.
Variable re_search : string -> string -> list re_flag -> option (list string).
Variable re_findall : string -> string -> list string.
Variable get_message : string -> Py.result email_data.

(** X16. A list or a dictionary in an extracted field cannot be bound:
    [save_email] raises. In the sweep, a message classified as a flight
    confirmation whose extracted record has such a field gets a FAILED
    event, no Email Record, and no place in the batch to label; it is
    still not done, so the next sweep attempts it again. *)
Theorem unbindable_field_fails_message (s : sweep) (m : string) (content : email_data)
    (data : flight_details) :
  StateManager.is_email_processed (db s) m PHASE1_LABEL = false ->
  get_message m = Py.Ok content ->
  fst (classify json_loads re_search re_findall content) = true ->
  parse json_loads re_search re_findall content = Some data ->
  Exists Inv.unbindable
    [booking_reference data; flight_number data; departure_airport data;
     arrival_airport data] ->
  (exists e,
      StateManager.save_email (db s) m (thread_id content) (Some (subject content))
        (Some (from_email content)) (Some (msg_date content))
        (booking_reference data) (flight_number data) (departure_airport data)
        (arrival_airport data) = Py.Raise e)
  /\ (exists error_msg,
         sweep_message json_loads re_search re_findall get_message s m
         = {| db := StateManager.mark_email_processed (db s) m PHASE1_LABEL "FAILED"
                      (Some error_msg);
              flight_messages := flight_messages s;
              fetched := fetched s ++ [m] |})
  /\ StateManager.is_email_processed
       (db (sweep_message json_loads re_search re_findall get_message s m)) m PHASE1_LABEL
     = false.
Proof.
  intros Hd Hg Hc Hp Hun.
  destruct (save_email_unbindable (db s) m (thread_id content) (Some (subject content))
              (Some (from_email content)) (Some (msg_date content)) _ _ _ _ Hun)
    as [e He].
  assert (Hstep : sweep_message json_loads re_search re_findall get_message s m
                  = {| db := StateManager.mark_email_processed (db s) m PHASE1_LABEL "FAILED"
                               (Some (exn_message e));
                       flight_messages := flight_messages s;
                       fetched := fetched s ++ [m] |}).
  { unfold sweep_message. rewrite Hd. unfold attempt. rewrite Hg.
    destruct (classify json_loads re_search re_findall content) as [is_flight score].
    cbn [fst] in Hc. subst is_flight. rewrite Hp. cbn [mbind option_bind].
    rewrite He. reflexivity. }
  split; [eauto|]. split; [eauto|].
  rewrite Hstep. cbn [db]. rewrite mark_processed_test, Hd. cbn.
  rewrite !andb_false_r. reflexivity.
Qed.

End UnbindableFields.

(** X17. What one more event does to the done test: it turns it on for its own
    message and phase when its status is SUCCESS, and changes nothing
    otherwise. Hence done stays done whatever is recorded later, and a
    FAILED or SKIPPED event never makes a message done. *)
Theorem mark_email_processed_effect (d : database) (m p status : string)
    (err : option string) :
  (forall m' p',
      StateManager.is_email_processed
        (StateManager.mark_email_processed d m p status err) m' p'
      = StateManager.is_email_processed d m' p'
        || (String.eqb m m' && String.eqb p p' && String.eqb status "SUCCESS"))
  /\ (forall m' p',
         StateManager.is_email_processed d m' p' = true ->
         StateManager.is_email_processed
           (StateManager.mark_email_processed d m p status err) m' p' = true)
  /\ (status <> "SUCCESS" ->
      forall m' p',
        StateManager.is_email_processed
          (StateManager.mark_email_processed d m p status err) m' p'
        = StateManager.is_email_processed d m' p')
  /\ emails (StateManager.mark_email_processed d m p status err) = emails d.
Proof.
  pose proof (mark_processed_test d m p status err) as H.
  split; [exact H|]. split; [|split; [|reflexivity]].
  - intros m' p' Hd. rewrite H, Hd. reflexivity.
  - intros Hne m' p'. rewrite H. apply String.eqb_neq in Hne. rewrite Hne.
    rewrite !andb_false_r. apply orb_false_r.
Qed.

(** ** More on Phase 1 *)

Section MorePhase1.

Variable json_loads : string -> Py.result json.
Variable re_search : string -> string -> list re_flag -> option (list string).
Variable re_findall : string -> string -> list string.
Variable get_message : string -> Py.result email_data.

Local Abbreviation step := (sweep_message json_loads re_search re_findall get_message).
Local Abbreviation run := (phase1_label_emails json_loads re_search re_findall get_message).
Local Abbreviation done d m := (StateManager.is_email_processed d m PHASE1_LABEL).

(** The three ways one turn of the loop can end. *)
Lemma sweep_message_cases (s : sweep) (m : string) :
  (done (db s) m = true /\ step s m = s)
  \/ (done (db s) m = false /\
      exists status err,
        status <> "SUCCESS"
        /\ step s m
           = {| db := StateManager.mark_email_processed (db s) m PHASE1_LABEL status err;
                flight_messages := flight_messages s;
                fetched := fetched s ++ [m] |})
  \/ (done (db s) m = false /\
      exists e d1 t su f dt p fl da aa,
        get_message m = Py.Ok e
        /\ fst (classify json_loads re_search re_findall e) = true
        /\ StateManager.save_email (db s) m t su f dt p fl da aa = Py.Ok d1
        /\ step s m
           = {| db := StateManager.mark_email_processed d1 m PHASE1_LABEL "SUCCESS" None;
                flight_messages := flight_messages s ++ [m];
                fetched := fetched s ++ [m] |}).
Proof.
  unfold sweep_message. destruct (done (db s) m) eqn:Hd; [left; auto|].
  unfold attempt. destruct (get_message m) as [e|err] eqn:Hg.
  - destruct (classify json_loads re_search re_findall e) as [is_flight score] eqn:Hc.
    destruct is_flight.
    + destruct (StateManager.save_email _ _ _ _ _ _ _ _ _ _) as [d1|err] eqn:Hs.
      * right; right. split; [reflexivity|].
        do 10 eexists. split; [reflexivity|]. rewrite Hc. split; [reflexivity|].
        split; [exact Hs | reflexivity].
      * right; left. split; [reflexivity|]. exists "FAILED", (Some (exn_message err)).
        split; [discriminate | reflexivity].
    + right; left. split; [reflexivity|]. exists "SKIPPED", None.
      split; [discriminate | reflexivity].
  - right; left. split; [reflexivity|]. exists "FAILED", (Some (exn_message err)).
    split; [discriminate | reflexivity].
Qed.

Lemma fold_sweep_trace (msgs : list string) (s : sweep) :
  exists evs fetched' flights',
    processing_state (db (fold_left step msgs s)) = processing_state (db s) ++ evs
    /\ fetched (fold_left step msgs s) = fetched s ++ fetched'
    /\ flight_messages (fold_left step msgs s) = flight_messages s ++ flights'
    /\ map ev_message_id evs = fetched'
    /\ Forall (fun ev => ev_phase ev = PHASE1_LABEL) evs
    /\ sublist fetched' msgs
    /\ sublist flights' fetched'.
Proof.
  revert s. induction msgs as [|m rest IH]; intros s; cbn [fold_left].
  - exists [], [], []. rewrite !app_nil_r. repeat split; constructor.
  - destruct (IH (step s m)) as (evs & f' & fl' & He & Hf & Hfl & Hm & Hp & Hs1 & Hs2).
    destruct (sweep_message_cases s m)
      as [[_ Hstep] | [[_ (status & err & _ & Hstep)]
                      | [_ (e & d1 & t & su & f & dt & p & fl & da & aa & _ & _ & Hsave & Hstep)]]];
      rewrite Hstep in He, Hf, Hfl |- *; cbn [db fetched flight_messages] in He, Hf, Hfl.
    + exists evs, f', fl'. repeat split; try assumption. apply sublist_cons, Hs1.
    + cbn [StateManager.mark_email_processed processing_state] in He.
      rewrite <- app_assoc in He, Hf.
      eexists _, _, fl'. split; [exact He|]. split; [exact Hf|]. split; [exact Hfl|].
      cbn. split; [f_equal; exact Hm|]. split; [constructor; [reflexivity | exact Hp]|].
      split; [apply sublist_skip, Hs1 | apply sublist_cons, Hs2].
    + cbn [StateManager.mark_email_processed processing_state] in He.
      rewrite (save_email_events _ _ _ _ _ _ _ _ _ _ _ Hsave) in He.
      rewrite <- app_assoc in He, Hf, Hfl.
      eexists _, _, _. split; [exact He|]. split; [exact Hf|]. split; [exact Hfl|].
      cbn. split; [f_equal; exact Hm|]. split; [constructor; [reflexivity | exact Hp]|].
      split; [apply sublist_skip, Hs1 | apply sublist_skip, Hs2].
Qed.

(** X18. The sweep only appends to the ledger: what was there stays, in place,
    and one PHASE1_LABEL event is added for each message fetched, in the
    order of the fetches. The messages fetched are candidates taken in
    order, and the batch to label is taken from the messages fetched. *)
Theorem phase1_appends_one_event_per_fetch (d : database) (message_list : list string) :
  exists evs,
    processing_state (db (run d message_list)) = processing_state d ++ evs
    /\ map ev_message_id evs = fetched (run d message_list)
    /\ Forall (fun ev => ev_phase ev = PHASE1_LABEL) evs
    /\ sublist (fetched (run d message_list)) message_list
    /\ sublist (flight_messages (run d message_list)) (fetched (run d message_list)).
Proof.
  unfold phase1_label_emails.
  destruct (fold_sweep_trace message_list {| db := d; flight_messages := []; fetched := [] |})
    as (evs & f' & fl' & He & Hf & Hfl & Hm & Hp & Hs1 & Hs2).
  cbn [db fetched flight_messages app] in He, Hf, Hfl.
  exists evs. rewrite Hf, Hfl. repeat split; assumption.
Qed.

Lemma step_keeps_rows (s : sweep) (m m' : string) :
  is_Some (emails (db s) !! m) -> is_Some (emails (db (step s m')) !! m).
Proof.
  intros H.
  destruct (sweep_message_cases s m')
    as [[_ ->] | [[_ (status & err & _ & ->)]
                 | [_ (e & d1 & t & su & f & dt & p & fl & da & aa & _ & _ & Hsave & ->)]]];
    cbn [db StateManager.mark_email_processed emails]; try exact H.
  destruct (String.eqb_spec m m') as [->|Hne].
  - apply (save_email_lookup _ _ _ _ _ _ _ _ _ _ _ Hsave).
  - destruct (save_email_lookup _ _ _ _ _ _ _ _ _ _ _ Hsave) as [_ Hother].
    rewrite (Hother m Hne). exact H.
Qed.

Lemma step_keeps_done (s : sweep) (m m' : string) :
  done (db s) m = true -> done (db (step s m')) m = true.
Proof.
  intros H. exact (proj1 (sweep_message_done json_loads re_search re_findall get_message
                            s m m' H)).
Qed.

Lemma fold_flights_done (msgs : list string) (s : sweep) :
  (forall m, In m (flight_messages s) ->
             done (db s) m = true /\ is_Some (emails (db s) !! m)
             /\ exists e, get_message m = Py.Ok e
                          /\ fst (classify json_loads re_search re_findall e) = true) ->
  forall m, In m (flight_messages (fold_left step msgs s)) ->
            done (db (fold_left step msgs s)) m = true
            /\ is_Some (emails (db (fold_left step msgs s)) !! m)
            /\ exists e, get_message m = Py.Ok e
                         /\ fst (classify json_loads re_search re_findall e) = true.
Proof.
  revert s. induction msgs as [|m' rest IH]; intros s Hinv; cbn [fold_left]; [exact Hinv|].
  apply IH. intros m Hin.
  assert (Hold : In m (flight_messages s) ->
                 done (db (step s m')) m = true /\ is_Some (emails (db (step s m')) !! m)
                 /\ exists e, get_message m = Py.Ok e
                              /\ fst (classify json_loads re_search re_findall e) = true).
  { intros Hm. destruct (Hinv m Hm) as (H1 & H2 & H3).
    split; [apply step_keeps_done, H1|]. split; [apply step_keeps_rows, H2 | exact H3]. }
  destruct (sweep_message_cases s m')
    as [[_ Hstep] | [[_ (status & err & _ & Hstep)]
                    | [_ (e & d1 & t & su & f & dt & p & fl & da & aa & Hg & Hc & Hsave & Hstep)]]].
  - apply Hold. rewrite Hstep in Hin. exact Hin.
  - apply Hold. rewrite Hstep in Hin. exact Hin.
  - pose proof Hin as Hin'. rewrite Hstep in Hin'. cbn [flight_messages] in Hin'.
    apply in_app_or in Hin' as [Hm|[<-|[]]]; [apply Hold, Hm|].
    rewrite Hstep. cbn [db]. split; [|split].
    + rewrite mark_processed_test, !String.eqb_refl. apply orb_true_r.
    + cbn [StateManager.mark_email_processed emails].
      apply (save_email_lookup _ _ _ _ _ _ _ _ _ _ _ Hsave).
    + eauto.
Qed.

(** X19. Every message the sweep puts in the batch to label was classified as a
    flight confirmation, has its Email Record saved, and is done for
    Phase 1 when the sweep ends. *)
Theorem flight_messages_saved_and_done (d : database) (message_list : list string)
    (m : string) :
  In m (flight_messages (run d message_list)) ->
  done (db (run d message_list)) m = true
  /\ is_Some (StateManager.get_email (db (run d message_list)) m)
  /\ exists e, get_message m = Py.Ok e
               /\ fst (classify json_loads re_search re_findall e) = true.
Proof.
  unfold phase1_label_emails, StateManager.get_email.
  apply fold_flights_done. intros m0 [].
Qed.

End MorePhase1.

(** ** Batches *)

Lemma range_from_zero_positive (stop step : Z) :
  0 < step -> 0 <= stop ->
  exists n, range_from_zero stop step
            = Py.Ok (map (fun j => (j * Z.to_nat step)%nat) (seq 0 n))
            /\ (Z.to_nat stop <= n * Z.to_nat step)%nat
            /\ (forall j, (j < n)%nat -> (j * Z.to_nat step < Z.to_nat stop)%nat).
Proof.
  intros Hstep Hstop. unfold range_from_zero.
  destruct (Z.eqb_spec step 0) as [->|_]; [lia|].
  destruct (Z.ltb_spec step 0) as [Hneg|_]; [lia|].
  eexists. split; [reflexivity|].
  assert (H : stop <= (stop + step - 1) / step * step) by
    (pose proof (Z.mod_pos_bound (stop + step - 1) step Hstep);
     pose proof (Z.div_mod (stop + step - 1) step); nia).
  assert (0 <= (stop + step - 1) / step) by (apply Z.div_pos; lia).
  split; [nia|]. intros j Hj.
  assert (Hup : (stop + step - 1) / step * step <= stop + step - 1) by
    (pose proof (Z.mod_pos_bound (stop + step - 1) step Hstep);
     pose proof (Z.div_mod (stop + step - 1) step); nia).
  nia.
Qed.

(** The first [k] batches, one after the other, are the first [k] times
    [batch_size] ids. *)
Lemma batches_take (message_ids : list string) (batch_size k : nat) :
  concat (map (fun j => batch_at message_ids (j * batch_size) batch_size) (seq 0 k))
  = take (k * batch_size) message_ids.
Proof.
  induction k as [|k IH]; [reflexivity|].
  rewrite seq_S, map_app, concat_app, IH. cbn [map concat]. rewrite app_nil_r.
  unfold batch_at. rewrite take_take_drop. f_equal. lia.
Qed.

Lemma map_map_starts (message_ids : list string) (batch_size : nat) (js : list nat) :
  map (fun i => batch_at message_ids i batch_size) (map (fun j => (j * batch_size)%nat) js)
  = map (fun j => batch_at message_ids (j * batch_size) batch_size) js.
Proof. rewrite map_map. reflexivity. Qed.

Section MoreBatches.

Variable batch_modify : list string -> string -> Py.result unit.

Lemma label_batches_trace (starts : list nat) (message_ids : list string)
    (label_id : string) (batch_size : nat) (count : Z) (sent : list (list string)) :
  exists k,
    (k <= length starts)%nat
    /\ modified (label_batches batch_modify starts message_ids label_id batch_size count sent)
       = sent ++ map (fun i => batch_at message_ids i batch_size) (take k starts)
    /\ ((forall batch, batch_modify batch label_id = Py.Ok tt) ->
        k = length starts
        /\ labeled (label_batches batch_modify starts message_ids label_id batch_size
                      count sent)
           = Py.Ok (Some (count
                          + Z.of_nat (length (concat
                              (map (fun i => batch_at message_ids i batch_size) starts)))))).
Proof.
  revert count sent. induction starts as [|i rest IH]; intros count sent; cbn [label_batches].
  - exists 0%nat. cbn. rewrite app_nil_r, Z.add_0_r. auto.
  - destruct (batch_modify (batch_at message_ids i batch_size) label_id) as [u|e] eqn:Hb.
    + destruct (IH (count + Z.of_nat (length (batch_at message_ids i batch_size)))
                  (sent ++ [batch_at message_ids i batch_size])) as (k & Hk & Hm & Hall).
      exists (S k). split; [cbn; lia|]. split.
      * rewrite Hm, <- app_assoc. reflexivity.
      * intros Hok. destruct (Hall Hok) as [-> ->]. split; [reflexivity|].
        cbn [map concat]. rewrite length_app. do 2 f_equal. lia.
    + exists 0%nat. cbn. rewrite app_nil_r. split; [lia|]. split; [reflexivity|].
      intros Hok. rewrite Hok in Hb. discriminate.
Qed.

Lemma apply_label_body_sent (message_ids : list string) (label_id : string)
    (batch_size : Z) :
  0 < batch_size ->
  concat (modified (apply_label_body batch_modify label_id batch_size message_ids))
    `prefix_of` message_ids
  /\ Forall (fun batch => (1 <= length batch <= Z.to_nat batch_size)%nat)
       (modified (apply_label_body batch_modify label_id batch_size message_ids))
  /\ ((forall batch, batch_modify batch label_id = Py.Ok tt) ->
      concat (modified (apply_label_body batch_modify label_id batch_size message_ids))
      = message_ids
      /\ labeled (apply_label_body batch_modify label_id batch_size message_ids)
         = Py.Ok (Some (Z.of_nat (length message_ids)))).
Proof.
  intros Hpos. unfold apply_label_body.
  destruct (range_from_zero_positive (Z.of_nat (length message_ids)) batch_size Hpos)
    as (n & -> & Hn & Hmin); [lia|].
  destruct (label_batches_trace
              (map (fun j => (j * Z.to_nat batch_size)%nat) (seq 0 n))
              message_ids label_id (Z.to_nat batch_size) 0 [])
    as (k & Hk & Hm & Hall).
  rewrite length_map, length_seq in Hk.
  rewrite Hm. cbn [app]. rewrite List.firstn_map, map_map_starts.
  assert (Htake : take k (seq 0 n) = seq 0 k).
  { rewrite take_seq. f_equal. lia. }
  rewrite Htake, batches_take. split; [apply prefix_take|]. split.
  - apply Forall_forall. intros batch Hin.
    apply list_elem_of_In, in_map_iff in Hin as (j & <- & Hj).
    apply in_seq in Hj. assert (Hlt : (j < n)%nat) by lia.
    apply Hmin in Hlt. rewrite Nat2Z.id in Hlt.
    unfold batch_at. rewrite length_take, length_drop. lia.
  - intros Hok. destruct (Hall Hok) as [Hkn ->].
    rewrite length_map, length_seq in Hkn. subst k.
    rewrite map_map_starts, batches_take.
    rewrite take_ge by lia. split; [reflexivity|]. rewrite Z.add_0_l. reflexivity.
Qed.

(** X20. [apply_label_to_messages] sends the ids to the mail service in order,
    in batches of at least one and at most [batch_size] ids, without
    repeating or inventing any: whatever fails, the batches modified are a
    prefix of the list; when no request fails they are the whole list and
    the count returned is its length. In dry-run mode nothing is sent and
    [None] is returned; a batch size of zero raises before anything is
    sent. *)
Theorem apply_label_to_messages_batches (message_ids : list string) (label_id : string)
    (batch_size : Z) :
  apply_label_to_messages batch_modify true message_ids label_id batch_size
  = {| labeled := Py.Ok None; modified := [] |}
  /\ (batch_size = 0 ->
      modified (apply_label_to_messages batch_modify false message_ids label_id batch_size)
      = []
      /\ exists e, labeled (apply_label_to_messages batch_modify false message_ids label_id
                              batch_size) = Py.Raise e)
  /\ (0 < batch_size ->
      concat (modified (apply_label_to_messages batch_modify false message_ids label_id
                          batch_size))
        `prefix_of` message_ids
      /\ Forall (fun batch => (1 <= length batch <= Z.to_nat batch_size)%nat)
           (modified (apply_label_to_messages batch_modify false message_ids label_id
                        batch_size))
      /\ ((forall batch, batch_modify batch label_id = Py.Ok tt) ->
          concat (modified (apply_label_to_messages batch_modify false message_ids label_id
                              batch_size))
          = message_ids
          /\ labeled (apply_label_to_messages batch_modify false message_ids label_id
                        batch_size)
             = Py.Ok (Some (Z.of_nat (length message_ids))))).
Proof.
  split; [reflexivity|]. split.
  - intros ->. cbn. eauto.
  - intros Hpos. apply apply_label_body_sent, Hpos.
Qed.

End MoreBatches.

Section ForwardBatches.

Variable forward_message_call : string -> Py.result string.

Local Abbreviation raises m :=
  (match forward_message_call m with Py.Ok _ => false | Py.Raise _ => true end).

Lemma forward_fold (ids : list string) (r : batch_results) :
  let r' := fold_left (forward_in_batch forward_message_call) ids r in
  success r' + failed r' = success r + failed r + Z.of_nat (length ids)
  /\ failed_ids r' = failed_ids r ++ List.filter (fun m => raises m) ids
  /\ failed r' = failed r + Z.of_nat (length (List.filter (fun m => raises m) ids)).
Proof.
  revert r. induction ids as [|m rest IH]; intros r; cbn [fold_left].
  - cbn. rewrite app_nil_r. repeat split; lia.
  - destruct (IH (forward_in_batch forward_message_call r m)) as (H1 & H2 & H3).
    cbn zeta in *. rewrite H1, H2, H3. unfold forward_in_batch. cbn [List.filter].
    destruct (forward_message_call m); cbn [success failed failed_ids length];
      rewrite <- ?app_assoc; cbn [app]; repeat split; first [reflexivity | lia].
Qed.

Lemma fold_batches_concat (starts : list nat) (ids : list string) (bs : nat)
    (r : batch_results) :
  fold_left
    (fun results i => fold_left (forward_in_batch forward_message_call)
                        (batch_at ids i bs) results)
    starts r
  = fold_left (forward_in_batch forward_message_call)
      (concat (map (fun i => batch_at ids i bs) starts)) r.
Proof.
  revert r. induction starts as [|i rest IH]; intros r; [reflexivity|].
  cbn [fold_left map concat]. rewrite fold_left_app. apply IH.
Qed.

(** X21. [forward_messages_batch] goes through every id once, batch after batch:
    each id counts as a success or as a failure, the failed ids are those
    whose forwarding raised, in the order of the list, and no failure stops
    the run. A batch size of zero raises instead. *)
Theorem forward_messages_batch_counts (message_ids : list string) (batch_size : Z) :
  (0 < batch_size ->
   exists r,
     forward_messages_batch forward_message_call message_ids batch_size = Py.Ok r
     /\ success r + failed r = Z.of_nat (length message_ids)
     /\ failed_ids r = List.filter (fun m => raises m) message_ids
     /\ failed r = Z.of_nat (length (failed_ids r)))
  /\ (batch_size = 0 ->
      exists e, forward_messages_batch forward_message_call message_ids batch_size
                = Py.Raise e).
Proof.
  split.
  - intros Hpos. unfold forward_messages_batch.
    destruct (range_from_zero_positive (Z.of_nat (length message_ids)) batch_size Hpos)
      as (n & -> & Hn & _); [lia|].
    eexists. split; [reflexivity|].
    rewrite fold_batches_concat, map_map_starts, batches_take, take_ge by lia.
    destruct (forward_fold message_ids {| success := 0; failed := 0; failed_ids := [] |})
      as (H1 & H2 & H3).
    cbn [success failed failed_ids app] in H1, H2, H3.
    rewrite H2. repeat split; lia.
  - intros ->. cbn. eauto.
Qed.

End ForwardBatches.

(** ** Phase 2 *)

Section MorePhase2.

Variable fuzz_ratio : string -> string -> Z.
Variable forward : string -> Py.result string.

Local Abbreviation sent dry m :=
  (match forward_message forward dry m with Py.Ok _ => true | Py.Raise _ => false end).
Local Abbreviation ids := (message_ids fuzz_ratio).
Local Abbreviation phase2 := (phase2_forward_emails fuzz_ratio forward).
Local Abbreviation queue d := (get_unprocessed_emails d PHASE2_FORWARD).

Lemma forward_one_trace (dry : bool) (s : outbox) (m : string) :
  exists ev,
    emails (out_db (forward_one forward dry s m)) = emails (out_db s)
    /\ processing_state (out_db (forward_one forward dry s m))
       = processing_state (out_db s) ++ [ev]
    /\ forwarded (forward_one forward dry s m)
       = forwarded s ++ (if dry then [] else [m])
    /\ ev_message_id ev = m
    /\ ev_phase ev = PHASE2_FORWARD
    /\ ev_status ev = (if sent dry m then "SUCCESS" else "FAILED").
Proof.
  unfold forward_one, DryRunManager.is_enabled.
  destruct (forward_message forward dry m) as [r|e]; eexists;
    cbn [out_db forwarded StateManager.mark_email_processed emails processing_state];
    (split; [reflexivity|]); (split; [reflexivity|]);
    (split; [destruct dry; [rewrite app_nil_r|]; reflexivity|]);
    cbn; auto.
Qed.

Lemma fold_forward_trace (dry : bool) (l : list string) (s : outbox) :
  exists evs,
    emails (out_db (fold_left (forward_one forward dry) l s)) = emails (out_db s)
    /\ processing_state (out_db (fold_left (forward_one forward dry) l s))
       = processing_state (out_db s) ++ evs
    /\ forwarded (fold_left (forward_one forward dry) l s)
       = forwarded s ++ (if dry then [] else l)
    /\ map ev_message_id evs = l
    /\ Forall (fun ev => ev_phase ev = PHASE2_FORWARD
                         /\ ev_status ev
                            = (if sent dry (ev_message_id ev) then "SUCCESS" else "FAILED"))
         evs.
Proof.
  revert s. induction l as [|m rest IH]; intros s; cbn [fold_left].
  - exists []. rewrite !app_nil_r. destruct dry; rewrite ?app_nil_r; repeat split; constructor.
  - destruct (IH (forward_one forward dry s m)) as (evs & He & Hp & Hf & Hm & Hall).
    destruct (forward_one_trace dry s m) as (ev & He1 & Hp1 & Hf1 & Hm1 & Hph & Hst).
    exists (ev :: evs). rewrite He, Hp, Hf, He1, Hp1, Hf1, <- !app_assoc.
    split; [reflexivity|]. split; [reflexivity|].
    split; [destruct dry; reflexivity|].
    split; [cbn; congruence|].
    constructor; [|exact Hall]. rewrite Hm1. auto.
Qed.

Lemma unique_nil (self : Deduplicator) : get_unique_emails fuzz_ratio self [] = [].
Proof. reflexivity. Qed.

Lemma phase2_fold (dry deduplicate : bool) (d : database) :
  phase2 dry deduplicate d
  = fold_left (forward_one forward dry) (ids deduplicate d) {| out_db := d; forwarded := [] |}.
Proof.
  unfold phase2_forward_emails, message_ids.
  destruct (get_unprocessed_emails d PHASE2_FORWARD); [|reflexivity].
  destruct deduplicate; reflexivity.
Qed.

Lemma phase2_trace (dry deduplicate : bool) (d : database) :
  emails (out_db (phase2 dry deduplicate d)) = emails d
  /\ forwarded (phase2 dry deduplicate d) = (if dry then [] else ids deduplicate d)
  /\ exists evs,
       processing_state (out_db (phase2 dry deduplicate d)) = processing_state d ++ evs
       /\ map ev_message_id evs = ids deduplicate d
       /\ Forall (fun ev => ev_phase ev = PHASE2_FORWARD
                            /\ ev_status ev
                               = (if sent dry (ev_message_id ev) then "SUCCESS"
                                  else "FAILED"))
            evs.
Proof.
  rewrite phase2_fold.
  destruct (fold_forward_trace dry (ids deduplicate d) {| out_db := d; forwarded := [] |})
    as (evs & He & Hp & Hf & Hm & Hall).
  cbn [out_db forwarded app] in He, Hp, Hf. eauto 10.
Qed.

(** X22. Phase 2 leaves the Email Records alone and only appends to the ledger:
    one PHASE2_FORWARD event for each message it goes through, in order,
    SUCCESS when the forwarding call returned and FAILED when it raised; a
    failure does not stop the run. The forwarding code itself runs for
    every one of these messages, or for none of them in dry-run mode. *)
Theorem phase2_appends_one_event_per_message (dry deduplicate : bool) (d : database) :
  emails (out_db (phase2 dry deduplicate d)) = emails d
  /\ forwarded (phase2 dry deduplicate d) = (if dry then [] else ids deduplicate d)
  /\ exists evs,
       processing_state (out_db (phase2 dry deduplicate d)) = processing_state d ++ evs
       /\ map ev_message_id evs = ids deduplicate d
       /\ Forall (fun ev => ev_phase ev = PHASE2_FORWARD
                            /\ ev_status ev
                               = (if sent dry (ev_message_id ev) then "SUCCESS"
                                  else "FAILED"))
            evs.
Proof. apply phase2_trace. Qed.

Lemma ids_in_queue (deduplicate : bool) (d : database) (m : string) :
  In m (ids deduplicate d) ->
  exists e, In e (queue d) /\ rec_message_id e = m.
Proof.
  unfold message_ids. destruct deduplicate; intros Hin;
    apply in_map_iff in Hin as (e & He & Hin); exists e; (split; [|exact He]);
    [|exact Hin].
  apply list_elem_of_In.
  eapply elem_of_sublist; [apply list_elem_of_In, Hin | apply unique_from_sublist].
Qed.

Lemma phase2_done (dry deduplicate : bool) (d : database) (m p : string) :
  StateManager.is_email_processed (out_db (phase2 dry deduplicate d)) m p
  = StateManager.is_email_processed d m p
    || (String.eqb p PHASE2_FORWARD && existsb (String.eqb m) (ids deduplicate d)
        && sent dry m).
Proof.
  destruct (phase2_trace dry deduplicate d) as (_ & _ & evs & Hp & Hm & Hall).
  rewrite (processed_app _ _ _ _ _ Hp). f_equal.
  rewrite <- Hm. clear Hp Hm. induction Hall as [|ev evs [Hph Hst] _ IH].
  - cbn. rewrite andb_false_r. reflexivity.
  - cbn [existsb map]. rewrite IH. unfold StateManager.is_success_for.
    rewrite Hph, Hst.
    destruct (String.eqb_spec (ev_message_id ev) m) as [->|Hne].
    + rewrite String.eqb_refl. rewrite (String.eqb_sym PHASE2_FORWARD p).
      destruct (String.eqb p PHASE2_FORWARD); [|reflexivity].
      destruct (forward_message forward dry m); cbn; try reflexivity.
      rewrite andb_false_r. reflexivity.
    + apply String.eqb_neq in Hne. rewrite String.eqb_sym in Hne. rewrite Hne.
      reflexivity.
Qed.

Lemma existsb_eqb_in (m : string) (l : list string) :
  existsb (String.eqb m) l = true <-> In m l.
Proof.
  rewrite existsb_exists. split.
  - intros (x & Hin & Heq). apply String.eqb_eq in Heq. subst. exact Hin.
  - intros Hin. exists m. split; [exact Hin | apply String.eqb_refl].
Qed.

(** X23. After Phase 2 the rows still waiting to be forwarded are the rows that
    were waiting before and were either not gone through (dropped as
    duplicates) or whose forwarding raised. Nothing joins the queue, and a
    message whose forwarding returned leaves it. *)
Theorem phase2_queue_afterwards (dry deduplicate : bool) (d : database) (e : email_record) :
  In e (queue (out_db (phase2 dry deduplicate d))) <->
  In e (queue d)
  /\ (~ In (rec_message_id e) (ids deduplicate d) \/ sent dry (rec_message_id e) = false).
Proof.
  rewrite !unprocessed_in, phase2_done.
  destruct (phase2_trace dry deduplicate d) as (-> & _).
  rewrite String.eqb_refl, andb_true_l, orb_false_iff, andb_false_iff.
  pose proof (existsb_eqb_in (rec_message_id e) (ids deduplicate d)) as Hin.
  destruct (existsb (String.eqb (rec_message_id e)) (ids deduplicate d)).
  - split.
    + intros (Hrow & Hd & [Hf|Hs]); [discriminate Hf|]. tauto.
    + intros ((Hrow & Hd) & [Hno|Hs]); [exfalso; apply Hno, Hin; reflexivity|]. tauto.
  - split.
    + intros (Hrow & Hd & _). split; [tauto|]. left. intros H. apply Hin in H. discriminate H.
    + intros ((Hrow & Hd) & _). tauto.
Qed.

(** X24. A dry run of Phase 2 forwards nothing, yet records SUCCESS for every
    message it goes through. Those messages leave the queue, so no later
    run, dry or not, forwards them; without deduplication the queue is
    empty after the dry run. *)
Theorem phase2_dry_run_consumes_queue (deduplicate : bool) (d : database) :
  forwarded (phase2 true deduplicate d) = []
  /\ (forall m, In m (ids deduplicate d) ->
        StateManager.is_email_processed (out_db (phase2 true deduplicate d)) m
          PHASE2_FORWARD = true)
  /\ (forall m dry' deduplicate',
        In m (ids deduplicate d) ->
        ~ In m (forwarded (phase2 dry' deduplicate' (out_db (phase2 true deduplicate d)))))
  /\ (deduplicate = false -> queue (out_db (phase2 true deduplicate d)) = []).
Proof.
  assert (Hdone : forall m, In m (ids deduplicate d) ->
            StateManager.is_email_processed (out_db (phase2 true deduplicate d)) m
              PHASE2_FORWARD = true).
  { intros m Hin. rewrite phase2_done, String.eqb_refl.
    apply existsb_eqb_in in Hin. rewrite Hin. apply orb_true_r. }
  split; [apply phase2_trace|]. split; [exact Hdone|]. split.
  - intros m dry' deduplicate' Hin Hfw.
    destruct (phase2_trace dry' deduplicate' (out_db (phase2 true deduplicate d)))
      as (_ & Hf & _).
    rewrite Hf in Hfw. destruct dry'; [destruct Hfw|].
    apply ids_in_queue in Hfw as (e & He & <-).
    apply unprocessed_in in He as [_ He]. rewrite (Hdone _ Hin) in He. discriminate.
  - intros ->. destruct (queue (out_db (phase2 true false d))) as [|e rest] eqn:Hq;
      [reflexivity|].
    assert (He : In e (queue (out_db (phase2 true false d)))) by (rewrite Hq; left; reflexivity).
    apply unprocessed_in in He as [Hrow He]. exfalso.
    destruct (phase2_trace true false d) as (Hemails & _). rewrite Hemails in Hrow.
    assert (Hwas : StateManager.is_email_processed d (rec_message_id e) PHASE2_FORWARD
                   = false).
    { rewrite phase2_done in He. apply orb_false_iff in He. apply He. }
    assert (Hin : In (rec_message_id e) (ids false d)).
    { unfold message_ids. apply in_map, unprocessed_in. split; assumption. }
    rewrite (Hdone _ Hin) in He. discriminate He.
Qed.

(** X25. With deduplication, a row dropped as a duplicate is not marked: it is
    still waiting after the run, while the row kept in its place has left
    the queue when its forwarding returned. *)
Theorem phase2_duplicates_stay_queued (dry : bool) (d : database) (e : email_record) :
  keyed_by_id d ->
  In e (queue d) ->
  ~ In e (get_unique_emails fuzz_ratio {| fuzzy_threshold := 95 |} (queue d)) ->
  In e (queue (out_db (phase2 dry true d)))
  /\ ~ In (rec_message_id e) (forwarded (phase2 dry true d)).
Proof.
  intros Hkey He Hdrop.
  assert (Hno : ~ In (rec_message_id e) (ids true d)).
  { unfold message_ids. intros Hin. apply in_map_iff in Hin as (k & Hk & Hin).
    apply Hdrop. replace e with k; [exact Hin|].
    assert (Hkq : In k (queue d)).
    { apply list_elem_of_In.
      eapply elem_of_sublist; [apply list_elem_of_In, Hin | apply unique_from_sublist]. }
    apply unprocessed_in in Hkq as [[kk Hkk] _]. apply unprocessed_in in He as [[ke Hke] _].
    pose proof (Hkey _ _ Hkk). pose proof (Hkey _ _ Hke). congruence. }
  split.
  - apply unprocessed_in in He as [Hrow Hwait]. apply unprocessed_in.
    destruct (phase2_trace dry true d) as (-> & _). split; [exact Hrow|].
    rewrite phase2_done, Hwait.
    destruct (existsb (String.eqb (rec_message_id e)) (ids true d)) eqn:Hex.
    + exfalso. apply Hno, existsb_eqb_in, Hex.
    + rewrite andb_false_r. reflexivity.
  - destruct (phase2_trace dry true d) as (_ & -> & _). destruct dry; [intros []|exact Hno].
Qed.

End MorePhase2.

(** ** Retries *)

Section MoreRetry.

Context {A : Type}.
Variable request_func : nat -> Retry.response A.

Local Abbreviation retried n :=
  (exists status, request_func n = Retry.HttpError status
                  /\ In status [403; 429; 500; 503]).

Lemma retryable_in (status : Z) :
  existsb (Z.eqb status) [403; 429; 500; 503] = true <-> In status [403; 429; 500; 503].
Proof.
  rewrite existsb_exists. split.
  - intros (x & Hin & Heq). apply Z.eqb_eq in Heq. subst. exact Hin.
  - intros Hin. exists status. split; [exact Hin | apply Z.eqb_refl].
Qed.

Lemma backoff_loop_calls (max_retries : Z) (k made : nat) (slept : list Z) :
  (made + S k)%nat = Z.to_nat max_retries ->
  exists j,
    (made <= j < made + S k)%nat
    /\ Retry.calls (Retry.backoff_loop request_func max_retries (seq made (S k)) made slept)
       = S j
    /\ Retry.waits (Retry.backoff_loop request_func max_retries (seq made (S k)) made slept)
       = slept ++ map (fun n => 2 ^ Z.of_nat n) (seq made (j - made))
    /\ (forall n, (made <= n < j)%nat -> retried n)
    /\ match request_func j with
       | Retry.Returned a =>
           Retry.outcome
             (Retry.backoff_loop request_func max_retries (seq made (S k)) made slept)
           = Retry.Returned (Some a)
       | Retry.HttpError status =>
           Retry.outcome
             (Retry.backoff_loop request_func max_retries (seq made (S k)) made slept)
           = Retry.HttpError status
           /\ (In status [403; 429; 500; 503] -> Z.of_nat (S j) = max_retries)
       | Retry.Raised e =>
           Retry.outcome
             (Retry.backoff_loop request_func max_retries (seq made (S k)) made slept)
           = Retry.Raised e
       end.
Proof.
  revert made slept. induction k as [|k IH]; intros made slept Hlen.
  - cbn [seq Retry.backoff_loop]. destruct (request_func made) as [a|status|e] eqn:Hr.
    + exists made. rewrite Hr, Nat.sub_diag. cbn. rewrite app_nil_r.
      repeat split; try lia; try reflexivity; try (intros n Hn; lia).
    + assert (Hlast : (Z.of_nat made =? max_retries - 1) = true) by (apply Z.eqb_eq; lia).
      rewrite Hlast.
      exists made. rewrite Hr, Nat.sub_diag.
      destruct (existsb (Z.eqb status) [403; 429; 500; 503]); cbn; rewrite app_nil_r;
        repeat split; try lia; try reflexivity; try (intros n Hn; lia).
    + exists made. rewrite Hr, Nat.sub_diag. cbn. rewrite app_nil_r.
      repeat split; try lia; try reflexivity; try (intros n Hn; lia).
  - change (seq made (S (S k))) with (made :: seq (S made) (S k)).
    cbn [Retry.backoff_loop]. destruct (request_func made) as [a|status|e] eqn:Hr.
    + exists made. rewrite Hr, Nat.sub_diag. cbn. rewrite app_nil_r.
      repeat split; try lia; try reflexivity; try (intros n Hn; lia).
    + destruct (existsb (Z.eqb status) [403; 429; 500; 503]) eqn:Hs.
      * assert (Hlast : (Z.of_nat made =? max_retries - 1) = false) by (apply Z.eqb_neq; lia).
        rewrite Hlast.
        destruct (IH (S made) (slept ++ [2 ^ Z.of_nat made])) as (j & Hj & Hc & Hw & Hre & Hout);
          [lia|].
        exists j. split; [lia|]. split; [exact Hc|]. split; [|split; [|exact Hout]].
        -- rewrite Hw, <- app_assoc. f_equal.
           replace (j - made)%nat with (S (j - S made)) by lia. reflexivity.
        -- intros n Hn. destruct (Nat.eq_dec n made) as [->|Hne].
           ++ exists status. split; [exact Hr | apply retryable_in, Hs].
           ++ apply Hre. lia.
      * exists made. rewrite Hr, Nat.sub_diag. cbn. rewrite app_nil_r.
        split; [lia|]. split; [reflexivity|]. split; [reflexivity|].
        split; [intros n Hn; lia|]. split; [reflexivity|].
        intros Hin. apply retryable_in in Hin. congruence.
    + exists made. rewrite Hr, Nat.sub_diag. cbn. rewrite app_nil_r.
      repeat split; try lia; try reflexivity; try (intros n Hn; lia).
Qed.

(** X26. [make_request_with_backoff] calls [request_func] at most [max_retries]
    times. Every call but the last raised an [HttpError] with status 403,
    429, 500 or 503, and call number [n] (from 0) was followed by a wait of
    [2 ** n] seconds and a fraction. The result is that of the last call:
    its value, or its exception, which is raised at once unless it is such
    an [HttpError], and that one is raised only on the last attempt
    allowed. With [max_retries] below 1 nothing is called and [None] is
    returned. *)
Theorem make_request_with_backoff_calls (max_retries : Z) :
  (max_retries <= 0 ->
   Retry.make_request_with_backoff request_func max_retries
   = {| Retry.outcome := Retry.Returned None; Retry.calls := 0; Retry.waits := [] |})
  /\ (0 < max_retries ->
      exists j,
        Retry.calls (Retry.make_request_with_backoff request_func max_retries) = S j
        /\ Z.of_nat (S j) <= max_retries
        /\ Retry.waits (Retry.make_request_with_backoff request_func max_retries)
           = map (fun n => 2 ^ Z.of_nat n) (seq 0 j)
        /\ (forall n, (n < j)%nat -> retried n)
        /\ match request_func j with
           | Retry.Returned a =>
               Retry.outcome (Retry.make_request_with_backoff request_func max_retries)
               = Retry.Returned (Some a)
           | Retry.HttpError status =>
               Retry.outcome (Retry.make_request_with_backoff request_func max_retries)
               = Retry.HttpError status
               /\ (In status [403; 429; 500; 503] -> Z.of_nat (S j) = max_retries)
           | Retry.Raised e =>
               Retry.outcome (Retry.make_request_with_backoff request_func max_retries)
               = Retry.Raised e
           end).
Proof.
  unfold Retry.make_request_with_backoff. split.
  - intros Hle. replace (Z.to_nat max_retries) with 0%nat by lia. reflexivity.
  - intros Hpos.
    destruct (Z.to_nat max_retries) as [|k] eqn:Hk; [lia|].
    destruct (backoff_loop_calls max_retries k 0 []) as (j & Hj & Hc & Hw & Hre & Hout);
      [lia|].
    exists j. split; [exact Hc|]. split; [lia|]. split; [|split; [|exact Hout]].
    + rewrite Hw, Nat.sub_0_r. reflexivity.
    + intros n Hn. apply Hre. lia.
Qed.

End MoreRetry.

(** ** Pages of search results *)

Section MoreSearcher.

Context {A : Type}.
Variable fetch_page : nat -> option string -> Py.result (page A).

Local Abbreviation messages_of pages :=
  (concat (map (fun p : page A => default [] (page_messages p)) pages)).

Lemma pages_loop_served (pages : list (page A)) (fuel page_num : nat)
    (page_token : option string) (messages : list A) :
  served fetch_page (S page_num) page_token pages ->
  pages_loop fetch_page fuel page_num page_token messages
  = if (length pages <=? fuel)%nat then Some (Py.Ok (messages ++ messages_of pages))
    else None.
Proof.
  revert fuel page_num page_token messages.
  induction pages as [|p rest IH]; intros fuel page_num page_token messages Hs; [destruct Hs|].
  destruct Hs as [Hp Hrest]. destruct fuel as [|fuel]; [reflexivity|].
  cbn [pages_loop]. rewrite Hp. cbn [map concat length].
  assert (Hm : match page_messages p with
               | Some page_messages => messages ++ page_messages
               | None => messages
               end = messages ++ default [] (page_messages p)).
  { destruct (page_messages p); cbn; [reflexivity | rewrite app_nil_r; reflexivity]. }
  rewrite Hm. destruct rest as [|q rest'].
  - rewrite Hrest. cbn. rewrite app_nil_r. reflexivity.
  - destruct Hrest as [Ht Hrest]. rewrite Ht. cbn [negb].
    rewrite (IH fuel (S page_num) (nextPageToken p) _ Hrest).
    rewrite <- app_assoc. reflexivity.
Qed.

Lemma pages_loop_endless (fuel page_num : nat) (page_token : option string)
    (messages : list A) :
  (forall n t, exists p, fetch_page n t = Py.Ok p
                         /\ Py.truthy_opt (nextPageToken p) = true) ->
  pages_loop fetch_page fuel page_num page_token messages = None.
Proof.
  intros Hall. revert page_num page_token messages.
  induction fuel as [|fuel IH]; intros page_num page_token messages; [reflexivity|].
  cbn [pages_loop]. destruct (Hall (S page_num) page_token) as (p & -> & ->).
  cbn [negb]. apply IH.
Qed.

(** X27. When the service answers with a chain of pages, the last of which has
    no token (or an empty one), [list_messages_with_pagination] returns
    the messages of all the pages in order, a page without the key
    [messages] giving none; it asks for as many pages as the chain has
    and no more. A service that puts a token on every page keeps the
    search going for ever: however many pages are asked for, nothing is
    returned. *)
Theorem list_messages_with_pagination_pages (fuel : nat) :
  (forall pages,
      served fetch_page 1 None pages ->
      list_messages_with_pagination fetch_page fuel
      = if (length pages <=? fuel)%nat then Some (Py.Ok (messages_of pages)) else None)
  /\ ((forall n t, exists p, fetch_page n t = Py.Ok p
                             /\ Py.truthy_opt (nextPageToken p) = true) ->
      list_messages_with_pagination fetch_page fuel = None).
Proof.
  unfold list_messages_with_pagination. split.
  - intros pages Hs. rewrite (pages_loop_served pages fuel 0 None [] Hs). reflexivity.
  - intros Hall. apply pages_loop_endless, Hall.
Qed.

End MoreSearcher.

(** ** The content of a message *)

Lemma fold_set_header (hs : list Gmail.header) (c : Gmail.content) :
  let c' := fold_left Gmail.set_header hs c in
  Gmail.subject c' = default (Gmail.subject c) (Gmail.last_header "subject" hs)
  /\ Gmail.from_email c' = default (Gmail.from_email c) (Gmail.last_header "from" hs)
  /\ Gmail.msg_date c' = default (Gmail.msg_date c) (Gmail.last_header "date" hs)
  /\ Gmail.message_id c' = Gmail.message_id c
  /\ Gmail.thread_id c' = Gmail.thread_id c
  /\ Gmail.html_content c' = Gmail.html_content c
  /\ Gmail.text_content c' = Gmail.text_content c.
Proof.
  revert c. induction hs as [|h rest IH] using rev_ind; intros c; [cbn; tauto|].
  cbn zeta. rewrite fold_left_app. cbn [fold_left].
  destruct (IH c) as (H1 & H2 & H3 & H4 & H5 & H6 & H7). cbn zeta in *.
  unfold Gmail.last_header in *. rewrite !List.filter_app, !map_app. cbn [List.filter].
  unfold Gmail.set_header. cbn zeta.
  destruct (String.eqb (Py.lower (Gmail.name h)) "subject") eqn:E1;
    [apply String.eqb_eq in E1; try rewrite E1; cbn; rewrite ?last_snoc, ?app_nil_r; cbn;
     repeat split; assumption|].
  destruct (String.eqb (Py.lower (Gmail.name h)) "from") eqn:E2;
    [apply String.eqb_eq in E2; try rewrite E2; cbn; rewrite ?last_snoc, ?app_nil_r; cbn;
     repeat split; assumption|].
  destruct (String.eqb (Py.lower (Gmail.name h)) "date") eqn:E3;
    [apply String.eqb_eq in E3; try rewrite E3; cbn; rewrite ?last_snoc, ?app_nil_r; cbn;
     repeat split; assumption|].
  cbn. rewrite ?app_nil_r. repeat split; assumption.
Qed.

Lemma fold_set_header_key (hs : list Gmail.header) (d : Gmail.headers_dict) :
  let d' := fold_left Gmail.set_header_key hs d in
  Gmail.h_subject d'
  = match Gmail.last_header "subject" hs with Some v => Some v | None => Gmail.h_subject d end
  /\ Gmail.h_from d'
     = match Gmail.last_header "from" hs with Some v => Some v | None => Gmail.h_from d end
  /\ Gmail.h_date d'
     = match Gmail.last_header "date" hs with Some v => Some v | None => Gmail.h_date d end.
Proof.
  revert d. induction hs as [|h rest IH] using rev_ind; intros d; [cbn; tauto|].
  cbn zeta. rewrite fold_left_app. cbn [fold_left].
  destruct (IH d) as (H1 & H2 & H3). cbn zeta in *.
  unfold Gmail.last_header in *. rewrite !List.filter_app, !map_app. cbn [List.filter].
  unfold Gmail.set_header_key. cbn zeta.
  destruct (String.eqb (Py.lower (Gmail.name h)) "subject") eqn:E1;
    [apply String.eqb_eq in E1; try rewrite E1; cbn; rewrite ?last_snoc, ?app_nil_r; cbn;
     repeat split; assumption|].
  destruct (String.eqb (Py.lower (Gmail.name h)) "from") eqn:E2;
    [apply String.eqb_eq in E2; try rewrite E2; cbn; rewrite ?last_snoc, ?app_nil_r; cbn;
     repeat split; assumption|].
  destruct (String.eqb (Py.lower (Gmail.name h)) "date") eqn:E3;
    [apply String.eqb_eq in E3; try rewrite E3; cbn; rewrite ?last_snoc, ?app_nil_r; cbn;
     repeat split; assumption|].
  cbn. rewrite ?app_nil_r. repeat split; assumption.
Qed.

Lemma append_nil_r (s : string) : s +:+ "" = s.
Proof.
  induction s as [|c s IH]; [reflexivity|].
  change (String c s +:+ "") with (String c (s +:+ "")). rewrite IH. reflexivity.
Qed.

Lemma append_assoc (a b c : string) : (a +:+ b) +:+ c = a +:+ (b +:+ c).
Proof.
  induction a as [|x a IH]; [reflexivity|].
  change ((String x a +:+ b) +:+ c) with (String x ((a +:+ b) +:+ c)).
  rewrite IH. reflexivity.
Qed.

(** X28. Only the last header of a name counts, whatever the case of the name:
    [get_message_headers] has a key exactly when such a header is present,
    [extract_email_content] puts the empty string where it is absent, and
    the forwarded subject falls back on 'Flight Confirmation' only when the
    message has no Subject header at all (an empty one is kept). *)
Theorem headers_last_wins (decode : string -> Py.result string) (m : Gmail.message) :
  Gmail.h_subject (Gmail.get_message_headers m)
  = Gmail.last_header "subject" (Gmail.headers_of m)
  /\ Gmail.h_from (Gmail.get_message_headers m)
     = Gmail.last_header "from" (Gmail.headers_of m)
  /\ Gmail.h_date (Gmail.get_message_headers m)
     = Gmail.last_header "date" (Gmail.headers_of m)
  /\ Gmail.forward_subject m
     = "Fwd: " +:+ default "Flight Confirmation"
                     (Gmail.last_header "subject" (Gmail.headers_of m))
  /\ (forall c,
         Gmail.extract_email_content decode m = Py.Ok c ->
         Gmail.message_id c = Gmail.id m
         /\ Gmail.thread_id c = Gmail.threadId m
         /\ Gmail.subject c = default "" (Gmail.last_header "subject" (Gmail.headers_of m))
         /\ Gmail.from_email c = default "" (Gmail.last_header "from" (Gmail.headers_of m))
         /\ Gmail.msg_date c = default "" (Gmail.last_header "date" (Gmail.headers_of m))).
Proof.
  destruct (fold_set_header_key (Gmail.headers_of m)
              {| Gmail.h_subject := None; Gmail.h_from := None; Gmail.h_date := None |})
    as (H1 & H2 & H3).
  cbn zeta in H1, H2, H3. cbn [Gmail.h_subject Gmail.h_from Gmail.h_date] in H1, H2, H3.
  assert (Hs : Gmail.h_subject (Gmail.get_message_headers m)
               = Gmail.last_header "subject" (Gmail.headers_of m)).
  { unfold Gmail.get_message_headers. rewrite H1.
    destruct (Gmail.last_header "subject" (Gmail.headers_of m)); reflexivity. }
  split; [exact Hs|]. split; [|split; [|split]].
  - unfold Gmail.get_message_headers. rewrite H2.
    destruct (Gmail.last_header "from" (Gmail.headers_of m)); reflexivity.
  - unfold Gmail.get_message_headers. rewrite H3.
    destruct (Gmail.last_header "date" (Gmail.headers_of m)); reflexivity.
  - unfold Gmail.forward_subject. cbn zeta. rewrite Hs. reflexivity.
  - intros c. unfold Gmail.extract_email_content. cbn zeta.
    destruct (fold_set_header (Gmail.headers_of m)
                {| Gmail.message_id := Gmail.id m; Gmail.thread_id := Gmail.threadId m;
                   Gmail.subject := ""; Gmail.from_email := ""; Gmail.msg_date := "";
                   Gmail.html_content := ""; Gmail.text_content := "" |})
      as (G1 & G2 & G3 & G4 & G5 & _).
    cbn zeta in G1, G2, G3, G4, G5.
    destruct (Gmail.message_payload m) as [p|].
    + destruct (Gmail.extract_parts decode p _) as [[html text]|e]; [|discriminate].
      intros H. inversion H; subst; clear H. cbn. rewrite G1, G2, G3, G4, G5. cbn. tauto.
    + intros H. inversion H; subst; clear H. rewrite G1, G2, G3, G4, G5. cbn. tauto.
Qed.

Section MoreBodies.

Variable decode : string -> Py.result string.

Lemma decode_all_app (a b : list (string * string)) :
  Gmail.decode_all decode (a ++ b)
  = match Gmail.decode_all decode a with
    | Py.Raise e => Py.Raise e
    | Py.Ok da =>
        match Gmail.decode_all decode b with
        | Py.Raise e => Py.Raise e
        | Py.Ok db' => Py.Ok (da ++ db')
        end
    end.
Proof.
  induction a as [|[mt raw] a IH]; cbn [app Gmail.decode_all].
  - destruct (Gmail.decode_all decode b); reflexivity.
  - destruct (decode raw); [|reflexivity]. rewrite IH.
    destruct (Gmail.decode_all decode a); [|reflexivity].
    destruct (Gmail.decode_all decode b); reflexivity.
Qed.

Lemma texts_of_app (mime_type : string) (a b : list (string * string)) :
  Gmail.texts_of mime_type (a ++ b)
  = Gmail.texts_of mime_type a +:+ Gmail.texts_of mime_type b.
Proof.
  unfold Gmail.texts_of. rewrite List.filter_app, map_app.
  induction (map snd (List.filter (fun b0 => String.eqb (fst b0) mime_type) a))
    as [|x l IH]; cbn; [reflexivity|].
  rewrite IH, append_assoc. reflexivity.
Qed.

Lemma payload_induction (P : Gmail.payload -> Prop) :
  (forall hs mt bd, P (Gmail.Payload hs mt bd None)) ->
  (forall hs mt bd ps, Forall P ps -> P (Gmail.Payload hs mt bd (Some ps))) ->
  forall p, P p.
Proof.
  intros Hleaf Hnode. fix IH 1. intros [hs mt bd [ps|]]; [|apply Hleaf].
  apply Hnode. induction ps as [|q rest IHps]; constructor; [apply IH | exact IHps].
Qed.

Lemma extract_parts_bodies (p : Gmail.payload) :
  forall acc,
    Gmail.extract_parts decode p acc
    = match Gmail.decode_all decode (Gmail.bodies p) with
      | Py.Raise e => Py.Raise e
      | Py.Ok decoded =>
          Py.Ok (fst acc +:+ Gmail.texts_of "text/html" decoded,
                 snd acc +:+ Gmail.texts_of "text/plain" decoded)
      end.
Proof.
  induction p as [hs mt bd|hs mt bd ps IH] using payload_induction; intros acc.
  - cbn [Gmail.extract_parts Gmail.bodies]. destruct bd as [raw|].
    + cbn [Gmail.decode_all]. destruct (decode raw) as [data|e]; [|reflexivity].
      unfold Gmail.texts_of. cbn [List.filter fst snd].
      destruct (String.eqb (default "" mt) "text/html") eqn:E1.
      * apply String.eqb_eq in E1. rewrite E1. cbn.
        rewrite !append_nil_r. reflexivity.
      * destruct (String.eqb (default "" mt) "text/plain") eqn:E2; cbn;
          rewrite !append_nil_r; destruct acc; reflexivity.
    + cbn. rewrite !append_nil_r. destruct acc; reflexivity.
  - cbn [Gmail.extract_parts Gmail.bodies]. revert acc.
    induction IH as [|q rest Hq _ IHrest]; intros acc.
    + cbn. rewrite !append_nil_r. destruct acc; reflexivity.
    + rewrite Hq, decode_all_app.
      destruct (Gmail.decode_all decode (Gmail.bodies q)) as [dq|e]; [|reflexivity].
      rewrite IHrest.
      match goal with
      | |- context [Gmail.decode_all decode ?l] =>
          destruct (Gmail.decode_all decode l) as [dr|e]; [|reflexivity]
      end.
      cbn [fst snd]. rewrite !texts_of_app, !append_assoc. reflexivity.
Qed.

(** X29. [extract_email_content] decodes the bodies of the message in document
    order, those of the parts in place of its own for a payload that has
    parts. The HTML content is the text of the bodies of type 'text/html'
    one after the other, the text content that of the bodies of type
    'text/plain'. A body that cannot be decoded makes the call raise,
    whatever its type. *)
Theorem extract_email_content_bodies (m : Gmail.message) :
  match Gmail.decode_all decode (Gmail.bodies_of m) with
  | Py.Raise e => Gmail.extract_email_content decode m = Py.Raise e
  | Py.Ok decoded =>
      exists c,
        Gmail.extract_email_content decode m = Py.Ok c
        /\ Gmail.html_content c = Gmail.texts_of "text/html" decoded
        /\ Gmail.text_content c = Gmail.texts_of "text/plain" decoded
  end.
Proof.
  unfold Gmail.extract_email_content, Gmail.bodies_of. cbn zeta.
  destruct (fold_set_header (Gmail.headers_of m)
              {| Gmail.message_id := Gmail.id m; Gmail.thread_id := Gmail.threadId m;
                 Gmail.subject := ""; Gmail.from_email := ""; Gmail.msg_date := "";
                 Gmail.html_content := ""; Gmail.text_content := "" |})
    as (_ & _ & _ & _ & _ & G6 & G7).
  cbn zeta in G6, G7. cbn [Gmail.html_content Gmail.text_content] in G6, G7.
  destruct (Gmail.message_payload m) as [p|].
  - rewrite extract_parts_bodies, G6, G7.
    destruct (Gmail.decode_all decode (Gmail.bodies p)) as [decoded|e]; [|reflexivity].
    cbn [fst snd]. eexists. split; [reflexivity|]. cbn. split; reflexivity.
  - cbn. eexists. split; [reflexivity|]. split; assumption.
Qed.

End MoreBodies.

(** ** Phase 1 and its labels *)

Section MorePhase1Labels.

Variable json_loads : string -> Py.result json.
Variable re_search : string -> string -> list re_flag -> option (list string).
Variable re_findall : string -> string -> list string.
Variable get_message : string -> Py.result email_data.
Variable batch_modify : list string -> string -> Py.result unit.

Local Abbreviation sweep_of := (phase1_label_emails json_loads re_search re_findall get_message).
Local Abbreviation run1 :=
  (phase1_with_labels json_loads re_search re_findall get_message batch_modify).

Lemma run1_sweep (dry : bool) (label_id : string) (d : database) (ml : list string) :
  fst (run1 dry label_id d ml) = sweep_of d ml.
Proof.
  unfold phase1_with_labels. destruct (flight_messages (sweep_of d ml)); [reflexivity|].
  destruct (negb (DryRunManager.is_enabled dry)); reflexivity.
Qed.

Lemma run1_labelled (dry : bool) (label_id : string) (d : database) (ml : list string) :
  labelled_messages (run1 dry label_id d ml)
  = if dry then []
    else concat (modified (apply_label_body batch_modify label_id 1000
                             (flight_messages (sweep_of d ml)))).
Proof.
  unfold labelled_messages, phase1_with_labels, DryRunManager.is_enabled.
  destruct (flight_messages (sweep_of d ml)) as [|m rest] eqn:Hf.
  - destruct dry; reflexivity.
  - destruct dry; reflexivity.
Qed.

(** X30. The label goes to messages of the batch the sweep has put together, in
    order: to all of them when no request fails, to none in a dry run. A
    message of the batch is done for Phase 1 whether or not its label was
    applied, so no later run on the same database labels it. *)
Theorem phase1_labels_only_in_finding_run (dry : bool) (label_id : string) (d : database)
    (message_list : list string) :
  labelled_messages (run1 dry label_id d message_list)
    `prefix_of` flight_messages (fst (run1 dry label_id d message_list))
  /\ (dry = true -> labelled_messages (run1 dry label_id d message_list) = [])
  /\ (dry = false -> (forall batch, batch_modify batch label_id = Py.Ok tt) ->
      labelled_messages (run1 dry label_id d message_list)
      = flight_messages (fst (run1 dry label_id d message_list)))
  /\ (forall m dry' label_id' message_list',
         In m (flight_messages (fst (run1 dry label_id d message_list))) ->
         ~ In m (labelled_messages
                   (run1 dry' label_id' (db (fst (run1 dry label_id d message_list)))
                      message_list'))).
Proof.
  assert (Hpre : forall dry0 label0 d0 ml0,
            labelled_messages (run1 dry0 label0 d0 ml0)
              `prefix_of` flight_messages (sweep_of d0 ml0)).
  { intros dry0 label0 d0 ml0. rewrite run1_labelled. destruct dry0; [apply prefix_nil|].
    apply apply_label_body_sent. lia. }
  rewrite !run1_sweep. split; [apply Hpre|]. split; [|split].
  - intros ->. rewrite run1_labelled. reflexivity.
  - intros -> Hok. rewrite run1_labelled.
    apply (apply_label_body_sent batch_modify); [lia | exact Hok].
  - intros m dry' label_id' message_list' Hin Hlab.
    destruct (fold_flights_done json_loads re_search re_findall get_message message_list
                {| db := d; flight_messages := []; fetched := [] |}
                ltac:(intros m0 []) m Hin) as (Hdone & _).
    fold (sweep_of d message_list) in Hdone.
    remember (db (sweep_of d message_list)) as d1 eqn:Hd1. clear Hd1 Hin.
    pose proof (Hpre dry' label_id' d1 message_list') as Hp.
    assert (Hfl : In m (flight_messages
                          (sweep_of d1 message_list'))).
    { apply list_elem_of_In. eapply elem_of_prefix; [|exact Hp].
      apply list_elem_of_In, Hlab. }
    destruct (fold_sweep_trace json_loads re_search re_findall get_message message_list'
                {| db := d1; flight_messages := []; fetched := [] |})
      as (evs & f' & fl' & _ & Hf & Hfls & _ & _ & _ & Hsub).
    cbn [fetched flight_messages app] in Hf, Hfls.
    destruct (fold_skips json_loads re_search re_findall get_message message_list'
                {| db := d1; flight_messages := []; fetched := [] |} m Hdone) as [Hno _].
    apply Hno; [intros []|].
    unfold phase1_label_emails in Hfl. rewrite Hfls in Hfl. rewrite Hf.
    apply list_elem_of_In. eapply elem_of_sublist; [|exact Hsub].
    apply list_elem_of_In, Hfl.
Qed.

End MorePhase1Labels.

(** ** The properties on sample inputs *)

(** X1 on the address "NoReply@United.COM.evil.example". *)
Lemma is_airline_domain_substring_witness :
  (In "united.com" AIRLINE_DOMAINS /\ Py.lower "United.COM" = "united.com")
  /\ is_airline_domain ("NoReply@" +:+ "United.COM" +:+ ".evil.example") = true.
Proof.
  assert (H1 : In "united.com" AIRLINE_DOMAINS) by (left; reflexivity).
  assert (H2 : Py.lower "United.COM" = "united.com") by reflexivity.
  split; [exact (conj H1 H2)|].
  exact (is_airline_domain_substring "united.com" "United.COM" "NoReply@" ".evil.example" H1 H2).
Defined.

(** X3 on a body whose only script is cut short and which has a Microdata
    reservation. *)
Lemma undecodable_scripts_are_skipped_witness :
  (forall script s,
      In script (Soup.find_all_with "script" "type" "application/ld+json"
                   Fixture.broken_script) ->
      Soup.string_of script = Some s -> JsonText.loads s = Py.Raise Py.JSONDecodeError)
  /\ has_flight_reservation_schema JsonText.loads Fixture.broken_script = true.
Proof.
  assert (H : forall script s,
             In script (Soup.find_all_with "script" "type" "application/ld+json"
                          Fixture.broken_script) ->
             Soup.string_of script = Some s ->
             JsonText.loads s = Py.Raise Py.JSONDecodeError).
  { intros script s [<-|[]] Hs. vm_compute in Hs. inversion Hs. vm_compute. reflexivity. }
  split; [exact H|].
  exact (undecodable_scripts_are_skipped JsonText.loads Fixture.broken_script H).
Defined.


(** X6 on a reservation whose [reservationFor] is the text "UA456". *)
Lemma reservation_number_survives_error_witness :
  (Soup.find_all_with "script" "type" "application/ld+json" Fixture.flight_as_text
   = [Sample.ld_json Fixture.flight_as_text_json]
   /\ Soup.find_with "div" "itemtype" SCHEMA_FLIGHT_RESERVATION Fixture.flight_as_text = None
   /\ Soup.string_of (Sample.ld_json Fixture.flight_as_text_json)
      = Some (JsonText.dq Fixture.flight_as_text_json)
   /\ JsonText.dq Fixture.flight_as_text_json <> ""
   /\ JsonText.loads (JsonText.dq Fixture.flight_as_text_json)
      = Py.Ok (JObj Fixture.flight_as_text_members)
   /\ Json.field_is "@type" "FlightReservation" Fixture.flight_as_text_members = true
   /\ Json.get "reservationNumber" Fixture.flight_as_text_members = Some (JStr "ABC123")
   /\ Json.get "reservationFor" Fixture.flight_as_text_members = Some (JStr "UA456")
   /\ (forall fields, JStr "UA456" <> JObj fields))
  /\ parse_schema_org JsonText.loads Fixture.flight_as_text
     = Py.Ok (Some (Details.set_booking_reference (JStr "ABC123") Details.empty)).
Proof.
  assert (H1 : Soup.find_all_with "script" "type" "application/ld+json" Fixture.flight_as_text
               = [Sample.ld_json Fixture.flight_as_text_json]) by (vm_compute; reflexivity).
  assert (H2 : Soup.find_with "div" "itemtype" SCHEMA_FLIGHT_RESERVATION
                 Fixture.flight_as_text = None) by (vm_compute; reflexivity).
  assert (H3 : Soup.string_of (Sample.ld_json Fixture.flight_as_text_json)
               = Some (JsonText.dq Fixture.flight_as_text_json)) by (vm_compute; reflexivity).
  assert (H4 : JsonText.dq Fixture.flight_as_text_json <> "") by (vm_compute; discriminate).
  assert (H5 : JsonText.loads (JsonText.dq Fixture.flight_as_text_json)
               = Py.Ok (JObj Fixture.flight_as_text_members)) by (vm_compute; reflexivity).
  assert (H6 : Json.field_is "@type" "FlightReservation" Fixture.flight_as_text_members = true)
    by (vm_compute; reflexivity).
  assert (H7 : Json.get "reservationNumber" Fixture.flight_as_text_members
               = Some (JStr "ABC123")) by (vm_compute; reflexivity).
  assert (H8 : Json.get "reservationFor" Fixture.flight_as_text_members
               = Some (JStr "UA456")) by (vm_compute; reflexivity).
  assert (H9 : forall fields, JStr "UA456" <> JObj fields) by (intros fields; discriminate).
  split; [exact (conj H1 (conj H2 (conj H3 (conj H4 (conj H5 (conj H6 (conj H7 (conj H8 H9))))))))|].
  exact (reservation_number_survives_error JsonText.loads Fixture.flight_as_text
           (Sample.ld_json Fixture.flight_as_text_json)
           (JsonText.dq Fixture.flight_as_text_json) Fixture.flight_as_text_members
           (JStr "ABC123") (JStr "UA456") H1 H2 H3 H4 H5 H6 H7 H8 H9).
Defined.

(** X8 on the text of the repository's parser test. *)
Lemma extract_flight_info_regex_shape_witness :
  extract_flight_info_regex Regex.re_search Regex.re_findall Fixture.itinerary_text
  = Some Fixture.itinerary
  /\ Details.truthy Fixture.itinerary = true /\ Inv.free_text_shape Fixture.itinerary.
Proof.
  assert (H : extract_flight_info_regex Regex.re_search Regex.re_findall
                Fixture.itinerary_text = Some Fixture.itinerary) by (vm_compute; reflexivity).
  split; [exact H|].
  exact (extract_flight_info_regex_shape Regex.re_search Regex.re_findall
           Fixture.itinerary_text Fixture.itinerary H).
Defined.

(** X9 on a text that starts with THE and names two airports. *)
Lemma fallback_skips_common_words_witness :
  (Regex.re_search "\b([A-Z]{3})\s*(?:to|→|-|–)\s*([A-Z]{3})\b" Fixture.prose_text [] = None
   /\ extract_flight_info_regex Regex.re_search Regex.re_findall Fixture.prose_text
      = Some Fixture.prose
   /\ (departure_airport Fixture.prose = Some (JStr "SFO")
       \/ arrival_airport Fixture.prose = Some (JStr "SFO")))
  /\ In "SFO" (Regex.re_findall "\b([A-Z]{3})\b" Fixture.prose_text)
  /\ ~ In "SFO" FALSE_POSITIVES.
Proof.
  assert (H1 : Regex.re_search "\b([A-Z]{3})\s*(?:to|→|-|–)\s*([A-Z]{3})\b"
                 Fixture.prose_text [] = None) by (vm_compute; reflexivity).
  assert (H2 : extract_flight_info_regex Regex.re_search Regex.re_findall Fixture.prose_text
               = Some Fixture.prose) by (vm_compute; reflexivity).
  assert (H3 : departure_airport Fixture.prose = Some (JStr "SFO")
               \/ arrival_airport Fixture.prose = Some (JStr "SFO")) by (left; reflexivity).
  split; [exact (conj H1 (conj H2 H3))|].
  exact (fallback_skips_common_words Regex.re_search Regex.re_findall
           Fixture.prose_text Fixture.prose "SFO" H1 H2 H3).
Defined.

(** X13 on the five records of the deduplication scenario: the second
    record, dropped, is represented by a record kept. *)
Lemma get_unique_emails_represents_witness :
  (In (Sample.record "m2" "ABC123") Sample.five
   /\ pnr (Sample.record "m2" "ABC123") = Some "ABC123" /\ "ABC123" <> "")
  /\ exists k q,
       In k (get_unique_emails Fuzz.ratio Sample.default_dedup Sample.five)
       /\ pnr k = Some q /\ q <> ""
       /\ are_pnrs_duplicate Fuzz.ratio Sample.default_dedup
            (Some (Py.upper "ABC123")) (Some (Py.upper q)) = true.
Proof.
  assert (H1 : In (Sample.record "m2" "ABC123") Sample.five) by (right; left; reflexivity).
  assert (H2 : pnr (Sample.record "m2" "ABC123") = Some "ABC123") by reflexivity.
  assert (H3 : "ABC123" <> "") by discriminate.
  split; [exact (conj H1 (conj H2 H3))|].
  exact (get_unique_emails_represents Fuzz.ratio Sample.default_dedup Sample.five
           (Sample.record "m2" "ABC123") "ABC123" H1 H2 H3).
Defined.

(** X15 on a message saved with its reference alone. *)
Lemma save_email_get_email_witness :
  (Inv.text (Some (JStr "ABC123")) /\ Inv.text None
   /\ StateManager.save_email Sample.ledger "m9" None None None None
        (Some (JStr "ABC123")) None None None = Py.Ok Fixture.saved)
  /\ StateManager.get_email Fixture.saved "m9" = Some (Sample.record "m9" "ABC123")
  /\ processing_state Fixture.saved = processing_state Sample.ledger.
Proof.
  assert (T1 : Inv.text (Some (JStr "ABC123"))) by exact I.
  assert (T2 : Inv.text None) by exact I.
  assert (H : StateManager.save_email Sample.ledger "m9" None None None None
                (Some (JStr "ABC123")) None None None = Py.Ok Fixture.saved) by reflexivity.
  split; [exact (conj T1 (conj T2 H))|].
  destruct (save_email_get_email Sample.ledger Fixture.saved "m9" None None None None
              (Some (JStr "ABC123")) None None None T1 T2 T2 T2 H)
    as (Hrow & _ & Hledger & _).
  exact (conj Hrow Hledger).
Defined.

(** X16 on a confirmed reservation whose number is a list of two
    references. *)
Lemma unbindable_field_fails_message_witness :
  (StateManager.is_email_processed (db Fixture.fresh) "m7" PHASE1_LABEL = false
   /\ Fixture.get_listed "m7" = Py.Ok (Sample.html_only "m7" Fixture.listed_number)
   /\ fst (classify JsonText.loads Regex.re_search Regex.re_findall
             (Sample.html_only "m7" Fixture.listed_number)) = true
   /\ parse JsonText.loads Regex.re_search Regex.re_findall
        (Sample.html_only "m7" Fixture.listed_number) = Some Fixture.listed
   /\ Exists Inv.unbindable
        [booking_reference Fixture.listed; flight_number Fixture.listed;
         departure_airport Fixture.listed; arrival_airport Fixture.listed])
  /\ (exists error_msg,
         sweep_message JsonText.loads Regex.re_search Regex.re_findall Fixture.get_listed
           Fixture.fresh "m7"
         = {| db := StateManager.mark_email_processed Sample.ledger "m7" PHASE1_LABEL
                      "FAILED" (Some error_msg);
              flight_messages := []; fetched := ["m7"] |}).
Proof.
  assert (H1 : StateManager.is_email_processed (db Fixture.fresh) "m7" PHASE1_LABEL = false)
    by (vm_compute; reflexivity).
  assert (H2 : Fixture.get_listed "m7" = Py.Ok (Sample.html_only "m7" Fixture.listed_number))
    by reflexivity.
  assert (H3 : fst (classify JsonText.loads Regex.re_search Regex.re_findall
                      (Sample.html_only "m7" Fixture.listed_number)) = true)
    by (vm_compute; reflexivity).
  assert (H4 : parse JsonText.loads Regex.re_search Regex.re_findall
                 (Sample.html_only "m7" Fixture.listed_number) = Some Fixture.listed)
    by (vm_compute; reflexivity).
  assert (H5 : Exists Inv.unbindable
                 [booking_reference Fixture.listed; flight_number Fixture.listed;
                  departure_airport Fixture.listed; arrival_airport Fixture.listed]).
  { apply Exists_cons_hd. left. eexists. reflexivity. }
  split; [exact (conj H1 (conj H2 (conj H3 (conj H4 H5))))|].
  exact (proj1 (proj2 (unbindable_field_fails_message JsonText.loads Regex.re_search
                         Regex.re_findall Fixture.get_listed Fixture.fresh "m7"
                         (Sample.html_only "m7" Fixture.listed_number) Fixture.listed
                         H1 H2 H3 H4 H5))).
Defined.

(** X19 on a sweep over three candidates, of which [m1] is a flight
    confirmation. *)
Lemma flight_messages_saved_and_done_witness :
  In "m1" (flight_messages
             (phase1_label_emails JsonText.loads Regex.re_search Regex.re_findall
                Sample.get_message Sample.ledger ["m2"; "m1"; "m3"]))
  /\ StateManager.is_email_processed
       (db (phase1_label_emails JsonText.loads Regex.re_search Regex.re_findall
              Sample.get_message Sample.ledger ["m2"; "m1"; "m3"]))
       "m1" PHASE1_LABEL = true
  /\ is_Some (StateManager.get_email
                (db (phase1_label_emails JsonText.loads Regex.re_search Regex.re_findall
                       Sample.get_message Sample.ledger ["m2"; "m1"; "m3"]))
                "m1").
Proof.
  assert (H : In "m1" (flight_messages
                         (phase1_label_emails JsonText.loads Regex.re_search
                            Regex.re_findall Sample.get_message Sample.ledger
                            ["m2"; "m1"; "m3"]))) by (vm_compute; left; reflexivity).
  split; [exact H|].
  destruct (flight_messages_saved_and_done JsonText.loads Regex.re_search Regex.re_findall
              Sample.get_message Sample.ledger ["m2"; "m1"; "m3"] "m1" H)
    as (Hdone & Hrow & _).
  exact (conj Hdone Hrow).
Defined.

Lemma two_rows_keyed : keyed_by_id Fixture.two_rows.
Proof.
  intros k e. unfold Fixture.two_rows. cbn [emails].
  destruct (String.eqb_spec k "m1") as [->|H1].
  - rewrite lookup_insert_eq. intros H. inversion H. reflexivity.
  - rewrite lookup_insert_ne by congruence.
    destruct (String.eqb_spec k "m2") as [->|H2].
    + rewrite lookup_insert_eq. intros H. inversion H. reflexivity.
    + rewrite lookup_insert_ne by congruence. rewrite lookup_empty. discriminate.
Defined.

(** X25 on two rows with the reference ABC123 in different case: the
    second is dropped, not forwarded, and still waiting after the run. *)
Lemma phase2_duplicates_stay_queued_witness :
  (keyed_by_id Fixture.two_rows
   /\ In (Sample.record "m2" "abc123")
        (get_unprocessed_emails Fixture.two_rows PHASE2_FORWARD)
   /\ ~ In (Sample.record "m2" "abc123")
          (get_unique_emails Fuzz.ratio {| fuzzy_threshold := 95 |}
             (get_unprocessed_emails Fixture.two_rows PHASE2_FORWARD)))
  /\ In (Sample.record "m2" "abc123")
       (get_unprocessed_emails
          (out_db (phase2_forward_emails Fuzz.ratio (fun m => Py.Ok m) false true
                     Fixture.two_rows))
          PHASE2_FORWARD)
  /\ ~ In "m2" (forwarded (phase2_forward_emails Fuzz.ratio (fun m => Py.Ok m) false true
                             Fixture.two_rows)).
Proof.
  assert (H1 : keyed_by_id Fixture.two_rows) by exact two_rows_keyed.
  assert (H2 : In (Sample.record "m2" "abc123")
                 (get_unprocessed_emails Fixture.two_rows PHASE2_FORWARD))
    by (vm_compute; right; left; reflexivity).
  assert (H3 : ~ In (Sample.record "m2" "abc123")
                 (get_unique_emails Fuzz.ratio {| fuzzy_threshold := 95 |}
                    (get_unprocessed_emails Fixture.two_rows PHASE2_FORWARD)))
    by (vm_compute; intros [H|[]]; discriminate H).
  split; [exact (conj H1 (conj H2 H3))|].
  exact (phase2_duplicates_stay_queued Fuzz.ratio (fun m => Py.Ok m) false
           Fixture.two_rows (Sample.record "m2" "abc123") H1 H2 H3).
Defined.

(** X27 on a search answered in two pages. *)
Lemma list_messages_with_pagination_pages_witness :
  served Fixture.fetch_page 1 None [Fixture.first_page; Fixture.last_page]
  /\ list_messages_with_pagination Fixture.fetch_page 5 = Some (Py.Ok ["m1"; "m2"])
  /\ list_messages_with_pagination Fixture.fetch_page 1 = None.
Proof.
  assert (H : served Fixture.fetch_page 1 None [Fixture.first_page; Fixture.last_page])
    by (cbn; repeat split; reflexivity).
  split; [exact H|]. split.
  - exact (proj1 (list_messages_with_pagination_pages Fixture.fetch_page 5)
             [Fixture.first_page; Fixture.last_page] H).
  - exact (proj1 (list_messages_with_pagination_pages Fixture.fetch_page 1)
             [Fixture.first_page; Fixture.last_page] H).
Defined.

(** ** The new code on sample inputs *)

Example backoff_after_two_failures :
  Retry.make_request_with_backoff Fixture.flaky 5
  = {| Retry.outcome := Retry.Returned (Some "ok"); Retry.calls := 3;
       Retry.waits := [1; 2] |}.
Proof. vm_compute. reflexivity. Qed.

Example backoff_gives_up :
  Retry.make_request_with_backoff Fixture.always_limited 5
  = {| Retry.outcome := Retry.HttpError 429; Retry.calls := 5;
       Retry.waits := [1; 2; 4; 8] |}.
Proof. vm_compute. reflexivity. Qed.

Example label_five_by_two :
  apply_label_to_messages Fixture.modify_ok false Fixture.five_ids "Label_1" 2
  = {| labeled := Py.Ok (Some 5); modified := [["a"; "b"]; ["c"; "d"]; ["e"]] |}.
Proof. vm_compute. reflexivity. Qed.

Example label_stops_at_failure :
  apply_label_to_messages Fixture.modify_refuses_c false Fixture.five_ids "Label_1" 2
  = {| labeled := Py.Raise (Py.OtherError "HttpError 400"); modified := [["a"; "b"]] |}.
Proof. vm_compute. reflexivity. Qed.

Example forward_five_by_two :
  forward_messages_batch
    (fun m => if String.eqb m "c" then Py.Raise (Py.OtherError "HttpError 400") else Py.Ok m)
    Fixture.five_ids 2
  = Py.Ok {| success := 4; failed := 1; failed_ids := ["c"] |}.
Proof. vm_compute. reflexivity. Qed.

Example extract_multipart :
  Gmail.extract_email_content Fixture.decode Fixture.multipart
  = Py.Ok {| Gmail.message_id := "m1"; Gmail.thread_id := Some "t1";
             Gmail.subject := "second"; Gmail.from_email := "noreply@united.com";
             Gmail.msg_date := ""; Gmail.html_content := "<p>one</p><p>two</p>";
             Gmail.text_content := "plain text" |}
  /\ Gmail.forward_subject Fixture.multipart = "Fwd: second".
Proof. vm_compute. split; reflexivity. Qed.

Example extract_bad_attachment :
  Gmail.extract_email_content Fixture.decode Fixture.bad_attachment
  = Py.Raise (Py.OtherError "binascii.Error").
Proof. vm_compute. reflexivity. Qed.

Example phase2_dry_run_then_real_run :
  forwarded
    (phase2_forward_emails Fuzz.ratio (fun m => Py.Ok m) false false
       (out_db (phase2_forward_emails Fuzz.ratio (fun m => Py.Ok m) true false
                  Fixture.two_rows)))
  = []
  /\ forwarded (phase2_forward_emails Fuzz.ratio (fun m => Py.Ok m) false false
                  Fixture.two_rows)
     = ["m1"; "m2"].
Proof. vm_compute. split; reflexivity. Qed.
